(** * The embedding step of the few-shot classification pipeline

    A shallow embedding of [classification/src/steps/embedding.py]: the class
    [Embedding] with its methods [__init__], [apply], [dump_output],
    [_load_model], [_get_data_loader_and_outfile] and [_save_features], over
    an explicit model of the Python objects it touches (strings,
    insertion-ordered dictionaries living in a heap, numpy/h5py arrays
    updated by slice) and of the world it acts on (directories, archives, a
    trace of effects). *)

From Stdlib Require Import ZArith Lia Bool Ascii DecimalString DecimalZ.
From stdpp Require Import base list strings.

Local Open Scope Z_scope.
Local Open Scope nat_scope.

(** ** Python strings *)

Module Str.

(** [s.startswith(pat)] *)
Fixpoint startswith (s pat : string) {struct pat} : bool :=
  match pat, s with
  | EmptyString, _ => true
  | String _ _, EmptyString => false
  | String p pat', String c s' => Ascii.eqb c p && startswith s' pat'
  end.

(** [pat in s]: [pat] occurs somewhere in [s]. *)
Fixpoint contains (pat s : string) : bool :=
  startswith s pat ||
  match s with
  | EmptyString => false
  | String _ s' => contains pat s'
  end.

(** [s.replace(old, new)] for a non-empty [old]: a left-to-right scan that
    replaces every non-overlapping occurrence. [skip] counts the characters
    of an occurrence that are still to be dropped. *)
Fixpoint replace_from (old new : string) (skip : nat) (s : string) : string :=
  match s with
  | EmptyString => EmptyString
  | String c s' =>
      match skip with
      | S k => replace_from old new k s'
      | O =>
          if startswith s old
          then new +:+ replace_from old new (String.length old - 1) s'
          else String c (replace_from old new 0 s')
      end
  end.

(** [s.replace("", new)] puts [new] before every character and at the end. *)
Fixpoint interleave (new s : string) : string :=
  match s with
  | EmptyString => new
  | String c s' => new +:+ String c (interleave new s')
  end.

Definition replace (s old new : string) : string :=
  match old with
  | EmptyString => interleave new s
  | String _ _ => replace_from old new 0 s
  end.

(** ['{:d}'.format(n)] and [f'{n}'] for an integer [n]. *)
Definition of_int (n : Z) : string := NilZero.string_of_int (Z.to_int n).

End Str.

(** ** [os.path] on POSIX *)

Module OsPath.

Definition is_sep (c : ascii) : bool := Ascii.eqb c "/"%char.

Fixpoint endswith_sep (s : string) : bool :=
  match s with
  | EmptyString => false
  | String c EmptyString => is_sep c
  | String _ s' => endswith_sep s'
  end.

(** [os.path.join(a, b)]: an absolute [b] discards [a]. *)
Definition join (a b : string) : string :=
  if Str.startswith b "/" then b
  else if bool_decide (a = "") || endswith_sep a then a +:+ b
  else a +:+ "/" +:+ b.

(** [p[:p.rfind('/') + 1]] *)
Fixpoint head (p : string) : string :=
  match p with
  | EmptyString => EmptyString
  | String c p' =>
      let h := head p' in
      if is_sep c || negb (bool_decide (h = "")) then String c h else EmptyString
  end.

Fixpoint all_sep (s : string) : bool :=
  match s with
  | EmptyString => true
  | String c s' => is_sep c && all_sep s'
  end.

(** [s.rstrip('/')] *)
Fixpoint rstrip_sep (s : string) : string :=
  match s with
  | EmptyString => EmptyString
  | String c s' =>
      let r := rstrip_sep s' in
      if is_sep c && bool_decide (r = "") then EmptyString else String c r
  end.

(** [os.path.dirname(p)] *)
Definition dirname (p : string) : string :=
  let h := head p in
  if negb (bool_decide (h = "")) && negb (all_sep h) then rstrip_sep h else h.

End OsPath.

(** ** Python dictionaries

    A [dict] keeps its entries in insertion order, and [list(d.keys())]
    observes that order, so a dictionary is an association list with at most
    one entry per key. *)

Module Dict.

Definition t (V : Type) : Type := list (string * V).

Definition keys {V} (d : t V) : list string := d.*1.

(** [d.get(k)] *)
Fixpoint get {V} (d : t V) (k : string) : option V :=
  match d with
  | [] => None
  | (k', v) :: d' => if String.eqb k' k then Some v else get d' k
  end.

(** [d.pop(k)]: the value and the dictionary without the entry; [None]
    stands for the [KeyError] of a missing key. *)
Fixpoint pop {V} (d : t V) (k : string) : option (V * t V) :=
  match d with
  | [] => None
  | (k', v) :: d' =>
      if String.eqb k' k then Some (v, d')
      else match pop d' k with
           | Some (x, r) => Some (x, (k', v) :: r)
           | None => None
           end
  end.

(** [d[k] = v]: an existing key keeps its place, a new key goes last. *)
Fixpoint set {V} (d : t V) (k : string) (v : V) : t V :=
  match d with
  | [] => [(k, v)]
  | (k', v') :: d' =>
      if String.eqb k' k then (k', v) :: d' else (k', v') :: set d' k v
  end.

End Dict.

(** ** numpy and h5py arrays along their first axis *)

Inductive exn : Type :=
  | KeyError (k : string)
  | TypeError
  | AttributeError
  | RuntimeError
  | AssertionError
  | ValueError
  | IndexError
  | OSError.

Module Arr.

(** [a[lo:hi] = v]. The slice is clipped to the array; the rows of [v] must
    fill it exactly, except that a single row is broadcast over it. Within
    the capacity of the array h5py datasets and numpy arrays agree on this. *)
Definition setslice {A} (a : list A) (lo hi : nat) (v : list A) : exn + list A :=
  let lo' := lo `min` length a in
  let hi' := hi `min` length a in
  let m := hi' - lo' in
  if m =? length v then inr (take lo' a ++ v ++ drop hi' a)
  else match v with
       | [x] => inr (take lo' a ++ replicate m x ++ drop hi' a)
       | _ => inl ValueError
       end.

(** The conversion HDF5 applies to an integer that is written into a
    dataset of dtype ['i'] (32 bits, signed): a value out of range is
    clipped to the nearest bound. *)
Definition int32 (z : Z) : Z := Z.max (-2147483648) (Z.min z 2147483647).

End Arr.

(** ** The world the step acts on *)

(** A location of the heap: the index of a dictionary object. *)
Abbreviation loc := nat.

(** A mutable effect the step performs or a call it makes to a collaborator,
    in program order. *)
Inductive event : Type :=
  | EvSeed (random_seed : option Z) (save : bool) (dir : string)
  | EvPrint (msg : string)
  | EvDataLoader (image_size batch_size : nat) (path : string) (aug shallow : bool)
  | EvMakedirs (d : string)
  | EvFileOpen (path : string)
  | EvCreateDataset (path name : string) (n : nat)
  | EvWrite (path name : string) (lo hi : nat)
  | EvFileClose (path : string).

Section Model.

(** Tensors of parameters, input images and one example's feature tensor
    are opaque values: the step only moves them around. *)
Context {tensor image row : Type}.

(** What a Python variable can hold here: a reference to a dictionary in
    the heap, a tensor, or [None]. *)
Inductive pyval : Type :=
  | PDict (l : loc)
  | PTensor (t : tensor)
  | PNone.

(** An element of an archive dataset: an integer (dtype ['i'], 32 bits) or
    one example's feature tensor (dtype ['f'], 32-bit floats). What is
    written is converted on the way: labels by [CInt32] below, feature
    tensors by the backbone's [as_float32]. The count is a number of rows of
    arrays that the step holds in memory, and is taken below 2^31, where the
    conversion leaves it as it is. *)
Inductive cell : Type :=
  | CInt (z : Z)
  | CRow (r : row).

(** What a dataset of dtype ['i'] holds of an integer written into it. *)
Definition CInt32 (z : Z) : cell := CInt (Arr.int32 z).

(** An HDF5 archive: named datasets, each an array along its first axis. *)
Record h5file : Type := H5 {
  datasets : Dict.t (list cell);
  closed : bool
}.

Record filesystem : Type := FS {
  dirs : list string;
  files : Dict.t h5file;
  seed_records : list (string * Z)
}.

Record world : Type := World {
  heap : list (Dict.t pyval);
  fs : filesystem;
  trace : list event
}.

Definition set_heap (w : world) (h : list (Dict.t pyval)) : world :=
  World h (fs w) (trace w).
Definition set_fs (w : world) (s : filesystem) : world :=
  World (heap w) s (trace w).
Definition add_trace (w : world) (es : list event) : world :=
  World (heap w) (fs w) (trace w ++ es).
Definition set_file (w : world) (path : string) (f : h5file) : world :=
  set_fs w (FS (dirs (fs w)) (Dict.set (files (fs w)) path f) (seed_records (fs w))).
Definition file_at (w : world) (path : string) : option h5file :=
  Dict.get (files (fs w)) path.

(** *** Computations: state passing with exceptions *)

Definition M (A : Type) : Type := world -> (exn + A) * world.

Definition ret {A} (a : A) : M A := fun w => (inr a, w).
Definition raise {A} (e : exn) : M A := fun w => (inl e, w).
Definition bind {A B} (m : M A) (k : A -> M B) : M B :=
  fun w =>
    match m w with
    | (inr a, w') => k a w'
    | (inl e, w') => (inl e, w')
    end.

Definition lift {A} (r : exn + A) : M A :=
  match r with
  | inr a => ret a
  | inl e => raise e
  end.

End Model.

Arguments pyval : clear implicits.
Arguments cell : clear implicits.
Arguments h5file : clear implicits.
Arguments filesystem : clear implicits.
Arguments world : clear implicits.
Arguments M : clear implicits.

Declare Scope py_scope.
Delimit Scope py_scope with py.
Notation "'let*' x ':=' m 'in' k" := (bind m (fun x => k))
  (at level 10, x name, m at level 100, k at level 200) : py_scope.
Notation "'let*' ' pat ':=' m 'in' k" :=
  (bind m (fun x => match x with pat => k end))
  (at level 10, pat pattern, m at level 100, k at level 200) : py_scope.
Notation "m ';;' k" := (bind m (fun _ => k))
  (at level 100, k at level 200, right associativity) : py_scope.
Local Open Scope py_scope.

(** ** Primitives of the Python runtime, of [os], and of [h5py] *)

Section Runtime.

Context {tensor row : Type}.
Local Abbreviation M := (M tensor row).
Local Abbreviation pyval := (pyval tensor).
Local Abbreviation cell := (cell row).
Local Abbreviation h5file := (h5file row).

Definition emit (e : event) : M unit :=
  fun w => (inr tt, add_trace w [e]).

Definition print (msg : string) : M unit := emit (EvPrint msg).

(** [v[k]] for a string [k]: a dictionary looks the key up, a tensor takes
    a string for a bad index, and [None] is not subscriptable. *)
Definition getitem (v : pyval) (k : string) : M pyval :=
  fun w =>
    match v with
    | PDict l =>
        match heap w !! l with
        | Some d =>
            match Dict.get d k with
            | Some x => (inr x, w)
            | None => (inl (KeyError k), w)
            end
        | None => (inl TypeError, w)
        end
    | PTensor _ => (inl IndexError, w)
    | PNone => (inl TypeError, w)
    end.

(** [v.copy()]: a new dictionary object with the entries of [v] (the
    values are shared, the entries are not). *)
Definition dict_copy (v : pyval) : M loc :=
  fun w =>
    match v with
    | PDict l =>
        match heap w !! l with
        | Some d => (inr (length (heap w)), set_heap w (heap w ++ [d]))
        | None => (inl TypeError, w)
        end
    | _ => (inl AttributeError, w)
    end.

(** [list(d.keys())] *)
Definition dict_keys (l : loc) : M (list string) :=
  fun w =>
    match heap w !! l with
    | Some d => (inr (Dict.keys d), w)
    | None => (inl TypeError, w)
    end.

(** [d.pop(k)] *)
Definition dict_pop (l : loc) (k : string) : M pyval :=
  fun w =>
    match heap w !! l with
    | Some d =>
        match Dict.pop d k with
        | Some (v, d') => (inr v, set_heap w (<[l := d']> (heap w)))
        | None => (inl (KeyError k), w)
        end
    | None => (inl TypeError, w)
    end.

(** [d[k] = v] *)
Definition dict_setitem (l : loc) (k : string) (v : pyval) : M unit :=
  fun w =>
    match heap w !! l with
    | Some d => (inr tt, set_heap w (<[l := Dict.set d k v]> (heap w)))
    | None => (inl TypeError, w)
    end.

(** [for x in l: body(x)] *)
Fixpoint for_each {A} (l : list A) (body : A -> M unit) : M unit :=
  match l with
  | [] => ret tt
  | x :: l' => body x ;; for_each l' body
  end.

(** [for i, x in enumerate(l): locals = body(i, x, locals)] *)
Fixpoint for_enumerate {A St} (l : list A) (i : nat) (s : St)
    (body : nat -> A -> St -> M St) : M St :=
  match l with
  | [] => ret s
  | x :: l' => let* s' := body i x s in for_enumerate l' (S i) s' body
  end.

(** [os.path.isdir(d)] *)
Definition isdir (d : string) : M bool :=
  fun w => (inr (bool_decide (d ∈ dirs (fs w))), w).

Definition exists_file (s : filesystem row) (p : string) : bool :=
  match Dict.get (files s) p with
  | Some _ => true
  | None => false
  end.

(** [os.makedirs(d)]: refuses the empty name and a name already taken.
    Only [d] itself is recorded, not the ancestors it creates on the way;
    failures of the operating system (permissions, a full disk) are not
    modelled. *)
Definition makedirs (d : string) : M unit :=
  fun w =>
    if bool_decide (d = "") || bool_decide (d ∈ dirs (fs w)) || exists_file (fs w) d
    then (inl OSError, w)
    else (inr tt,
          add_trace
            (set_fs w (FS (d :: dirs (fs w)) (files (fs w)) (seed_records (fs w))))
            [EvMakedirs d]).

(** [h5py.File(path, 'w')]: creates the archive, or truncates the one
    already there; its directory must exist (the empty directory name is
    the current directory). The handle is the path. *)
Definition h5py_File (path : string) : M string :=
  fun w =>
    let d := OsPath.dirname path in
    if bool_decide (d = "") || bool_decide (d ∈ dirs (fs w))
    then (inr path, add_trace (set_file w path (H5 [] false)) [EvFileOpen path])
    else (inl OSError, w).

(** An update of the open archive at [path]. *)
Definition h5_update (path : string) (g : h5file -> exn + h5file) : M unit :=
  fun w =>
    match file_at w path with
    | Some f =>
        if closed f then (inl ValueError, w)
        else match g f with
             | inr f' => (inr tt, set_file w path f')
             | inl e => (inl e, w)
             end
    | None => (inl ValueError, w)
    end.

(** [f.create_dataset(name, (n, ...), dtype)]: a dataset of [n] zero
    cells under a name not yet taken. The handle is the archive's path
    with the dataset's name. *)
Definition create_dataset (f name : string) (n : nat) (zero : cell)
    : M (string * string) :=
  h5_update f (fun h =>
    match Dict.get (datasets h) name with
    | Some _ => inl ValueError
    | None => inr (H5 (Dict.set (datasets h) name (replicate n zero)) (closed h))
    end) ;;
  emit (EvCreateDataset f name n) ;;
  ret (f, name).

(** [ds[lo:hi] = v]: rows that do not fit the slice are a [TypeError] of
    h5py, where numpy raises [ValueError]. *)
Definition h5_setslice (ds : string * string) (lo hi : nat) (v : list cell)
    : M unit :=
  h5_update ds.1 (fun h =>
    match Dict.get (datasets h) ds.2 with
    | Some a =>
        match Arr.setslice a lo hi v with
        | inr a' => inr (H5 (Dict.set (datasets h) ds.2 a') (closed h))
        | inl _ => inl TypeError
        end
    | None => inl ValueError
    end) ;;
  emit (EvWrite ds.1 ds.2 lo hi).

(** [ds[i] = v] *)
Definition h5_setitem (ds : string * string) (i : nat) (v : cell) : M unit :=
  h5_update ds.1 (fun h =>
    match Dict.get (datasets h) ds.2 with
    | Some a =>
        if bool_decide (i < length a)
        then inr (H5 (Dict.set (datasets h) ds.2 (<[i := v]> a)) (closed h))
        else inl IndexError
    | None => inl ValueError
    end) ;;
  emit (EvWrite ds.1 ds.2 i (S i)).

(** [f.close()] *)
Definition h5_close (f : string) : M unit :=
  h5_update f (fun h => inr (H5 (datasets h) true)) ;;
  emit (EvFileClose f).

End Runtime.

(** ** Collaborators of the step

    The data pipeline, the backbone registry and the seeding helper live in
    other modules of the project ([classification.src.loaders.data_managers],
    [utils.backbones], [utils.io_utils]); the step is stated over any
    implementation of them. *)

Section Collaborators.

Context {tensor image row : Type}.

(** A batched data source: [len(data_loader)] is its number of batches, and
    iterating it yields each batch as a pair [(x, y)] of images and labels.
    The labels are the entries of an integer tensor, which the label array
    of the step (64 bits) holds as they are. *)
Record data_loader : Type := DataLoader {
  batch_size : nat;
  batches : list (list image * list Z)
}.

Definition len (dl : data_loader) : nat := length (batches dl).

(** A batch as a loader of batch size [bs] collates it: as many labels as
    images, and at most [bs] of them. *)
Definition batch_ok (bs : nat) (xy : list image * list Z) : bool :=
  (length xy.1 =? length xy.2) && (length xy.1 <=? bs).

Definition loader_ok (dl : data_loader) : bool :=
  forallb (batch_ok (batch_size dl)) (batches dl).

(** The number of examples the loader yields: the sum of its batch sizes. *)
Definition total_examples (dl : data_loader) : nat :=
  sum_list ((fun xy => length xy.1) <$> batches dl).

(** A backbone architecture: the keys of its state dictionary (the names of
    its parameters and buffers), whether tensors have the sizes of its
    parameters, what it computes for one image once they are loaded (in
    evaluation mode each image of a batch is treated on its own), the
    all-zero tensor of the shape of one output, [feats.size()[1:]], and
    the conversion of one output to 32-bit floats, which an array or a
    dataset of that dtype applies to what is assigned into it (the
    identity for a backbone that computes in 32-bit floats). *)
Record extractor : Type := Extractor {
  parameter_names : list string;
  accepts : Dict.t tensor -> bool;
  forward : Dict.t tensor -> image -> row;
  zero_row : row;
  as_float32 : row -> row
}.

(** A backbone with its parameters loaded. *)
Record nn_module : Type := NnModule {
  arch : extractor;
  parameters : Dict.t tensor
}.

(** [model(x)] on a batch of images *)
Definition call (model : nn_module) (x : list image) : list row :=
  forward (arch model) (parameters model) <$> x.

(** [model(x).data.cpu().numpy()] as an array of dtype float32 holds it *)
Definition float32_rows (model : nn_module) (x : list image) : list row :=
  as_float32 (arch model) <$> call model x.

Record collaborators : Type := Collaborators {
  (** [utils.io_utils.set_and_print_random_seed(random_seed, save, checkpoint_dir)]:
      what it leaves on disk *)
  set_and_print_random_seed : option Z -> bool -> string -> filesystem row -> filesystem row;
  (** [utils.io_utils.get_path_to_json(dataset, split)] *)
  get_path_to_json : string -> string -> string;
  (** [SimpleDataManager(image_size, batch_size).get_data_loader(path, aug, shallow)] *)
  get_data_loader : nat -> nat -> string -> bool -> bool -> data_loader;
  (** [utils.io_utils.model_dict[name]], called with no argument ([None])
      or with [flatten=b] ([Some b]) *)
  model_dict : string -> option (option bool -> extractor);
  (** [backbones.Conv4NP()], [backbones.Conv6NP()], [backbones.Conv4SNP()] *)
  Conv4NP : extractor;
  Conv6NP : extractor;
  Conv4SNP : extractor
}.

Fixpoint tensors_of (d : Dict.t (pyval tensor)) : option (Dict.t tensor) :=
  match d with
  | [] => Some []
  | (k, PTensor t) :: d' =>
      match tensors_of d' with
      | Some r => Some ((k, t) :: r)
      | None => None
      end
  | _ :: _ => None
  end.

(** No expected parameter is missing and no given key is unexpected. *)
Definition keys_match (expected got : list string) : bool :=
  forallb (fun k => bool_decide (k ∈ got)) expected
  && forallb (fun k => bool_decide (k ∈ expected)) got.

(** [model.load_state_dict(state)] with torch's default [strict=True]: the
    keys of [state] must be the parameter names of [model] and its tensors
    must have the sizes of the parameters, else it raises. A backbone is
    taken to insist on every name it lists: the allowance torch makes for a
    batch-normalisation counter [num_batches_tracked] that a state saved
    without version information lacks is not modelled. *)
Definition load_state_dict (model : extractor) (state : loc) : M tensor row nn_module :=
  fun w =>
    match heap w !! state with
    | Some d =>
        if keys_match (parameter_names model) (Dict.keys d)
        then match tensors_of d with
             | Some p =>
                 if accepts model p then (inr (NnModule model p), w)
                 else (inl RuntimeError, w)
             | None => (inl RuntimeError, w)
             end
        else (inl RuntimeError, w)
    | None => (inl TypeError, w)
    end.

End Collaborators.

Arguments data_loader : clear implicits.
Arguments extractor : clear implicits.
Arguments nn_module : clear implicits.
Arguments collaborators : clear implicits.

(** ** The class [Embedding] *)

Module Embedding.

Section Step.

Context {tensor image row : Type}.
Local Abbreviation M := (M tensor row).
Local Abbreviation pyval := (pyval tensor).
Local Abbreviation extractor := (extractor tensor image row).
Local Abbreviation nn_module := (nn_module tensor image row).
Local Abbreviation data_loader := (data_loader image).

Variable E : collaborators tensor image row.

(** The attributes [__init__] stores; [checkpoint_dir] is what
    [path_to_step_output(dataset, backbone, method, output_dir)] returned. *)
Record t : Type := Self {
  dataset : string;
  backbone : string;
  method : string;
  train_n_way : Z;
  test_n_way : Z;
  n_shot : Z;
  train_aug : bool;
  shallow : bool;
  split : string;
  save_iter : Z;
  random_seed : option Z;
  checkpoint_dir : string
}.

(** The local variables of [_save_features] that the loop updates. *)
Record locals : Type := Locals {
  all_feats : option (string * string);
  all_feats_array : option (list row);
  all_labels_array : list Z;
  count : nat
}.

(** The body of the loop of [_save_features], for batch [i] = [(x, y)].
    The arrays of dtype float32 ([all_feats], [all_feats_array]) receive
    [feats.data.cpu().numpy()] converted to it, [feats_data]; the dataset
    [all_labels] of dtype ['i'] receives the labels converted to 32 bits,
    and the array [all_labels_array] receives them as they are. *)
Definition save_batch (model : nn_module) (data_loader : data_loader)
    (f : string) (max_count : nat) (all_labels : string * string)
    (i : nat) (xy : list image * list Z) (st : locals) : M locals :=
  let '(x, y) := xy in
  (if i mod 100 =? 0
   then print (Str.of_int (Z.of_nat i) +:+ "/" +:+ Str.of_int (Z.of_nat (len data_loader)))
   else ret tt) ;;
  let feats := call model x in
  let feats_data := as_float32 (arch model) <$> feats in
  let* '(all_feats, all_feats_array) :=
    match all_feats st with
    | None =>
        let* ds := create_dataset f "all_feats" max_count (CRow (zero_row (arch model))) in
        ret (ds, Some (replicate max_count (zero_row (arch model))))
    | Some ds => ret (ds, all_feats_array st)
    end in
  h5_setslice all_feats (count st) (count st + length feats) (CRow <$> feats_data) ;;
  h5_setslice all_labels (count st) (count st + length feats) (CInt32 <$> y) ;;
  let* all_feats_array :=
    match all_feats_array with
    | Some a => lift (Arr.setslice a (count st) (count st + length feats) feats_data)
    | None => raise TypeError
    end in
  let* all_labels_array :=
    lift (Arr.setslice (all_labels_array st) (count st) (count st + length feats) y) in
  ret (Locals (Some all_feats) (Some all_feats_array) all_labels_array
              (count st + length feats)).

Definition _save_features (model : nn_module) (data_loader : data_loader)
    (outfile : string) : M (option (list row) * list Z) :=
  let* f := h5py_File outfile in
  let max_count := len data_loader * batch_size data_loader in
  print (Str.of_int (Z.of_nat (batch_size data_loader)) +:+ " "
         +:+ Str.of_int (Z.of_nat max_count)) ;;
  let* all_labels := create_dataset f "all_labels" max_count (CInt 0) in
  let st0 := Locals None None (replicate max_count 0%Z) 0 in
  let* st := for_enumerate (batches data_loader) 0 st0
               (save_batch model data_loader f max_count all_labels) in
  let* count_var := create_dataset f "count" 1 (CInt 0) in
  h5_setitem count_var 0 (CInt (Z.of_nat (count st))) ;;
  h5_close f ;;
  ret (all_feats_array st, all_labels_array st).

Definition _get_data_loader_and_outfile (self : t) : M (data_loader * string) :=
  if bool_decide (method self ≠ "maml") && bool_decide (method self ≠ "maml_approx")
  then
    let image_size := if Str.contains "Conv" (backbone self) then 84 else 224 in
    let path_to_data_file := get_path_to_json E (dataset self) (split self) in
    let outfile :=
      if bool_decide (save_iter self ≠ (-1)%Z)
      then OsPath.join (checkpoint_dir self)
             (split self +:+ "_" +:+ Str.of_int (save_iter self) +:+ ".hdf5")
      else OsPath.join (checkpoint_dir self) (split self +:+ ".hdf5") in
    emit (EvDataLoader image_size 64 path_to_data_file false (shallow self)) ;;
    let data_loader :=
      get_data_loader E image_size 64 path_to_data_file false (shallow self) in
    let dirname := OsPath.dirname outfile in
    let* is_dir := isdir dirname in
    (if negb is_dir then makedirs dirname else ret tt) ;;
    ret (data_loader, outfile)
  else raise AssertionError.

(** The body of the loop of [_load_model] that keeps the feature layers. *)
Definition keep_feature_layer (state : loc) (state_key : string) : M unit :=
  if Str.contains "feature." state_key
  then
    let newkey := Str.replace state_key "feature." "" in
    let* v := dict_pop state state_key in
    dict_setitem state newkey v
  else
    dict_pop state state_key ;; ret tt.

(** [model_dict[name](...)]: a missing name is a [KeyError]. *)
Definition model_dict_call (name : string) (flatten : option bool) : M extractor :=
  match model_dict E name with
  | Some make => ret (make flatten)
  | None => raise (KeyError name)
  end.

(** The block of [_load_model] that creates the backbone. *)
Definition create_backbone (self : t) : M extractor :=
  if bool_decide (method self ∈ ["relationnet"; "relationnet_softmax"])
  then
    if bool_decide (backbone self = "Conv4") then ret (Conv4NP E)
    else if bool_decide (backbone self = "Conv6") then ret (Conv6NP E)
    else if bool_decide (backbone self = "Conv4S") then ret (Conv4SNP E)
    else model_dict_call (backbone self) (Some false)
  else model_dict_call (backbone self) None.

(** [model.cuda()] and [model.eval()] move the model to the device and put
    it in evaluation mode; a model here is its evaluation-mode function. *)
Definition _load_model (self : t) (model_state : pyval) : M nn_module :=
  let* model_state_state := getitem model_state "state" in
  let* state := dict_copy model_state_state in
  let* state_keys := dict_keys state in
  let* model := create_backbone self in
  for_each state_keys (keep_feature_layer state) ;;
  load_state_dict model state.

(** [_load_model] up to the call of [load_state_dict]: the backbone it
    built and the filtered copy of the state it is about to load. *)
Definition filtered_state (self : t) (model_state : pyval) : M (extractor * loc) :=
  let* model_state_state := getitem model_state "state" in
  let* state := dict_copy model_state_state in
  let* state_keys := dict_keys state in
  let* model := create_backbone self in
  for_each state_keys (keep_feature_layer state) ;;
  ret (model, state).

(** The call [set_and_print_random_seed(self.random_seed, True, self.checkpoint_dir)]. *)
Definition seed_call (self : t) : M unit :=
  fun w =>
    (inr tt,
     add_trace
       (set_fs w (set_and_print_random_seed E (random_seed self) true
                    (checkpoint_dir self) (fs w)))
       [EvSeed (random_seed self) true (checkpoint_dir self)]).

(** The world once the seeding helper has run. *)
Definition seeded (self : t) (w : world tensor row) : world tensor row :=
  (seed_call self w).2.

(** [apply] returns [None] (Python's [None]) or the pair
    [(all_feats_array, all_labels_array)], whose first component is itself
    [None] until a batch has been seen. *)
Definition apply (self : t) (model_state : pyval)
    : M (option (option (list row) * list Z)) :=
  seed_call self ;;
  if bool_decide (method self ∈ ["maml"; "maml_approx"])
  then
    print "MAML doesn't support the step Embedding. Going on to the next step ..." ;;
    ret None
  else
    let* model := _load_model self model_state in
    let* '(data_loader, outfile) := _get_data_loader_and_outfile self in
    let* r := _save_features model data_loader outfile in
    ret (Some r).

End Step.

Section Construct.

(** [utils.io_utils.path_to_step_output(dataset, backbone, method, output_dir)],
    and [utils.configs.save_dir], the default of [output_dir]. *)
Variable path_to_step_output : string -> string -> string -> string -> string.
Variable save_dir : string.

(** [Embedding(dataset, ...)]: an argument that is left out ([None] here)
    takes the default of the signature. [random_seed] defaults to Python's
    [None], which is what leaving it out gives. *)
Definition __init__ (dataset : string) (backbone method : option string)
    (train_n_way test_n_way n_shot : option Z) (train_aug shallow : option bool)
    (split : option string) (save_iter : option Z) (output_dir : option string)
    (random_seed : option Z) : t :=
  let backbone := default "Conv4" backbone in
  let method := default "baseline" method in
  let output_dir := default save_dir output_dir in
  Self dataset backbone method
    (default 5%Z train_n_way) (default 5%Z test_n_way) (default 5%Z n_shot)
    (default false train_aug) (default false shallow)
    (default "novel" split) (default (-1)%Z save_iter) random_seed
    (path_to_step_output dataset backbone method output_dir).

End Construct.

Section Dump.

Context {tensor row : Type}.

(** [dump_output(self, _, output_folder, output_name, **__)]: [pass]. *)
Definition dump_output (self : t) (arg : pyval tensor)
    (output_folder output_name : string) : M tensor row unit :=
  ret tt.

End Dump.

End Embedding.

(** ** Vocabulary of the statements *)

(** Kinds of archive events. *)
Definition is_row_write (e : event) : bool :=
  match e with
  | EvWrite _ name _ _ => String.eqb name "all_feats" || String.eqb name "all_labels"
  | _ => false
  end.

Definition is_count_write (e : event) : bool :=
  match e with
  | EvWrite _ name _ _ => String.eqb name "count"
  | _ => false
  end.

Definition is_close (e : event) : bool :=
  match e with
  | EvFileClose _ => true
  | _ => false
  end.

(** The world relation "only events satisfying [P] were added". *)
Definition trace_grows {tensor row : Type} (P : event -> Prop)
    (w w' : world tensor row) : Prop :=
  exists evs, trace w' = trace w ++ evs /\ Forall P evs.

(** The world relation "the heap is the same". *)
Definition same_heap {tensor row : Type} (w w' : world tensor row) : Prop :=
  heap w' = heap w.

(** A computation all of whose runs relate the world before to the world
    after, whether it returns or raises. *)
Definition respects {tensor row A : Type}
    (R : world tensor row -> world tensor row -> Prop) (m : M tensor row A) : Prop :=
  forall w, R w (m w).2.

(** An event of the extraction before the count is recorded. *)
Definition early (e : event) : Prop :=
  is_count_write e = false /\ is_close e = false.

(** The three archive events that end an extraction into [outfile]. *)
Definition closing_events (outfile : string) : list event :=
  [EvCreateDataset outfile "count" 1; EvWrite outfile "count" 0 1;
   EvFileClose outfile].

(** How many slice writes of feature or label rows a trace holds. *)
Definition row_writes (evs : list event) : nat :=
  length (List.filter is_row_write evs).

(** The output path as the specification words it: under the checkpoint
    directory, the split's name with the archive extension, with the
    iteration appended to the name when one was requested. *)
Definition spec_outfile (checkpoint_dir split : string) (save_iter : Z) : string :=
  if bool_decide (save_iter = (-1)%Z)
  then OsPath.join checkpoint_dir (split +:+ ".hdf5")
  else OsPath.join checkpoint_dir (split +:+ "_" +:+ Str.of_int save_iter +:+ ".hdf5").

(** The image resolution as the specification words it: 84 for the
    backbones of the convolutional family (those named [Conv...]), 224 for
    all others. *)
Definition spec_image_size (backbone : string) : nat :=
  if Str.contains "Conv" backbone then 84 else 224.

(** The world relation "the heap kept its dictionaries and may have gained
    new ones". *)
Definition heap_grows {tensor row : Type} (w w' : world tensor row) : Prop :=
  exists new, heap w' = heap w ++ new.

(** ** The feature-layer filter, on the dictionary alone *)

Section FilterDefs.

Context {V : Type}.

(** [k[len(pre):]] when [k] starts with [pre]. *)
Fixpoint strip_prefix (pre k : string) : option string :=
  match pre with
  | EmptyString => Some k
  | String p pre' =>
      match k with
      | EmptyString => None
      | String c k' => if Ascii.eqb c p then strip_prefix pre' k' else None
      end
  end.

(** The filter as the specification words it: the entries whose key is
    prefixed with the marker, under the key without the prefix, in order;
    every other entry dropped. *)
Definition spec_filter (d : Dict.t V) : Dict.t V :=
  omap (fun kv => (fun rest => (rest, kv.2)) <$> strip_prefix "feature." kv.1) d.

(** One turn of the filtering loop, and the loop, on the dictionary alone. *)
Definition keep_step (d : Dict.t V) (k : string) : option (Dict.t V) :=
  if Str.contains "feature." k
  then match Dict.pop d k with
       | Some (v, d') => Some (Dict.set d' (Str.replace k "feature." "") v)
       | None => None
       end
  else match Dict.pop d k with
       | Some (_, d') => Some d'
       | None => None
       end.

Fixpoint keep_all (d : Dict.t V) (keys : list string) : option (Dict.t V) :=
  match keys with
  | [] => Some d
  | k :: keys' =>
      match keep_step d k with
      | Some d' => keep_all d' keys'
      | None => None
      end
  end.

(** A key the filter treats as the specification says: the marker does not
    occur in it, or occurs only as its prefix, once, and the rest of the
    key is not itself a key of the dictionary. *)
Definition tidy_key (keys : list string) (k : string) : Prop :=
  Str.contains "feature." k = true ->
  exists rest,
    strip_prefix "feature." k = Some rest
    /\ Str.contains "feature." rest = false
    /\ rest ∉ keys.

End FilterDefs.

(** ** What the extraction maintains and produces *)

Section Expected.

Context {tensor image row : Type}.

Variable model : nn_module tensor image row.
Variable dl : data_loader image.
Variable outfile : string.
Variable C : nat.

Local Abbreviation zero := (zero_row (arch model)).

(** The labels and features written once a batch has been handled. *)
Definition labels_after (labs : list Z) (xy : list image * list Z) : list Z :=
  labs ++ xy.2.
Definition feats_after (feats : option (list row)) (xy : list image * list Z)
    : option (list row) :=
  Some (default [] feats ++ float32_rows model xy.1).

(** What the loop maintains: [labs] and [feats] are the labels and feature
    rows of the batches handled so far; the mirrors hold them followed by
    untouched zeros up to the capacity, and the open archive holds what the
    mirrors hold, the labels as 32-bit integers. *)
Record mirrored (labs : list Z) (feats : option (list row))
    (st : @Embedding.locals row) (F : h5file row) : Prop := Mirrored {
  mir_count : Embedding.count st = length labs;
  mir_labels :
    Embedding.all_labels_array st = labs ++ replicate (C - length labs) 0%Z;
  mir_feats :
    Embedding.all_feats_array st
    = (fun f => f ++ replicate (C - length labs) zero) <$> feats;
  mir_handle :
    Embedding.all_feats st = (fun _ => (outfile, "all_feats")) <$> feats;
  mir_flen : forall f, feats = Some f -> length f = length labs;
  mir_none : feats = None -> labs = [];
  mir_open : closed F = false;
  mir_data :
    datasets F
    = ("all_labels", CInt32 <$> Embedding.all_labels_array st)
      :: match Embedding.all_feats_array st with
         | Some a => [("all_feats", CRow <$> a)]
         | None => []
         end
}.

(** The handle kept in the loop's locals is the features dataset. *)
Definition handle_ok (st : @Embedding.locals row) : Prop :=
  forall ds, Embedding.all_feats st = Some ds -> ds = (outfile, "all_feats").

End Expected.

Section ExpectedResult.

Context {tensor image row : Type}.

Variable model : nn_module tensor image row.
Variable dl : data_loader image.

Local Abbreviation zero := (zero_row (arch model)).
Local Abbreviation C := (len dl * batch_size dl).

(** The label mirror after the loop: the labels of all batches in order,
    then zeros up to the capacity. *)
Definition expected_labels : list Z :=
  concat ((batches dl).*2) ++ replicate (C - total_examples dl) 0%Z.

(** The feature mirror after the loop: never allocated without a batch. *)
Definition expected_feats : option (list row) :=
  match batches dl with
  | [] => None
  | _ :: _ =>
      Some (concat (float32_rows model <$> (batches dl).*1)
            ++ replicate (C - total_examples dl) zero)
  end.

(** The archive after the step: the two arrays, then the count; closed. *)
Definition expected_archive : h5file row :=
  H5 (("all_labels", CInt32 <$> expected_labels)
      :: match expected_feats with
         | Some a => [("all_feats", CRow <$> a)]
         | None => []
         end
      ++ [("count", [CInt (Z.of_nat (total_examples dl))])])
     true.

End ExpectedResult.

Section SyncedDefs.

Context {tensor image row : Type}.
Variable outfile : string.



End SyncedDefs.

(** [apply] gets as far as the extraction: the method is not a
    meta-learning one, the model loads, and the data loader and the output
    file are obtained; [w2] is the world at that point. *)
Definition reaches_extraction {tensor image row : Type}
    (E : collaborators tensor image row) (self : Embedding.t)
    (model_state : pyval tensor) (w : world tensor row)
    (model : nn_module tensor image row) (dl : data_loader image)
    (outfile : string) (w2 : world tensor row) : Prop :=
  bool_decide (Embedding.method self ∈ ["maml"; "maml_approx"]) = false
  /\ exists w1,
       Embedding._load_model E self model_state (Embedding.seeded E self w)
       = (inr model, w1)
       /\ Embedding._get_data_loader_and_outfile E self w1
          = (inr (dl, outfile), w2).

(** Modelled from the spec: [utils.io_utils.set_and_print_random_seed] is
    not among the sources. The specification says the step "seeds the
    global random source deterministically (or generates and records a
    fresh seed if none given)", so that the randomness is "reproducible and
    logged". Of this only what reaches the disk matters here: with no seed
    given, the fresh seed [fresh] is recorded, under the directory the call
    names. *)
Definition spec_set_and_print_random_seed {row : Type} (fresh : Z)
    (random_seed : option Z) (flag : bool) (dir : string)
    (s : filesystem row) : filesystem row :=
  match random_seed with
  | Some _ => s
  | None => FS (dirs s) (files s) (seed_records s ++ [(dir, fresh)])
  end.


(** ** Further vocabulary: what a run leaves alone *)

Definition is_seed (e : event) : bool :=
  match e with
  | EvSeed _ _ _ => true
  | _ => false
  end.

(** The archive at [outfile] is open and has no [count] yet. *)
Definition half_written {tensor row : Type} (outfile : string)
    (w : world tensor row) : Prop :=
  exists F, file_at w outfile = Some F /\ closed F = false
            /\ Dict.get (datasets F) "count" = None.

(** The world relation "every archive but the one at [outfile] is as it
    was, and so are the recorded seeds and the directories". *)
Definition only_touches {tensor row : Type} (outfile : string)
    (w w' : world tensor row) : Prop :=
  (forall p, p <> outfile -> file_at w' p = file_at w p)
  /\ seed_records (fs w') = seed_records (fs w)
  /\ dirs (fs w') = dirs (fs w).

(** The world relation "a property of the world is kept". *)
Definition keeps {tensor row : Type} (P : world tensor row -> Prop)
    (w w' : world tensor row) : Prop :=
  P w -> P w'.

(** A value that [d] holds under a key in which the marker occurs. *)
Definition from_feature_entry {V : Type} (d : Dict.t V) (v : V) : Prop :=
  exists k0, (k0, v) ∈ d /\ Str.contains "feature." k0 = true.

(** The mirrors have the capacity [C] for their length. *)
Definition sized {row : Type} (C : nat) (st : @Embedding.locals row) : Prop :=
  length (Embedding.all_labels_array st) = C
  /\ forall a, Embedding.all_feats_array st = Some a -> length a = C.

(** Where the loop stands: the running offset, and whether the features
    dataset is still to be created ([first]) or is the one the locals hold. *)
Definition at_batch {row : Type} (outfile : string) (first : bool) (count : nat)
    (st : @Embedding.locals row) : Prop :=
  Embedding.count st = count
  /\ Embedding.all_feats st
     = if first then None else Some (outfile, "all_feats").


Section EventsDefs.

Context {image : Type}.

(** The events of the loop of [_save_features] over the batches [l], the
    first of which has index [i] and is written from offset [count] on:
    for each batch the progress message when its index is a multiple of
    100, the creation of the features dataset if it is the first, and the
    two slice writes, features then labels, over the same range. *)
Fixpoint batch_events (outfile : string) (C total : nat) (i count : nat)
    (first : bool) (l : list (list image * list Z)) : list event :=
  match l with
  | [] => []
  | xy :: l' =>
      (if i mod 100 =? 0
       then [EvPrint (Str.of_int (Z.of_nat i) +:+ "/" +:+ Str.of_int (Z.of_nat total))]
       else [])
      ++ (if first then [EvCreateDataset outfile "all_feats" C] else [])
      ++ [EvWrite outfile "all_feats" count (count + length xy.1);
          EvWrite outfile "all_labels" count (count + length xy.1)]
      ++ batch_events outfile C total (S i) (count + length xy.1) false l'
  end.

(** The events of an extraction that returns. *)
Definition extraction_events (outfile : string) (dl : data_loader image)
    : list event :=
  let C := len dl * batch_size dl in
  [EvFileOpen outfile;
   EvPrint (Str.of_int (Z.of_nat (batch_size dl)) +:+ " " +:+ Str.of_int (Z.of_nat C));
   EvCreateDataset outfile "all_labels" C]
  ++ batch_events outfile C (len dl) 0 0 true (batches dl)
  ++ closing_events outfile.

End EventsDefs.

(** ** A small concrete setting

    Tensors, images and feature rows are integers; the one backbone,
    [Conv4], has the single parameter [trunk.0.weight], takes a tensor of
    any size for it, and maps an image [x] to [10 * x + weight]. *)

Module Sample.

(** The 32-bit float nearest to an integer (ties to the even significand),
    for integers below the largest 32-bit float. The bits of the integer
    are taken from the leading one down: the first 24 make the significand
    [q]; of the bits dropped, [g] is the first, [st] tells whether a later
    one is set, and [k] counts them. *)
Definition shift_in (b : bool) (s : positive * (bool * bool) * nat)
  : positive * (bool * bool) * nat :=
  let '(q, (g, st), k) := s in
  match k with
  | 0 => if Nat.ltb (Pos.size_nat q) 24
         then ((if b then xI q else xO q), (false, false), 0)
         else (q, (b, false), 1)
  | S _ => (q, (g, st || b), S k)
  end.

Fixpoint significand (p : positive) : positive * (bool * bool) * nat :=
  match p with
  | xH => (xH, (false, false), 0)
  | xO p' => shift_in false (significand p')
  | xI p' => shift_in true (significand p')
  end.

Definition round (p : positive) : positive :=
  let '(q, (g, st), k) := significand p in
  let odd := match q with xO _ => false | _ => true end in
  Pos.shiftl_nat (if g && (st || odd) then Pos.succ q else q) k.

Definition float32 (z : Z) : Z :=
  match z with
  | Z0 => Z0
  | Zpos p => Zpos (round p)
  | Zneg p => Zneg (round p)
  end.

Definition conv4 : extractor Z Z Z :=
  Extractor ["trunk.0.weight"] (fun _ => true)
    (fun p x => (x * 10 + default 0 (Dict.get p "trunk.0.weight"))%Z) 0%Z
    float32.

(** Collaborators whose loader yields the batches [bs] whatever the
    manifest, and whose seeding helper is the one modelled from the spec
    with fresh seed 42. *)
Definition collab (bs : list (list Z * list Z)) : collaborators Z Z Z :=
  Collaborators
    (spec_set_and_print_random_seed 42)
    (fun dataset split => dataset +:+ "/" +:+ split +:+ ".json")
    (fun _ batch_size _ _ _ => DataLoader batch_size bs)
    (fun name => if bool_decide (name = "Conv4") then Some (fun _ => conv4) else None)
    conv4 conv4 conv4.

Definition step (method : string) (save_iter : Z) : Embedding.t :=
  Embedding.Self "CUB" "Conv4" method 5 5 5 false false "novel" save_iter None
    "out/CUB".

(** A heap holding [model_state] at location 0 and its [state] at
    location 1, over an empty disk. *)
Definition world_of (state : Dict.t (pyval Z)) : world Z Z :=
  World [[("state", PDict 1)]; state] (FS [] [] []) [].

Definition trained : Dict.t (pyval Z) :=
  [("feature.trunk.0.weight", PTensor 7%Z); ("classifier.weight", PTensor 8%Z)].

(** Two batches of batch size 64: one of two examples, one of one. *)
Definition two_batches : list (list Z * list Z) :=
  [([1; 2], [5; 6]); ([3], [9])]%Z.

(** The scenario of the specification: 130 images in batches of 64, 64
    and 2, labelled by batch. *)
Definition scenario : list (list Z * list Z) :=
  [(Z.of_nat <$> seq 0 64, replicate 64 1%Z);
   (Z.of_nat <$> seq 64 64, replicate 64 2%Z);
   (Z.of_nat <$> seq 128 2, replicate 2 3%Z)].

End Sample.

Module Run.

(** The sample step with the [baseline] method over two batches, from a
    trained state: the collaborators, the step, and the stages it goes
    through. *)
Definition E2 : collaborators Z Z Z := Sample.collab Sample.two_batches.
Definition E0 : collaborators Z Z Z := Sample.collab [].
Definition E130 : collaborators Z Z Z := Sample.collab Sample.scenario.
Definition baseline : Embedding.t := Sample.step "baseline" (-1).
Definition baseline12 : Embedding.t := Sample.step "baseline" 12.
Definition maml : Embedding.t := Sample.step "maml" (-1).
Definition w0 : world Z Z := Sample.world_of Sample.trained.

Definition model : nn_module Z Z Z :=
  NnModule Sample.conv4 [("trunk.0.weight", 7%Z)].
Definition outfile : string := "out/CUB/novel.hdf5".

Definition after_load : world Z Z :=
  Eval vm_compute in
    (Embedding._load_model E2 baseline (PDict 0) (Embedding.seeded E2 baseline w0)).2.
Definition at_extraction : world Z Z :=
  Eval vm_compute in
    (Embedding._get_data_loader_and_outfile E2 baseline after_load).2.

(** A state with no feature layer at all. *)
Definition headless : Dict.t (pyval Z) := [("classifier.weight", PTensor 8%Z)].
Definition after_filter_headless : world Z Z :=
  Eval vm_compute in
    (Embedding.filtered_state E2 baseline (PDict 0)
       (Embedding.seeded E2 baseline (Sample.world_of headless))).2.

(** A step for a backbone the registry does not know. *)
Definition resnet : Embedding.t :=
  Embedding.Self "CUB" "ResNet10" "baseline" 5 5 5 false false "novel" (-1) None
    "out/CUB".

(** The world once the step for iteration 12 has its output file. *)
Definition at_extraction12 : world Z Z :=
  Eval vm_compute in
    (Embedding._get_data_loader_and_outfile E2 baseline12 after_load).2.

(** The two batches in a loader of batch size 2 (capacity 4), and the world
    after their extraction. *)
Definition small : data_loader Z := DataLoader 2 Sample.two_batches.
Definition after_small : world Z Z :=
  Eval vm_compute in (Embedding._save_features model small outfile at_extraction).2.

(** A loader of batch size 1 whose single batch holds two examples, one
    more than the capacity, and the world after its extraction failed. *)
Definition overfull : data_loader Z := DataLoader 1 [([1; 2], [5; 6])]%Z.
Definition after_overfull : world Z Z :=
  Eval vm_compute in
    (Embedding._save_features model overfull outfile at_extraction).2.

(** A state in which a stripped name is also a key. *)
Definition untidy : Dict.t (pyval Z) :=
  [("feature.a", PTensor 1%Z); ("a", PTensor 2%Z)].


End Run.

(** * Facts

    ** The primitives at concrete values *)

Example of_int_neg : Str.of_int (-1)%Z = "-1".
Proof. reflexivity. Qed.
Example of_int_12 : Str.of_int 12%Z = "12".
Proof. reflexivity. Qed.
Example of_int_0 : Str.of_int 0%Z = "0".
Proof. reflexivity. Qed.
Example replace_ex : Str.replace "feature.trunk.0.weight" "feature." "" = "trunk.0.weight".
Proof. reflexivity. Qed.
Example replace_ex2 : Str.replace "a.feature.feature.b" "feature." "X" = "a.XXb".
Proof. reflexivity. Qed.
Example dirname_ex : OsPath.dirname "out/cub/novel.hdf5" = "out/cub".
Proof. reflexivity. Qed.
Example dirname_ex2 : OsPath.dirname "novel.hdf5" = "".
Proof. reflexivity. Qed.
Example dirname_ex3 : OsPath.dirname "/novel.hdf5" = "/".
Proof. reflexivity. Qed.
Example dirname_ex4 : OsPath.dirname "a//b" = "a".
Proof. reflexivity. Qed.
Example join_ex : OsPath.join "out" "novel.hdf5" = "out/novel.hdf5".
Proof. reflexivity. Qed.


(** ** Dictionaries *)

Section DictFacts.

Context {V : Type}.
Implicit Types (d : Dict.t V) (k : string) (v : V).

Lemma dict_get_set_eq d k v : Dict.get (Dict.set d k v) k = Some v.
Proof.
  induction d as [|[k' v'] d IH]; simpl.
  - by rewrite String.eqb_refl.
  - destruct (String.eqb k' k) eqn:Hk; simpl; rewrite Hk; auto.
Qed.

Lemma dict_get_set_ne d k k' v : k ≠ k' -> Dict.get (Dict.set d k v) k' = Dict.get d k'.
Proof.
  intros Hne. induction d as [|[k0 v0] d IH]; simpl.
  - destruct (String.eqb_spec k k'); congruence.
  - destruct (String.eqb_spec k0 k) as [->|Hk]; simpl.
    + destruct (String.eqb_spec k k'); congruence.
    + destruct (String.eqb_spec k0 k'); auto.
Qed.

Lemma dict_set_set d k v v' : Dict.set (Dict.set d k v) k v' = Dict.set d k v'.
Proof.
  induction d as [|[k' v''] d IH]; simpl.
  - by rewrite String.eqb_refl.
  - destruct (String.eqb k' k) eqn:Hk; simpl; rewrite Hk; auto. by rewrite IH.
Qed.

Lemma dict_set_same d k v : Dict.get d k = Some v -> Dict.set d k v = d.
Proof.
  induction d as [|[k' v'] d IH]; simpl; [done|].
  destruct (String.eqb_spec k' k) as [->|Hk]; [congruence|].
  intros H. by rewrite IH.
Qed.

End DictFacts.

(** ** Slice assignment *)

Section ArrFacts.

Context {A : Type}.

(** Writing [v] right after the rows written so far, into an array whose
    tail still holds [m] untouched rows, with room for [v]. *)
Lemma setslice_fill (written v : list A) (z : A) (m : nat) :
  length v ≤ m ->
  Arr.setslice (written ++ replicate m z) (length written)
    (length written + length v) v
  = inr ((written ++ v) ++ replicate (m - length v) z).
Proof.
  intros Hv. unfold Arr.setslice.
  rewrite length_app, length_replicate.
  rewrite (Nat.min_l (length written)) by lia.
  rewrite (Nat.min_l (length written + length v)) by lia.
  replace (length written + length v - length written) with (length v) by lia.
  rewrite Nat.eqb_refl. f_equal.
  rewrite take_app_length, drop_app_add, drop_replicate.
  by rewrite <- app_assoc.
Qed.

Lemma setslice_fill_at (written v : list A) (z : A) (m lo hi : nat) :
  length v ≤ m -> lo = length written -> hi = lo + length v ->
  Arr.setslice (written ++ replicate m z) lo hi v
  = inr ((written ++ v) ++ replicate (m - length v) z).
Proof. intros Hv -> ->. by apply setslice_fill. Qed.

End ArrFacts.

(** ** Worlds *)

Section WorldFacts.

Context {tensor row : Type}.
Implicit Types (w : world tensor row) (F : h5file row).

Lemma add_trace_nil w : add_trace w [] = w.
Proof. destruct w. unfold add_trace. simpl. by rewrite app_nil_r. Qed.

Lemma add_trace_add_trace w a b : add_trace (add_trace w a) b = add_trace w (a ++ b).
Proof. unfold add_trace. simpl. by rewrite app_assoc. Qed.

Lemma set_file_add_trace w p F a :
  set_file (add_trace w a) p F = add_trace (set_file w p F) a.
Proof. reflexivity. Qed.

Lemma set_file_set_file w p F F' : set_file (set_file w p F) p F' = set_file w p F'.
Proof. unfold set_file, set_fs. simpl. by rewrite dict_set_set. Qed.

Lemma file_at_set_file w p F : file_at (set_file w p F) p = Some F.
Proof. unfold file_at, set_file. simpl. apply dict_get_set_eq. Qed.

Lemma set_file_same w p F : file_at w p = Some F -> set_file w p F = w.
Proof.
  unfold file_at, set_file, set_fs. intros H. rewrite (dict_set_same _ _ _ H).
  by destruct w as [h [ds fl sr] tr].
Qed.

Lemma file_at_add_trace w a p : file_at (add_trace w a) p = file_at w p.
Proof. reflexivity. Qed.

End WorldFacts.

(** ** Computations *)

Section MonadFacts.

Context {tensor row : Type}.
Implicit Types (w : world tensor row).

Lemma bind_ok {A B} (m : M tensor row A) (k : A -> M tensor row B) w a w' :
  m w = (inr a, w') -> bind m k w = k a w'.
Proof. unfold bind. by intros ->. Qed.

Lemma bind_raise {A B} (m : M tensor row A) (k : A -> M tensor row B) w e w' :
  m w = (inl e, w') -> bind m k w = (inl e, w').
Proof. unfold bind. by intros ->. Qed.

Lemma bind_inr {A B} (m : M tensor row A) (k : A -> M tensor row B) w b w' :
  bind m k w = (inr b, w') ->
  exists a w1, m w = (inr a, w1) /\ k a w1 = (inr b, w').
Proof.
  unfold bind. destruct (m w) as [[e|a] w1]; [discriminate|]. eauto.
Qed.

Lemma bind_inr_fst {A B} (m : M tensor row A) (k : A -> M tensor row B) w b :
  (bind m k w).1 = inr b ->
  exists a w1, m w = (inr a, w1) /\ (k a w1).1 = inr b.
Proof.
  unfold bind. destruct (m w) as [[e|a] w1]; [discriminate|]. eauto.
Qed.

Lemma h5_update_ok p g w (F F' : h5file row) :
  file_at w p = Some F -> closed F = false -> g F = inr F' ->
  h5_update p g w = (inr tt, set_file w p F').
Proof. unfold h5_update. by intros -> -> ->. Qed.

Lemma create_dataset_ok f name n (zero : cell row) w (F : h5file row) :
  file_at w f = Some F -> closed F = false ->
  Dict.get (datasets F) name = None ->
  create_dataset f name n zero w
  = (inr (f, name),
     add_trace
       (set_file w f (H5 (Dict.set (datasets F) name (replicate n zero)) false))
       [EvCreateDataset f name n]).
Proof.
  intros HF Hc Hn. unfold create_dataset.
  erewrite bind_ok; last first.
  { eapply h5_update_ok; eauto. simpl. by rewrite Hn, Hc. }
  reflexivity.
Qed.

Lemma h5_setslice_ok f name lo hi (v : list (cell row)) w (F : h5file row) a a' :
  file_at w f = Some F -> closed F = false ->
  Dict.get (datasets F) name = Some a ->
  Arr.setslice a lo hi v = inr a' ->
  h5_setslice (f, name) lo hi v w
  = (inr tt,
     add_trace (set_file w f (H5 (Dict.set (datasets F) name a') false))
       [EvWrite f name lo hi]).
Proof.
  intros HF Hc Hn Hs. unfold h5_setslice.
  erewrite bind_ok; last first.
  { eapply h5_update_ok; eauto. simpl. by rewrite Hn, Hs, Hc. }
  reflexivity.
Qed.

Lemma h5_setitem_ok f name i (v : cell row) w (F : h5file row) a :
  file_at w f = Some F -> closed F = false ->
  Dict.get (datasets F) name = Some a ->
  i < length a ->
  h5_setitem (f, name) i v w
  = (inr tt,
     add_trace (set_file w f (H5 (Dict.set (datasets F) name (<[i := v]> a)) false))
       [EvWrite f name i (S i)]).
Proof.
  intros HF Hc Hn Hi. unfold h5_setitem.
  erewrite bind_ok; last first.
  { eapply h5_update_ok; eauto. simpl. rewrite Hn, Hc.
    by rewrite bool_decide_eq_true_2. }
  reflexivity.
Qed.

Lemma h5_close_ok f w (F : h5file row) :
  file_at w f = Some F -> closed F = false ->
  h5_close f w
  = (inr tt, add_trace (set_file w f (H5 (datasets F) true)) [EvFileClose f]).
Proof.
  intros HF Hc. unfold h5_close.
  erewrite bind_ok; last first.
  { eapply h5_update_ok; eauto. }
  reflexivity.
Qed.

End MonadFacts.

Lemma setslice_fill_fmap {A B} (g : A -> B) (written v : list A) (z : A) (m lo hi : nat) :
  length v ≤ m -> lo = length written -> hi = lo + length v ->
  Arr.setslice (g <$> (written ++ replicate m z)) lo hi (g <$> v)
  = inr (g <$> ((written ++ v) ++ replicate (m - length v) z)).
Proof.
  intros Hv -> ->.
  rewrite !fmap_app, !fmap_replicate.
  rewrite <- (length_fmap g written), <- (length_fmap g v).
  apply setslice_fill. by rewrite length_fmap.
Qed.

(** ** The extraction loop *)

Section SaveFeatures.

Context {tensor image row : Type}.
Implicit Types (w : world tensor row) (F : h5file row).
Implicit Types (st : @Embedding.locals row) (labs : list Z).
Implicit Types (feats : option (list row)).

Variable model : nn_module tensor image row.
Variable dl : data_loader image.
Variable outfile : string.
Variable C : nat.

Local Abbreviation zero := (zero_row (arch model)).
Local Abbreviation body :=
  (Embedding.save_batch model dl outfile C (outfile, "all_labels")).

Lemma progress_ok (i : nat) w :
  exists evs,
    (if i mod 100 =? 0
     then print (Str.of_int (Z.of_nat i) +:+ "/" +:+ Str.of_int (Z.of_nat (len dl)))
     else ret tt) w = (inr tt, add_trace w evs).
Proof.
  destruct (i mod 100 =? 0).
  - eexists. reflexivity.
  - exists []. by rewrite add_trace_nil.
Qed.

Lemma save_batch_ok i x y labs feats st F w :
  file_at w outfile = Some F ->
  mirrored model outfile C labs feats st F ->
  length x = length y ->
  length labs + length x ≤ C ->
  exists st' F' evs,
    body i (x, y) st w = (inr st', add_trace (set_file w outfile F') evs)
    /\ mirrored model outfile C (labels_after labs (x, y))
         (feats_after model feats (x, y)) st' F'.
Proof.
  intros HF [Hcnt Hlab Hfe Hh Hfl Hnone Hop Hdat] Hxy Hcap.
  unfold Embedding.save_batch.
  destruct (progress_ok i w) as [evs0 Hp].
  erewrite bind_ok by exact Hp.
  set (cx := call model x).
  assert (Hcx : length cx = length x) by (unfold cx, call; by rewrite length_fmap).
  set (fx := as_float32 (arch model) <$> cx).
  assert (Hfx : length fx = length x) by (unfold fx; by rewrite length_fmap).
  set (w0 := add_trace w evs0).
  assert (HF0 : file_at w0 outfile = Some F) by exact HF.
  (* the features written so far, none before the first batch *)
  set (done := default [] feats).
  assert (Hdone : length done = length labs).
  { unfold done. destruct feats as [f|]; simpl; [by apply Hfl|].
    by rewrite Hnone. }
  (* after the first-batch allocation the archive holds both datasets *)
  assert (exists w1 evs1 F1,
    (match Embedding.all_feats st with
     | Some ds => ret (ds, Embedding.all_feats_array st)
     | None =>
         let* ds := create_dataset outfile "all_feats" C (CRow zero) in
         ret (ds, Some (replicate C zero))
     end) w0
    = (inr ((outfile, "all_feats"), Some (done ++ replicate (C - length labs) zero)),
       w1)
    /\ w1 = add_trace (set_file w outfile F1) evs1
    /\ closed F1 = false
    /\ datasets F1
       = [("all_labels", CInt32 <$> (labs ++ replicate (C - length labs) 0%Z));
          ("all_feats", CRow <$> (done ++ replicate (C - length labs) zero))])
    as (w1 & evs1 & F1 & Halloc & Hw1 & Hop1 & Hdat1).
  { destruct feats as [f|]; simpl in Hh, Hfe; rewrite Hh.
    - exists w0, evs0, F. split; [by rewrite Hfe|].
      split; [ | split; [ done | ] ].
      + by rewrite (set_file_same _ _ _ HF).
      + by rewrite Hdat, Hfe, Hlab.
    - assert (labs = []) as -> by auto.
      eexists _, _, _. split.
      + erewrite bind_ok; last first.
        { eapply create_dataset_ok; eauto. by rewrite Hdat, Hfe. }
        unfold done, ret. simpl. rewrite Nat.sub_0_r. reflexivity.
      + split.
        { unfold w0. rewrite set_file_add_trace, add_trace_add_trace. reflexivity. }
        split; [reflexivity | ].
        simpl. rewrite Hdat, Hfe, Hlab. simpl.
        by rewrite Nat.sub_0_r, !fmap_replicate.
  }
  erewrite bind_ok by exact Halloc. simpl.
  assert (HF1 : file_at w1 outfile = Some F1).
  { rewrite Hw1. apply file_at_set_file. }
  (* the four slice assignments *)
  erewrite bind_ok; last first.
  { eapply h5_setslice_ok; eauto.
    - by rewrite Hdat1.
    - apply setslice_fill_fmap with (lo := Embedding.count st); [lia|lia|lia]. }
  erewrite bind_ok; last first.
  { eapply h5_setslice_ok.
    - rewrite file_at_add_trace. apply file_at_set_file.
    - reflexivity.
    - simpl. rewrite Hdat1. simpl. reflexivity.
    - apply setslice_fill_fmap with (lo := Embedding.count st) (v := y); [lia|lia|lia]. }
  erewrite bind_ok; last first.
  { unfold lift.
    rewrite (setslice_fill_at done fx zero (C - length labs)) by lia.
    reflexivity. }
  erewrite bind_ok; last first.
  { unfold lift. rewrite Hlab.
    rewrite (setslice_fill_at labs y 0%Z (C - length labs)) by lia.
    reflexivity. }
  unfold ret. rewrite Hw1.
  rewrite !set_file_add_trace, !add_trace_add_trace, !set_file_set_file.
  eexists _, _, _. split; [reflexivity|].
  unfold labels_after, feats_after, float32_rows. simpl. fold cx. fold fx.
  fold done.
  constructor; simpl.
  - rewrite length_app. lia.
  - rewrite length_app. f_equal. f_equal. lia.
  - rewrite length_app. f_equal. f_equal. f_equal. lia.
  - done.
  - intros f [= <-]. rewrite !length_app. lia.
  - done.
  - done.
  - rewrite Hdat1. simpl. by rewrite ?Hcx, ?Hfx, ?Hxy.
Qed.

End SaveFeatures.

Section SaveFeaturesLoop.

Context {tensor image row : Type}.
Implicit Types (w : world tensor row) (F : h5file row).

Variable model : nn_module tensor image row.
Variable dl : data_loader image.
Variable outfile : string.

Local Abbreviation zero := (zero_row (arch model)).
Local Abbreviation C := (len dl * batch_size dl).
Local Abbreviation body :=
  (Embedding.save_batch model dl outfile C (outfile, "all_labels")).

Lemma for_enumerate_ok (rest : list (list image * list Z)) :
  forall i labs feats st F w,
    file_at w outfile = Some F ->
    mirrored model outfile C labs feats st F ->
    forallb (batch_ok (batch_size dl)) rest = true ->
    length labs + length rest * batch_size dl ≤ C ->
    exists st' F' evs,
      for_enumerate rest i st body w
      = (inr st', add_trace (set_file w outfile F') evs)
      /\ mirrored model outfile C
           (foldl labels_after labs rest) (foldl (feats_after model) feats rest)
           st' F'.
Proof.
  induction rest as [|[x y] rest IH]; intros i labs feats st F w HF Hm Hok Hcap.
  - exists st, F, []. simpl. split; [|done].
    by rewrite add_trace_nil, (set_file_same _ _ _ HF).
  - simpl in Hok. apply andb_true_iff in Hok as [Hxy Hok].
    unfold batch_ok in Hxy. simpl in Hxy.
    apply andb_true_iff in Hxy as [Hlen Hbs].
    apply Nat.eqb_eq in Hlen. apply Nat.leb_le in Hbs.
    simpl in Hcap.
    destruct (save_batch_ok model dl outfile C i x y labs feats st F w)
      as (st1 & F1 & evs1 & Hrun & Hm1); auto; [lia|].
    simpl. erewrite bind_ok by exact Hrun.
    destruct (IH (S i) (labels_after labs (x, y)) (feats_after model feats (x, y))
                st1 F1 (add_trace (set_file w outfile F1) evs1))
      as (st2 & F2 & evs2 & Hrun2 & Hm2); auto.
    { rewrite file_at_add_trace. apply file_at_set_file. }
    { unfold labels_after. simpl. rewrite length_app. lia. }
    exists st2, F2, (evs1 ++ evs2). split; [|done].
    rewrite Hrun2.
    by rewrite set_file_add_trace, set_file_set_file, add_trace_add_trace.
Qed.

End SaveFeaturesLoop.

Section Accumulated.

Context {tensor image row : Type}.
Variable model : nn_module tensor image row.

Lemma foldl_labels_after (rest : list (list image * list Z)) labs :
  foldl labels_after labs rest = labs ++ concat (rest.*2).
Proof.
  revert labs. induction rest as [|xy rest IH]; intros labs; simpl.
  - by rewrite app_nil_r.
  - rewrite IH. unfold labels_after. by rewrite <- app_assoc.
Qed.

Lemma foldl_feats_after_some (rest : list (list image * list Z)) f :
  foldl (feats_after model) (Some f) rest
  = Some (f ++ concat (float32_rows model <$> rest.*1)).
Proof.
  revert f. induction rest as [|xy rest IH]; intros f; simpl.
  - by rewrite app_nil_r.
  - unfold feats_after at 2. simpl. rewrite IH. by rewrite <- app_assoc.
Qed.

Lemma foldl_feats_after_none (rest : list (list image * list Z)) :
  foldl (feats_after model) None rest
  = match rest with
    | [] => None
    | _ :: _ => Some (concat (float32_rows model <$> rest.*1))
    end.
Proof.
  destruct rest as [|xy rest]; [done|]. simpl.
  unfold feats_after at 2. simpl. by rewrite foldl_feats_after_some.
Qed.

Lemma length_labels_ok (bs : nat) (rest : list (list image * list Z)) :
  forallb (batch_ok bs) rest = true ->
  length (concat (rest.*2)) = sum_list ((fun xy => length xy.1) <$> rest)
  /\ sum_list ((fun xy => length xy.1) <$> rest) ≤ length rest * bs.
Proof.
  induction rest as [|[x y] rest IH]; csimpl; [done|].
  intros H. apply andb_true_iff in H as [Hxy Hok].
  unfold batch_ok in Hxy. simpl in Hxy.
  apply andb_true_iff in Hxy as [Hlen Hbs].
  apply Nat.eqb_eq in Hlen. apply Nat.leb_le in Hbs.
  destruct (IH Hok) as [IH1 IH2]. rewrite length_app. lia.
Qed.

End Accumulated.

Section SaveFeaturesSpec.

Context {tensor image row : Type}.
Implicit Types (w : world tensor row) (F : h5file row).

Variable model : nn_module tensor image row.
Variable dl : data_loader image.
Variable outfile : string.

Local Abbreviation zero := (zero_row (arch model)).
Local Abbreviation C := (len dl * batch_size dl).

Lemma save_features_ok w :
  loader_ok dl = true ->
  bool_decide (OsPath.dirname outfile = "")
  || bool_decide (OsPath.dirname outfile ∈ dirs (fs w)) = true ->
  exists evs,
    Embedding._save_features model dl outfile w
    = (inr (expected_feats model dl, expected_labels dl),
       add_trace (set_file w outfile (expected_archive model dl)) evs).
Proof.
  intros Hok Hdir. unfold Embedding._save_features.
  erewrite bind_ok; last first.
  { unfold h5py_File. rewrite Hdir. reflexivity. }
  erewrite bind_ok by reflexivity.
  erewrite bind_ok; last first.
  { eapply create_dataset_ok.
    - apply file_at_set_file.
    - reflexivity.
    - reflexivity. }
  simpl Dict.set.
  rewrite !set_file_add_trace, !add_trace_add_trace, !set_file_set_file.
  set (F0 := H5 [("all_labels", replicate C (CInt 0%Z : cell row))] false).
  set (st0 := Embedding.Locals None None (replicate C 0%Z) 0).
  destruct (for_enumerate_ok model dl outfile (batches dl) 0 [] None st0 F0
              (add_trace (set_file w outfile F0)
                 ([EvFileOpen outfile] ++
                  [EvPrint (Str.of_int (Z.of_nat (batch_size dl)) +:+ " "
                            +:+ Str.of_int (Z.of_nat C))] ++
                  [EvCreateDataset outfile "all_labels" C])))
    as (st & F & evs & Hrun & Hm); auto.
  { apply file_at_set_file. }
  { constructor; simpl; try done.
    - by rewrite Nat.sub_0_r.
    - by rewrite fmap_replicate. }
  erewrite bind_ok by exact Hrun.
  rewrite !set_file_add_trace, !add_trace_add_trace, !set_file_set_file.
  destruct Hm as [Hcnt Hlab Hfe Hh Hfl Hnone Hop Hdat].
  rewrite foldl_labels_after in *. simpl in Hcnt, Hlab, Hfe.
  destruct (length_labels_ok (batch_size dl) (batches dl) Hok) as [Hlen Hle].
  fold (total_examples dl) in Hlen, Hle.
  rewrite Hlen in Hcnt, Hlab, Hfe.
  assert (Hget : Dict.get (datasets F) "count" = None).
  { rewrite Hdat. by destruct (Embedding.all_feats_array st). }
  erewrite bind_ok; last first.
  { eapply create_dataset_ok; eauto.
    apply file_at_set_file. }
  rewrite !set_file_add_trace, !add_trace_add_trace, !set_file_set_file.
  erewrite bind_ok; last first.
  { eapply h5_setitem_ok.
    - apply file_at_set_file.
    - reflexivity.
    - simpl. apply dict_get_set_eq.
    - simpl. lia. }
  rewrite !set_file_add_trace, !add_trace_add_trace, !set_file_set_file.
  erewrite bind_ok; last first.
  { eapply h5_close_ok.
    - apply file_at_set_file.
    - reflexivity. }
  rewrite !set_file_add_trace, !add_trace_add_trace, !set_file_set_file.
  unfold ret. eexists. f_equal.
  - f_equal. f_equal.
    + rewrite Hfe, foldl_feats_after_none. unfold expected_feats.
      by destruct (batches dl).
    + by rewrite Hlab.
  - f_equal. f_equal. unfold expected_archive. f_equal.
    simpl. rewrite dict_set_set, Hdat, Hcnt.
    assert (Hf : Embedding.all_feats_array st = expected_feats model dl).
    { rewrite Hfe, foldl_feats_after_none. unfold expected_feats.
      by destruct (batches dl). }
    rewrite Hf, Hlab. fold (expected_labels dl).
    by destruct (expected_feats model dl).
Qed.

End SaveFeaturesSpec.

(** ** Relations every run respects *)

Section Respects.

Context {tensor row : Type}.
Implicit Types (w : world tensor row).

Variable R : world tensor row -> world tensor row -> Prop.
Hypothesis R_refl : forall w, R w w.
Hypothesis R_trans : forall w1 w2 w3, R w1 w2 -> R w2 w3 -> R w1 w3.

Lemma respects_ret {A} (a : A) : respects R (ret a).
Proof. intros w. apply R_refl. Qed.

Lemma respects_raise {A} (e : exn) : respects R (@raise tensor row A e).
Proof. intros w. apply R_refl. Qed.

Lemma respects_lift {A} (r : exn + A) : respects R (lift r).
Proof. destruct r; [apply respects_raise | apply respects_ret]. Qed.

Lemma respects_bind {A B} (m : M tensor row A) (k : A -> M tensor row B) :
  respects R m -> (forall a, respects R (k a)) -> respects R (bind m k).
Proof.
  intros Hm Hk w. unfold bind. specialize (Hm w).
  destruct (m w) as [[e|a] w1]; simpl in *; [done|].
  eapply R_trans; [exact Hm | apply Hk].
Qed.

(** A bind whose continuation is only known to behave on the values that
    satisfy [I], which the first computation guarantees. *)
Lemma respects_bind_inv {A B} (I : A -> Prop)
    (m : M tensor row A) (k : A -> M tensor row B) :
  respects R m -> (forall w a, (m w).1 = inr a -> I a) ->
  (forall a, I a -> respects R (k a)) -> respects R (bind m k).
Proof.
  intros Hm HI Hk w. unfold bind. specialize (Hm w). specialize (HI w).
  destruct (m w) as [[e|a] w1]; simpl in *; [done|].
  eapply R_trans; [exact Hm | apply Hk; auto].
Qed.

Lemma respects_for_enumerate {A St} (I : St -> Prop) (l : list A)
    (body : nat -> A -> St -> M tensor row St) :
  (forall i x s, I s -> respects R (body i x s)) ->
  (forall i x s w s', I s -> (body i x s w).1 = inr s' -> I s') ->
  forall i s, I s -> respects R (for_enumerate l i s body).
Proof.
  intros Hb HI. induction l as [|x l IH]; intros i s Hs; simpl.
  - apply respects_ret.
  - apply respects_bind_inv with (I := I); eauto.
Qed.

End Respects.

Section TraceFacts.

Context {tensor row : Type}.
Implicit Types (w : world tensor row).

Lemma trace_grows_refl (P : event -> Prop) w : trace_grows P w w.
Proof. exists []. by rewrite app_nil_r. Qed.

Lemma trace_grows_trans (P : event -> Prop) w1 w2 w3 :
  trace_grows P w1 w2 -> trace_grows P w2 w3 -> trace_grows P w1 w3.
Proof.
  intros (a & Ha & HPa) (b & Hb & HPb). exists (a ++ b).
  rewrite Hb, Ha, app_assoc. split; [done|]. by apply Forall_app.
Qed.

Lemma same_heap_refl w : same_heap w w.
Proof. reflexivity. Qed.

Lemma same_heap_trans w1 w2 w3 :
  same_heap w1 w2 -> same_heap w2 w3 -> same_heap w1 w3.
Proof. unfold same_heap. congruence. Qed.

Lemma emit_grows (P : event -> Prop) e :
  P e -> respects (trace_grows P) (@emit tensor row e).
Proof. intros HP w. exists [e]. simpl. split; [done|]. by constructor. Qed.

Lemma h5_update_grows (P : event -> Prop) p g :
  respects (trace_grows P) (@h5_update tensor row p g).
Proof.
  intros w. unfold h5_update.
  destruct (file_at w p) as [F|]; [|apply trace_grows_refl].
  destruct (closed F); [apply trace_grows_refl|].
  destruct (g F); [apply trace_grows_refl|].
  exists []. simpl. by rewrite app_nil_r.
Qed.

Lemma h5_update_same_heap p g : respects same_heap (@h5_update tensor row p g).
Proof.
  intros w. unfold h5_update.
  destruct (file_at w p) as [F|]; [|done].
  destruct (closed F); [done|]. by destruct (g F).
Qed.

Lemma emit_same_heap e : respects same_heap (@emit tensor row e).
Proof. by intros w. Qed.

Lemma h5py_File_same_heap p : respects same_heap (@h5py_File tensor row p).
Proof. intros w. unfold h5py_File. by destruct (_ || _). Qed.

Lemma create_dataset_grows (P : event -> Prop) f name n (z : cell row) :
  P (EvCreateDataset f name n) ->
  respects (trace_grows P) (@create_dataset tensor row f name n z).
Proof.
  intros HP. unfold create_dataset.
  apply respects_bind; [apply trace_grows_trans | | ].
  - apply h5_update_grows.
  - intros _. apply respects_bind;
      [apply trace_grows_trans | | ].
    + by apply emit_grows.
    + intros _. apply respects_ret, trace_grows_refl.
Qed.

Lemma create_dataset_handle f name n (z : cell row) w (ds : string * string) :
  (@create_dataset tensor row f name n z w).1 = inr ds -> ds = (f, name).
Proof.
  unfold create_dataset, bind, emit, ret.
  destruct (h5_update _ _ w) as [[e|[]] w1]; simpl; congruence.
Qed.

Lemma h5_setslice_grows (P : event -> Prop) ds lo hi (v : list (cell row)) :
  P (EvWrite ds.1 ds.2 lo hi) ->
  respects (trace_grows P) (@h5_setslice tensor row ds lo hi v).
Proof.
  intros HP. unfold h5_setslice.
  apply respects_bind; [apply trace_grows_trans | | ].
  - apply h5_update_grows.
  - intros _. by apply emit_grows.
Qed.

Lemma create_dataset_same_heap f name n (z : cell row) :
  respects same_heap (@create_dataset tensor row f name n z).
Proof.
  unfold create_dataset.
  apply respects_bind; [apply same_heap_trans | | ].
  - apply h5_update_same_heap.
  - intros _. apply respects_bind;
      [apply same_heap_trans | | ].
    + apply emit_same_heap.
    + intros _. apply respects_ret, same_heap_refl.
Qed.

Lemma h5_setslice_same_heap ds lo hi (v : list (cell row)) :
  respects same_heap (@h5_setslice tensor row ds lo hi v).
Proof.
  unfold h5_setslice.
  apply respects_bind; [apply same_heap_trans | | ].
  - apply h5_update_same_heap.
  - intros _. apply emit_same_heap.
Qed.

Lemma h5_setitem_same_heap ds i (v : cell row) :
  respects same_heap (@h5_setitem tensor row ds i v).
Proof.
  unfold h5_setitem.
  apply respects_bind; [apply same_heap_trans | | ].
  - apply h5_update_same_heap.
  - intros _. apply emit_same_heap.
Qed.

Lemma h5_close_same_heap f : respects same_heap (@h5_close tensor row f).
Proof.
  unfold h5_close.
  apply respects_bind; [apply same_heap_trans | | ].
  - apply h5_update_same_heap.
  - intros _. apply emit_same_heap.
Qed.

End TraceFacts.

(** ** The order of archive events *)

Section EventOrder.

Context {tensor image row : Type}.
Implicit Types (w : world tensor row).

Variable model : nn_module tensor image row.
Variable dl : data_loader image.
Variable outfile : string.

Lemma save_batch_handle C i xy st w st' :
  (Embedding.save_batch model dl outfile C (outfile, "all_labels") i xy st w).1
  = inr st' ->
  handle_ok outfile st -> handle_ok outfile st'.
Proof.
  unfold Embedding.save_batch. destruct xy as [x y].
  intros Hrun Hst.
  apply bind_inr_fst in Hrun as (? & w0 & E & Hrun).
  apply bind_inr_fst in Hrun as ([ds arr] & w1 & E0 & Hrun).
  apply bind_inr_fst in Hrun as (? & w2 & _ & Hrun).
  apply bind_inr_fst in Hrun as (? & w3 & _ & Hrun).
  apply bind_inr_fst in Hrun as (a & w4 & _ & Hrun).
  apply bind_inr_fst in Hrun as (b & w5 & _ & Hrun).
  unfold ret in Hrun. simpl in Hrun. inversion Hrun; subst.
  intros ds' [= <-].
  destruct (Embedding.all_feats st) as [ds0|] eqn:Hh.
  - unfold ret in E0. inversion E0; subst. by apply Hst.
  - unfold bind in E0.
    destruct (create_dataset outfile "all_feats" C _ w0) as [[?|r'] w'] eqn:Ec;
      simpl in E0; [discriminate|].
    unfold ret in E0. inversion E0; subst.
    eapply create_dataset_handle. by rewrite Ec.
Qed.

Lemma save_batch_early C i xy st :
  handle_ok outfile st ->
  respects (trace_grows early)
    (Embedding.save_batch model dl outfile C (outfile, "all_labels") i xy st).
Proof.
  intros Hst. unfold Embedding.save_batch. destruct xy as [x y].
  apply respects_bind; [apply trace_grows_trans | | intros _ ].
  { destruct (_ =? _); [by apply emit_grows | apply respects_ret, trace_grows_refl]. }
  apply respects_bind_inv
    with (I := fun p : (string * string) * option (list row) =>
                 p.1 = (outfile, "all_feats"));
    [apply trace_grows_trans | | | ].
  - destruct (Embedding.all_feats st); [apply respects_ret, trace_grows_refl|].
    apply respects_bind; [apply trace_grows_trans | | ].
    + by apply create_dataset_grows.
    + intros ds. apply respects_ret, trace_grows_refl.
  - intros w [ds arr] Hrun. simpl.
    destruct (Embedding.all_feats st) as [ds0|] eqn:Hh.
    + unfold ret in Hrun. simpl in Hrun. inversion Hrun; subst. by apply Hst.
    + unfold bind in Hrun.
      destruct (create_dataset outfile "all_feats" C _ w) as [[?|r'] w'] eqn:Ec;
        simpl in Hrun; [discriminate|].
      unfold ret in Hrun. simpl in Hrun. inversion Hrun; subst.
      eapply create_dataset_handle. by rewrite Ec.
  - intros [ds arr] Hds. simpl in Hds. subst ds.
    apply respects_bind; [apply trace_grows_trans | | intros _ ].
    { by apply h5_setslice_grows. }
    apply respects_bind; [apply trace_grows_trans | | intros _ ].
    { by apply h5_setslice_grows. }
    apply respects_bind; [apply trace_grows_trans | | intros a ].
    { destruct arr; [apply respects_lift | apply respects_raise];
        apply trace_grows_refl. }
    apply respects_bind; [apply trace_grows_trans | | intros b ].
    { apply respects_lift, trace_grows_refl. }
    apply respects_ret, trace_grows_refl.
Qed.

Lemma loop_early C (l : list (list image * list Z)) i st :
  handle_ok outfile st ->
  respects (trace_grows early)
    (for_enumerate l i st
       (Embedding.save_batch model dl outfile C (outfile, "all_labels"))).
Proof.
  apply respects_for_enumerate with (I := handle_ok outfile).
  - apply trace_grows_refl.
  - apply trace_grows_trans.
  - intros. by apply save_batch_early.
  - intros i' x s w s' Hs Hrun. eapply save_batch_handle; eauto.
Qed.

(** An archive update followed by its event: it fails leaving the world as
    it was, or succeeds adding exactly that event. *)
Lemma update_emit_cases p (g : h5file row -> exn + h5file row) e w :
  (exists x, (h5_update p g ;; emit e) w = (inl x, w))
  \/ (exists w', (h5_update p g ;; emit e) w = (inr tt, w')
                 /\ trace w' = trace w ++ [e]).
Proof.
  unfold bind, h5_update, emit.
  destruct (file_at w p) as [F|]; [|left; eauto].
  destruct (closed F); [left; eauto|].
  destruct (g F); [left; eauto|]. right. eauto.
Qed.

Lemma create_dataset_cases f name n (z : cell row) w :
  (exists x, create_dataset f name n z w = (inl x, w))
  \/ (exists w', create_dataset f name n z w = (inr (f, name), w')
                 /\ trace w' = trace w ++ [EvCreateDataset f name n]).
Proof.
  unfold create_dataset, bind, h5_update, emit, ret.
  destruct (file_at w f) as [F|]; [|left; eauto].
  destruct (closed F); [left; eauto|].
  destruct (Dict.get (datasets F) name); [left; eauto|]. right. eauto.
Qed.

Lemma h5_setitem_cases ds i (v : cell row) w :
  (exists x, h5_setitem ds i v w = (inl x, w))
  \/ (exists w', h5_setitem ds i v w = (inr tt, w')
                 /\ trace w' = trace w ++ [EvWrite ds.1 ds.2 i (S i)]).
Proof. apply update_emit_cases. Qed.

Lemma h5_close_cases f w :
  (exists x, @h5_close tensor row f w = (inl x, w))
  \/ (exists w', h5_close f w = (inr tt, w')
                 /\ trace w' = trace w ++ [EvFileClose f]).
Proof. apply update_emit_cases. Qed.

Lemma closing_cases {A} (c : Z) (r : A) w :
  exists after,
    trace ((let* count_var := create_dataset outfile "count" 1 (CInt 0) in
            h5_setitem count_var 0 (CInt c) ;; h5_close outfile ;; ret r) w).2
    = trace w ++ after
    /\ after `prefix_of` closing_events outfile
    /\ (forall r',
          ((let* count_var := create_dataset outfile "count" 1 (CInt 0) in
            h5_setitem count_var 0 (CInt c) ;; h5_close outfile ;; ret r) w).1
          = inr r' -> after = closing_events outfile).
Proof.
  destruct (create_dataset_cases outfile "count" 1 (CInt 0%Z) w)
    as [[x H1]|(w1 & H1 & T1)].
  { rewrite (bind_raise _ _ _ _ _ H1). simpl. exists []. rewrite app_nil_r.
    split; [done|]. split; [apply prefix_nil | discriminate]. }
  rewrite (bind_ok _ _ _ _ _ H1).
  destruct (h5_setitem_cases (outfile, "count") 0 (CInt c) w1)
    as [[x H2]|(w2 & H2 & T2)].
  { rewrite (bind_raise _ _ _ _ _ H2). simpl.
    exists [EvCreateDataset outfile "count" 1].
    split; [done|]. split; [|discriminate].
    by exists [EvWrite outfile "count" 0 1; EvFileClose outfile]. }
  rewrite (bind_ok _ _ _ _ _ H2).
  destruct (h5_close_cases outfile w2) as [[x H3]|(w3 & H3 & T3)].
  { rewrite (bind_raise _ _ _ _ _ H3). simpl.
    exists [EvCreateDataset outfile "count" 1; EvWrite outfile "count" 0 1].
    rewrite T2, T1. simpl. rewrite <- app_assoc.
    split; [done|]. split; [|discriminate].
    by exists [EvFileClose outfile]. }
  rewrite (bind_ok _ _ _ _ _ H3). unfold ret. simpl.
  exists (closing_events outfile).
  rewrite T3, T2, T1. simpl. rewrite <- !app_assoc.
  split; [done|]. split; [done|]. done.
Qed.

End EventOrder.

Section RowWrites.

Context {tensor image row : Type}.
Implicit Types (w : world tensor row).

Variable model : nn_module tensor image row.
Variable dl : data_loader image.
Variable outfile : string.

Lemma row_writes_app a b : row_writes (a ++ b) = row_writes a + row_writes b.
Proof. unfold row_writes. by rewrite List.filter_app, length_app. Qed.

Lemma lift_inr {A} (r : exn + A) w a w' :
  lift r w = (inr a, w') -> w' = w.
Proof. destruct r; unfold lift, raise, ret; congruence. Qed.

Lemma h5_setslice_cases ds lo hi (v : list (cell row)) w :
  (exists x, h5_setslice ds lo hi v w = (inl x, w))
  \/ (exists w', h5_setslice ds lo hi v w = (inr tt, w')
                 /\ trace w' = trace w ++ [EvWrite ds.1 ds.2 lo hi]).
Proof. apply update_emit_cases. Qed.

(** A batch that is handled without an exception adds exactly two row
    writes: its feature rows, then its label rows. *)
Lemma save_batch_rows C i xy st w st' w' :
  Embedding.save_batch model dl outfile C (outfile, "all_labels") i xy st w
  = (inr st', w') ->
  handle_ok outfile st ->
  exists evs, trace w' = trace w ++ evs /\ row_writes evs = 2.
Proof.
  unfold Embedding.save_batch. destruct xy as [x y]. intros Hrun Hst.
  apply bind_inr in Hrun as (? & w0 & E0 & Hrun).
  apply bind_inr in Hrun as ([ds arr] & w1 & E1 & Hrun).
  apply bind_inr in Hrun as (? & w2 & E2 & Hrun).
  apply bind_inr in Hrun as (? & w3 & E3 & Hrun).
  apply bind_inr in Hrun as (a & w4 & E4 & Hrun).
  apply bind_inr in Hrun as (b & w5 & E5 & Hrun).
  unfold ret in Hrun. inversion Hrun; subst. clear Hrun.
  apply lift_inr in E5 as ->.
  assert (w4 = w3) as ->.
  { destruct arr; [by apply lift_inr in E4 | discriminate]. }
  assert (exists e0, trace w0 = trace w ++ e0 /\ row_writes e0 = 0)
    as (e0 & T0 & R0).
  { destruct (_ =? _).
    - inversion E0; subst. by exists [EvPrint (Str.of_int (Z.of_nat i) +:+ "/"
                                   +:+ Str.of_int (Z.of_nat (len dl)))].
    - inversion E0; subst. exists []. by rewrite app_nil_r. }
  assert (ds = (outfile, "all_feats")
          /\ exists e1, trace w1 = trace w0 ++ e1 /\ row_writes e1 = 0)
    as (-> & e1 & T1 & R1).
  { destruct (Embedding.all_feats st) as [ds0|] eqn:Hh.
    - inversion E1; subst. split; [by apply Hst|].
      exists []. by rewrite app_nil_r.
    - apply bind_inr in E1 as (ds0 & w0' & Ec & Er).
      inversion Er; subst.
      destruct (create_dataset_cases outfile "all_feats" C
                  (CRow (zero_row (arch model))) w0)
        as [[e He]|(w1' & He & Te)]; rewrite He in Ec; [discriminate|].
      inversion Ec; subst. split; [done|]. by eexists. }
  destruct (h5_setslice_cases (outfile, "all_feats") (Embedding.count st)
              (Embedding.count st + length (call model x))
              (CRow <$> (as_float32 (arch model) <$> call model x)) w1)
    as [[e He]|(w2' & He & T2)]; rewrite He in E2; [discriminate|].
  inversion E2; subst w2'. clear E2.
  destruct (h5_setslice_cases (outfile, "all_labels") (Embedding.count st)
              (Embedding.count st + length (call model x)) (CInt32 <$> y) w2)
    as [[e He']|(w3' & He' & T3)]; rewrite He' in E3; [discriminate|].
  inversion E3; subst w3'. clear E3.
  eexists. split.
  - rewrite T3, T2, T1, T0. rewrite <- !app_assoc. reflexivity.
  - rewrite !row_writes_app, R0, R1. reflexivity.
Qed.

Lemma loop_rows C (l : list (list image * list Z)) :
  forall i st w st' w',
    for_enumerate l i st
      (Embedding.save_batch model dl outfile C (outfile, "all_labels")) w
    = (inr st', w') ->
    handle_ok outfile st ->
    exists evs, trace w' = trace w ++ evs /\ row_writes evs = 2 * length l.
Proof.
  induction l as [|xy l IH]; intros i st w st' w' Hrun Hst; simpl in Hrun.
  - inversion Hrun; subst. exists []. by rewrite app_nil_r.
  - apply bind_inr in Hrun as (st1 & w1 & E1 & Hrun).
    destruct (save_batch_rows _ _ _ _ _ _ _ E1 Hst) as (e1 & T1 & R1).
    assert (Hst1 : handle_ok outfile st1).
    { eapply save_batch_handle; [|exact Hst]. by rewrite E1. }
    destruct (IH _ _ _ _ _ Hrun Hst1) as (e2 & T2 & R2).
    exists (e1 ++ e2). rewrite T2, T1, <- app_assoc. split; [done|].
    rewrite row_writes_app, R1, R2. simpl. lia.
Qed.

End RowWrites.

Section CountLast.

Context {tensor image row : Type}.
Implicit Types (w : world tensor row).

Lemma h5py_File_cases p w :
  @h5py_File tensor row p w = (inl OSError, w)
  \/ (exists w', h5py_File p w = (inr p, w')
                 /\ trace w' = trace w ++ [EvFileOpen p]).
Proof. unfold h5py_File. destruct (_ || _); [right; eauto | by left]. Qed.

(** C8. In every run of the extraction, whether it ends normally or with an
    exception, the events it adds to the trace split into a first part that
    holds no write of [count] and no close, and a second part that holds no
    row write and is an initial segment of: create [count], write [count],
    close the archive. When the extraction returns, the second part is all
    three events and the first part holds the two row writes (features,
    labels) of every batch. So [count] is written after all rows, and the
    archive is closed only after [count] is written. *)
Theorem count_written_after_all_rows
    (model : nn_module tensor image row) (dl : data_loader image)
    (outfile : string) w :
  exists before after,
    trace (Embedding._save_features model dl outfile w).2
    = trace w ++ before ++ after
    /\ Forall early before
    /\ row_writes after = 0
    /\ after `prefix_of` closing_events outfile
    /\ (forall r, (Embedding._save_features model dl outfile w).1 = inr r ->
          after = closing_events outfile
          /\ row_writes before = 2 * len dl).
Proof.
  unfold Embedding._save_features.
  destruct (h5py_File_cases outfile w) as [H1|(w1 & H1 & T1)].
  { rewrite (bind_raise _ _ _ _ _ H1). exists [], []. simpl.
    rewrite app_nil_r. repeat split; try done. apply prefix_nil. }
  rewrite (bind_ok _ _ _ _ _ H1).
  erewrite bind_ok by reflexivity.
  set (w2 := add_trace w1 _).
  assert (T2 : exists m, trace w2 = trace w ++ [EvFileOpen outfile; EvPrint m]).
  { eexists. unfold w2. simpl. rewrite T1, <- app_assoc. reflexivity. }
  destruct T2 as [m T2].
  destruct (create_dataset_cases outfile "all_labels"
              (len dl * batch_size dl) (CInt 0%Z : cell row) w2)
    as [[x H3]|(w3 & H3 & T3)].
  { rewrite (bind_raise _ _ _ _ _ H3). simpl.
    exists [EvFileOpen outfile; EvPrint m], []. rewrite app_nil_r.
    repeat split; try done.
    - repeat constructor.
    - apply prefix_nil. }
  rewrite (bind_ok _ _ _ _ _ H3).
  set (st0 := Embedding.Locals None None _ 0).
  assert (Hst0 : handle_ok outfile st0) by (intros ds; discriminate).
  pose proof (loop_early model dl outfile (len dl * batch_size dl)
                (batches dl) 0 st0 Hst0 w3) as (evs & T4 & Hearly).
  assert (Hhead : Forall early
            ([EvFileOpen outfile; EvPrint m;
              EvCreateDataset outfile "all_labels" (len dl * batch_size dl)]
             ++ evs)).
  { apply Forall_app. split; [repeat constructor | done]. }
  destruct (for_enumerate (batches dl) 0 st0 _ w3) as [[x|st] w4] eqn:H4.
  { rewrite (bind_raise _ _ _ _ _ H4). simpl in *.
    exists ([EvFileOpen outfile; EvPrint m;
              EvCreateDataset outfile "all_labels" (len dl * batch_size dl)]
             ++ evs), [].
    rewrite app_nil_r. split.
    { rewrite T4, T3, T2, <- !app_assoc. reflexivity. }
    repeat split; try done. apply prefix_nil. }
  rewrite (bind_ok _ _ _ _ _ H4). simpl in T4.
  destruct (loop_rows model dl outfile _ _ _ _ _ _ _ H4 Hst0)
    as (evs' & T4' & Hrows).
  assert (evs' = evs) as ->.
  { rewrite T4 in T4'. by apply app_inv_head in T4'. }
  destruct (closing_cases outfile (Z.of_nat (Embedding.count st))
              (Embedding.all_feats_array st, Embedding.all_labels_array st) w4)
    as (after & T5 & Hpre & Hall).
  exists ([EvFileOpen outfile; EvPrint m;
            EvCreateDataset outfile "all_labels" (len dl * batch_size dl)]
           ++ evs), after.
  split.
  { rewrite T5, T4, T3, T2, <- !app_assoc. reflexivity. }
  split; [done|]. split.
  { destruct Hpre as [k Hk].
    assert (Hz : row_writes (closing_events outfile) = 0) by reflexivity.
    rewrite Hk, row_writes_app in Hz. lia. }
  split; [done|].
  intros r Hr. split; [by eapply Hall|].
  rewrite row_writes_app, Hrows. reflexivity.
Qed.

End CountLast.

(** ** The data loader and the output file *)

Section Outfile.

Context {tensor image row : Type}.
Implicit Types (w : world tensor row).

Variable E : collaborators tensor image row.


(** What [_get_data_loader_and_outfile] does, case by case. *)
Lemma get_data_loader_and_outfile_run (self : Embedding.t) w :
  Embedding.method self <> "maml" -> Embedding.method self <> "maml_approx" ->
  let outfile :=
    spec_outfile (Embedding.checkpoint_dir self) (Embedding.split self)
      (Embedding.save_iter self) in
  let d := OsPath.dirname outfile in
  let path := get_path_to_json E (Embedding.dataset self) (Embedding.split self) in
  let size := spec_image_size (Embedding.backbone self) in
  let dl := get_data_loader E size 64 path false (Embedding.shallow self) in
  let w0 := add_trace w [EvDataLoader size 64 path false (Embedding.shallow self)] in
  Embedding._get_data_loader_and_outfile E self w
  = if bool_decide (d ∈ dirs (fs w)) then (inr (dl, outfile), w0)
    else if bool_decide (d = "") || exists_file (fs w) d then (inl OSError, w0)
    else (inr (dl, outfile),
          add_trace
            (set_fs w (FS (d :: dirs (fs w)) (files (fs w)) (seed_records (fs w))))
            [EvDataLoader size 64 path false (Embedding.shallow self); EvMakedirs d]).
Proof.
  intros H1 H2. simpl. unfold Embedding._get_data_loader_and_outfile.
  rewrite !bool_decide_eq_true_2 by done. simpl.
  assert (Hout :
    (if bool_decide (Embedding.save_iter self <> (-1)%Z)
     then OsPath.join (Embedding.checkpoint_dir self)
            (Embedding.split self +:+ "_" +:+ Str.of_int (Embedding.save_iter self)
             +:+ ".hdf5")
     else OsPath.join (Embedding.checkpoint_dir self) (Embedding.split self +:+ ".hdf5"))
    = spec_outfile (Embedding.checkpoint_dir self) (Embedding.split self)
        (Embedding.save_iter self)).
  { unfold spec_outfile. repeat case_bool_decide; congruence. }
  rewrite Hout. fold (spec_image_size (Embedding.backbone self)).
  set (outfile := spec_outfile _ _ _).
  unfold bind, emit, isdir, makedirs, ret. simpl.
  destruct (bool_decide (OsPath.dirname outfile ∈ dirs (fs w))) eqn:Hd; simpl.
  - reflexivity.
  - rewrite Hd, orb_false_r.
    destruct (bool_decide (OsPath.dirname outfile = "") || _); [reflexivity|].
    unfold add_trace, set_fs. simpl. by rewrite <- app_assoc.
Qed.

Lemma get_data_loader_and_outfile_same_heap (self : Embedding.t) :
  respects same_heap (Embedding._get_data_loader_and_outfile E self).
Proof.
  intros w. unfold Embedding._get_data_loader_and_outfile.
  destruct (_ && _); [|done].
  unfold bind, emit, isdir, makedirs, ret. simpl.
  destruct (bool_decide (_ ∈ _)) eqn:Hd; simpl; [done|].
  rewrite Hd. by destruct (_ || _).
Qed.

(** When the call returns, the archive's directory exists. *)
Lemma get_data_loader_and_outfile_isdir (self : Embedding.t) w dl outfile w' :
  Embedding._get_data_loader_and_outfile E self w = (inr (dl, outfile), w') ->
  OsPath.dirname outfile ∈ dirs (fs w').
Proof.
  unfold Embedding._get_data_loader_and_outfile.
  destruct (_ && _); [|discriminate].
  unfold bind, emit, isdir, makedirs, ret. simpl.
  destruct (bool_decide (_ ∈ _)) eqn:Hd; simpl.
  - intros [= <- <- <-]. simpl. by apply bool_decide_eq_true_1 in Hd.
  - rewrite Hd. destruct (_ || _); [discriminate|]. intros [= <- <- <-]. simpl.
    apply list_elem_of_here.
Qed.

End Outfile.

(** ** Loading the model *)

Section LoadModel.

Context {tensor image row : Type}.
Implicit Types (w : world tensor row).

Variable E : collaborators tensor image row.

Lemma heap_grows_refl w : heap_grows w w.
Proof. exists []. by rewrite app_nil_r. Qed.

Lemma heap_grows_trans w1 w2 w3 :
  heap_grows w1 w2 -> heap_grows w2 w3 -> heap_grows w1 w3.
Proof.
  intros [a Ha] [b Hb]. exists (a ++ b). by rewrite Hb, Ha, app_assoc.
Qed.

Lemma respects_same_heap_grows {A} (m : M tensor row A) :
  respects same_heap m -> respects heap_grows m.
Proof. intros H w. exists []. rewrite app_nil_r. apply H. Qed.

Lemma set_heap_same w : set_heap w (heap w) = w.
Proof. by destruct w. Qed.

(** One turn of the filtering loop only touches the copy, the last
    dictionary of the heap. *)
Lemma keep_feature_layer_copy h0 d k w :
  heap w = h0 ++ [d] ->
  exists r d',
    Embedding.keep_feature_layer (length h0) k w = (r, set_heap w (h0 ++ [d'])).
Proof.
  intros Hh. unfold Embedding.keep_feature_layer.
  assert (Hl : heap w !! length h0 = Some d).
  { rewrite Hh. by apply list_lookup_middle. }
  assert (Hi : forall d', <[length h0 := d']> (heap w) = h0 ++ [d']).
  { intros d'. rewrite Hh. rewrite insert_app_r_alt by lia.
    by rewrite Nat.sub_diag. }
  destruct (Str.contains "feature." k).
  - unfold bind, dict_pop. rewrite Hl.
    destruct (Dict.pop d k) as [[v d1]|].
    + unfold dict_setitem. simpl. rewrite Hi.
      rewrite list_lookup_middle by done. simpl.
      rewrite insert_app_r_alt by lia. rewrite Nat.sub_diag. simpl.
      by eexists _, _.
    + exists (inl (KeyError k)), d. by rewrite <- Hh, set_heap_same.
  - unfold bind, dict_pop. rewrite Hl.
    destruct (Dict.pop d k) as [[v d1]|].
    + rewrite Hi. by eexists _, _.
    + exists (inl (KeyError k)), d. by rewrite <- Hh, set_heap_same.
Qed.

Lemma keep_feature_layers_copy h0 (keys : list string) :
  forall d w,
    heap w = h0 ++ [d] ->
    exists r d',
      for_each keys (Embedding.keep_feature_layer (length h0)) w
      = (r, set_heap w (h0 ++ [d'])).
Proof.
  induction keys as [|k keys IH]; intros d w Hh; simpl.
  - exists (inr tt), d. by rewrite <- Hh, set_heap_same.
  - destruct (keep_feature_layer_copy h0 d k w Hh) as (r & d1 & Hr).
    unfold bind. rewrite Hr. destruct r as [e|[]]; [by eexists _, _|].
    destruct (IH d1 (set_heap w (h0 ++ [d1])) eq_refl) as (r2 & d2 & Hr2).
    rewrite Hr2. by eexists _, _.
Qed.

Lemma create_backbone_pure (self : Embedding.t) w :
  (Embedding.create_backbone E self w).2 = w.
Proof.
  unfold Embedding.create_backbone, Embedding.model_dict_call.
  repeat case_bool_decide; try done; by destruct (model_dict E _).
Qed.

(** The filtering: the world it leaves differs from the one it found by at
    most one new dictionary, the filtered copy; when it returns, the copy
    is the dictionary it names. *)
Lemma filtered_state_heap (self : Embedding.t) ms w :
  exists r new,
    Embedding.filtered_state E self ms w = (r, set_heap w (heap w ++ new))
    /\ forall model state, r = inr (model, state) ->
         state = length (heap w) /\ exists d, new = [d].
Proof.
  unfold Embedding.filtered_state.
  assert (Hfail : forall (e : exn),
    exists (r : exn + (extractor tensor image row * loc)) new,
      (inl e, w) = (r, set_heap w (heap w ++ new))
      /\ forall model state, r = inr (model, state) ->
           state = length (heap w) /\ exists d, new = [d]).
  { intros e. exists (inl e), []. rewrite app_nil_r, set_heap_same.
    split; [done | discriminate]. }
  unfold bind at 1. unfold getitem.
  destruct ms as [l| |]; [|apply Hfail..].
  destruct (heap w !! l) as [d0|]; [|apply Hfail].
  destruct (Dict.get d0 "state") as [v|]; [|apply Hfail].
  unfold bind at 1. unfold dict_copy.
  destruct v as [l'| |]; [|apply Hfail..].
  destruct (heap w !! l') as [d|]; [|apply Hfail].
  set (w1 := set_heap w (heap w ++ [d])).
  assert (Hfail1 : forall (e : exn),
    exists (r : exn + (extractor tensor image row * loc)) new,
      (inl e, w1) = (r, set_heap w (heap w ++ new))
      /\ forall model state, r = inr (model, state) ->
           state = length (heap w) /\ exists d, new = [d]).
  { intros e. exists (inl e), [d]. split; [done | discriminate]. }
  unfold bind at 1. unfold dict_keys. simpl.
  rewrite list_lookup_middle by done.
  unfold bind at 1.
  pose proof (create_backbone_pure self w1) as Hp.
  destruct (Embedding.create_backbone E self w1) as [[e|model] w2];
    simpl in Hp; subst w2; [apply Hfail1|].
  destruct (keep_feature_layers_copy (heap w) (Dict.keys d) d w1 eq_refl)
    as (r & d' & Hr).
  unfold bind. rewrite Hr. destruct r as [e|[]].
  - exists (inl e), [d']. split; [done | discriminate].
  - exists (inr (model, length (heap w))), [d']. split; [done|].
    intros ? ? [= <- <-]. eauto.
Qed.

Lemma load_model_split (self : Embedding.t) ms w :
  Embedding._load_model E self ms w
  = (let* '(model, state) := Embedding.filtered_state E self ms in
     load_state_dict model state) w.
Proof.
  unfold Embedding._load_model, Embedding.filtered_state, bind.
  destruct (getitem ms "state" w) as [[?|?] ?]; [done|].
  destruct (dict_copy _ _) as [[?|?] ?]; [done|].
  destruct (dict_keys _ _) as [[?|?] ?]; [done|].
  destruct (Embedding.create_backbone _ _ _) as [[?|?] ?]; [done|].
  by destruct (for_each _ _ _) as [[?|[]] ?].
Qed.

Lemma load_state_dict_pure model state w :
  (@load_state_dict tensor image row model state w).2 = w.
Proof.
  unfold load_state_dict. destruct (heap w !! state); [|done].
  destruct (keys_match _ _); [|done]. destruct (tensors_of _); [|done].
  by destruct (accepts _ _).
Qed.

(** Loading never changes anything but the heap, and there it only adds. *)
Lemma load_model_world (self : Embedding.t) ms w :
  exists new,
    (Embedding._load_model E self ms w).2 = set_heap w (heap w ++ new).
Proof.
  rewrite load_model_split. unfold bind.
  destruct (filtered_state_heap self ms w) as (r & new & Hr & _).
  rewrite Hr. exists new. destruct r as [e|[model state]]; [done|].
  apply load_state_dict_pure.
Qed.

End LoadModel.

(** ** The heap across the whole step *)

Section ApplyHeap.

Context {tensor image row : Type}.
Implicit Types (w : world tensor row).

Variable E : collaborators tensor image row.

Lemma save_batch_same_heap (model : nn_module tensor image row)
    (dl : data_loader image) f C labels i xy st :
  respects same_heap (Embedding.save_batch model dl f C labels i xy st).
Proof.
  unfold Embedding.save_batch. destruct xy as [x y].
  apply respects_bind; [apply same_heap_trans | | intros _ ].
  { destruct (_ =? _); [apply emit_same_heap | apply respects_ret, same_heap_refl]. }
  apply respects_bind; [apply same_heap_trans | | intros [ds arr] ].
  { destruct (Embedding.all_feats st); [apply respects_ret, same_heap_refl|].
    apply respects_bind; [apply same_heap_trans | | ].
    - apply create_dataset_same_heap.
    - intros ds. apply respects_ret, same_heap_refl. }
  apply respects_bind; [apply same_heap_trans | | intros _ ].
  { apply h5_setslice_same_heap. }
  apply respects_bind; [apply same_heap_trans | | intros _ ].
  { apply h5_setslice_same_heap. }
  apply respects_bind; [apply same_heap_trans | | intros a ].
  { destruct arr; [apply respects_lift | apply respects_raise];
      apply same_heap_refl. }
  apply respects_bind; [apply same_heap_trans | | intros b ].
  { apply respects_lift, same_heap_refl. }
  apply respects_ret, same_heap_refl.
Qed.

Lemma save_features_same_heap (model : nn_module tensor image row)
    (dl : data_loader image) outfile :
  respects same_heap (Embedding._save_features model dl outfile).
Proof.
  unfold Embedding._save_features.
  apply respects_bind; [apply same_heap_trans | | intros f ].
  { apply h5py_File_same_heap. }
  apply respects_bind; [apply same_heap_trans | | intros _ ].
  { apply emit_same_heap. }
  apply respects_bind; [apply same_heap_trans | | intros labels ].
  { apply create_dataset_same_heap. }
  apply respects_bind; [apply same_heap_trans | | intros st ].
  { apply respects_for_enumerate with (I := fun _ => True);
      [apply same_heap_refl | apply same_heap_trans | | done | done].
    intros. apply save_batch_same_heap. }
  apply respects_bind; [apply same_heap_trans | | intros cv ].
  { apply create_dataset_same_heap. }
  apply respects_bind; [apply same_heap_trans | | intros _ ].
  { apply h5_setitem_same_heap. }
  apply respects_bind; [apply same_heap_trans | | intros _ ].
  { apply h5_close_same_heap. }
  apply respects_ret, same_heap_refl.
Qed.

Lemma load_model_heap_grows (self : Embedding.t) ms :
  respects heap_grows (Embedding._load_model E self ms).
Proof.
  intros w. destruct (load_model_world E self ms w) as [new Hn].
  rewrite Hn. by exists new.
Qed.

Lemma apply_heap_grows (self : Embedding.t) ms :
  respects heap_grows (Embedding.apply E self ms).
Proof.
  unfold Embedding.apply.
  apply respects_bind; [apply heap_grows_trans | | intros _ ].
  { apply respects_same_heap_grows. by intros w. }
  destruct (bool_decide _).
  { apply respects_same_heap_grows.
    apply respects_bind; [apply same_heap_trans | | intros _ ].
    - apply emit_same_heap.
    - apply respects_ret, same_heap_refl. }
  apply respects_bind; [apply heap_grows_trans | | intros model ].
  { apply load_model_heap_grows. }
  apply respects_bind; [apply heap_grows_trans | | intros [dl outfile] ].
  { apply respects_same_heap_grows, get_data_loader_and_outfile_same_heap. }
  apply respects_bind; [apply heap_grows_trans | | intros r ].
  { apply respects_same_heap_grows, save_features_same_heap. }
  apply respects_ret, heap_grows_refl.
Qed.

(** C9. Every dictionary object the caller holds, [model_state] and
    [model_state['state']] among them, has after [apply] exactly the
    entries it had before, whatever the configuration and however the step
    ends: the filter pops from and inserts into a copy that lives at a new
    location. *)
Theorem apply_leaves_model_state_unchanged
    (self : Embedding.t) (model_state : pyval tensor) w
    (l : loc) (d : Dict.t (pyval tensor)) :
  heap w !! l = Some d ->
  heap (Embedding.apply E self model_state w).2 !! l = Some d.
Proof.
  intros Hl. destruct (apply_heap_grows self model_state w) as [new Hn].
  rewrite Hn. by apply lookup_app_l_Some.
Qed.

End ApplyHeap.

(** ** The feature-layer filter *)

Section FilterFacts.

Context {V : Type}.
Implicit Types (d : Dict.t V).

Lemma strip_prefix_Some pre k rest :
  strip_prefix pre k = Some rest -> k = pre +:+ rest.
Proof.
  revert k. induction pre as [|p pre IH]; intros k; simpl.
  - by intros [= ->].
  - destruct k as [|c k]; [done|].
    destruct (Ascii.eqb_spec c p) as [->|]; [|done].
    intros H. by rewrite (IH _ H).
Qed.

Lemma strip_prefix_None pre k :
  Str.startswith k pre = false -> strip_prefix pre k = None.
Proof.
  revert k. induction pre as [|p pre IH]; intros k; simpl; [done|].
  destruct k as [|c k]; [done|].
  destruct (Ascii.eqb c p); simpl; [apply IH | done].
Qed.

Lemma contains_false_startswith pat s :
  Str.contains pat s = false -> Str.startswith s pat = false.
Proof. destruct s; simpl; intros H; by apply orb_false_iff in H as [? _]. Qed.

Lemma replace_from_absent old new s :
  Str.contains old s = false -> Str.replace_from old new 0 s = s.
Proof.
  induction s as [|c s IH]; [done|]. intros H.
  pose proof (contains_false_startswith _ _ H) as Hs.
  simpl in H. apply orb_false_iff in H as [_ H].
  cbn [Str.replace_from]. rewrite Hs. by rewrite IH.
Qed.

Lemma replace_marker_prefix rest :
  Str.contains "feature." rest = false ->
  Str.replace ("feature." +:+ rest) "feature." "" = rest.
Proof.
  intros H. transitivity (Str.replace_from "feature." "" 0 rest); [reflexivity|].
  by apply replace_from_absent.
Qed.

Lemma dict_pop_head d k v rest :
  Dict.pop ((k, v) :: d ++ rest) k = Some (v, d ++ rest).
Proof. simpl. by rewrite String.eqb_refl. Qed.

Lemma dict_set_fresh d k v : k ∉ Dict.keys d -> Dict.set d k v = d ++ [(k, v)].
Proof.
  induction d as [|[k' v'] d IH]; simpl; [done|].
  intros Hn. apply not_elem_of_cons in Hn as [Hne Hn].
  destruct (String.eqb_spec k' k); [congruence|]. by rewrite IH.
Qed.

Lemma spec_filter_cons k (v : V) d :
  spec_filter ((k, v) :: d)
  = match strip_prefix "feature." k with
    | Some rest => (rest, v) :: spec_filter d
    | None => spec_filter d
    end.
Proof.
  unfold spec_filter. cbn [omap list_omap fst snd].
  by destruct (strip_prefix "feature." k).
Qed.

Lemma keep_all_tidy (rem : Dict.t V) :
  forall acc : Dict.t V,
    NoDup (Dict.keys rem) ->
    (forall k, k ∈ Dict.keys rem -> tidy_key (Dict.keys rem ++ Dict.keys acc) k) ->
    keep_all (rem ++ acc) (Dict.keys rem) = Some (acc ++ spec_filter rem).
Proof.
  induction rem as [|[k v] rem IH]; intros acc Hnd Htidy.
  - simpl. by rewrite app_nil_r.
  - apply NoDup_cons in Hnd as [Hk Hnd].
    assert (Hpop : Dict.pop (((k, v) :: rem) ++ acc) k = Some (v, rem ++ acc)).
    { apply dict_pop_head. }
    cbn [Dict.keys fmap list_fmap fst keep_all]. unfold keep_step.
    destruct (Str.contains "feature." k) eqn:Hc.
    + destruct (Htidy k) as (rest & Hs & Hr & Hfresh); [apply list_elem_of_here|done|].
      rewrite Hpop.
      pose proof (strip_prefix_Some _ _ _ Hs) as Hkeq.
      assert (Hrep : Str.replace k "feature." "" = rest).
      { rewrite Hkeq. by apply replace_marker_prefix. }
      rewrite Hrep.
      assert (Hfr : rest ∉ Dict.keys (rem ++ acc)).
      { unfold Dict.keys in *. rewrite fmap_app. csimpl in Hfresh.
        intros Hin. apply Hfresh. by apply list_elem_of_further. }
      rewrite dict_set_fresh by done. rewrite <- app_assoc.
      change (rem.*1) with (Dict.keys rem).
      rewrite (IH (acc ++ [(rest, v)])); [| done |].
      * rewrite spec_filter_cons, Hs. by rewrite <- app_assoc.
      * intros k2 Hk2 Hc2.
        destruct (Htidy k2) as (rest2 & Hs2 & Hr2 & Hfresh2);
          [by apply list_elem_of_further | done |].
        exists rest2. split; [done|]. split; [done|].
        unfold Dict.keys in *. rewrite fmap_app. csimpl.
        csimpl in Hfresh2.
        intros Hin. apply elem_of_app in Hin as [Hin|Hin].
        { apply Hfresh2. apply list_elem_of_further, elem_of_app. by left. }
        apply elem_of_app in Hin as [Hin|Hin].
        { apply Hfresh2. apply list_elem_of_further, elem_of_app. by right. }
        apply list_elem_of_singleton in Hin. subst rest2.
        apply Hk. rewrite Hkeq.
        rewrite <- (strip_prefix_Some _ _ _ Hs2). done.
    + rewrite Hpop.
      change (rem.*1) with (Dict.keys rem).
      rewrite (IH acc); [| done |].
      * rewrite spec_filter_cons.
        rewrite (strip_prefix_None "feature." k); [done|].
        by apply contains_false_startswith.
      * intros k2 Hk2 Hc2.
        destruct (Htidy k2) as (rest2 & Hs2 & Hr2 & Hfresh2);
          [by apply list_elem_of_further | done |].
        exists rest2. split; [done|]. split; [done|].
        csimpl in Hfresh2. intros Hin. apply Hfresh2.
        by apply list_elem_of_further.
Qed.

End FilterFacts.

Section FilterOnHeap.

Context {tensor image row : Type}.
Implicit Types (w : world tensor row) (d : Dict.t (pyval tensor)).

Variable E : collaborators tensor image row.

Lemma keep_feature_layer_pure h0 d k w d' :
  heap w = h0 ++ [d] ->
  keep_step d k = Some d' ->
  Embedding.keep_feature_layer (length h0) k w
  = (inr tt, set_heap w (h0 ++ [d'])).
Proof.
  intros Hh. unfold keep_step, Embedding.keep_feature_layer.
  assert (Hl : heap w !! length h0 = Some d).
  { rewrite Hh. by apply list_lookup_middle. }
  assert (Hi : forall d', <[length h0 := d']> (heap w) = h0 ++ [d']).
  { intros d0. rewrite Hh. rewrite insert_app_r_alt by lia.
    by rewrite Nat.sub_diag. }
  destruct (Str.contains "feature." k).
  - destruct (Dict.pop d k) as [[v d1]|] eqn:Hp; [|done]. intros [= <-].
    unfold bind, dict_pop. rewrite Hl, Hp.
    unfold dict_setitem. simpl. rewrite Hi.
    rewrite list_lookup_middle by done. simpl.
    rewrite insert_app_r_alt by lia. by rewrite Nat.sub_diag.
  - destruct (Dict.pop d k) as [[v d1]|] eqn:Hp; [|done]. intros [= <-].
    unfold bind, dict_pop. rewrite Hl, Hp. by rewrite Hi.
Qed.

Lemma keep_feature_layers_pure h0 (keys : list string) :
  forall d w d',
    heap w = h0 ++ [d] ->
    keep_all d keys = Some d' ->
    for_each keys (Embedding.keep_feature_layer (length h0)) w
    = (inr tt, set_heap w (h0 ++ [d'])).
Proof.
  induction keys as [|k keys IH]; intros d w d' Hh; simpl.
  - intros [= <-]. by rewrite <- Hh, set_heap_same.
  - destruct (keep_step d k) as [d1|] eqn:Hs; [|done]. intros Hall.
    erewrite bind_ok by (eapply keep_feature_layer_pure; eauto).
    by rewrite (IH d1 (set_heap w (h0 ++ [d1])) d').
Qed.

Lemma create_backbone_any_world (self : Embedding.t) w w' :
  (Embedding.create_backbone E self w).1 = (Embedding.create_backbone E self w').1.
Proof.
  unfold Embedding.create_backbone, Embedding.model_dict_call.
  repeat case_bool_decide; try done; by destruct (model_dict E _).
Qed.

(** The filter on a tidy state. When the keys of [model_state['state']]
    are tidy (the marker occurs in a key only as its prefix and only once,
    and no stripped name is also a key), the copy the filter leaves holds
    exactly the entries prefixed with the marker, under their stripped
    names, with their values, in their order. *)
Theorem filter_on_tidy_state
    (self : Embedding.t) (l l' : loc) (ms d : Dict.t (pyval tensor)) w
    (model : extractor tensor image row) :
  heap w !! l = Some ms ->
  Dict.get ms "state" = Some (PDict l') ->
  heap w !! l' = Some d ->
  (Embedding.create_backbone E self w).1 = inr model ->
  NoDup (Dict.keys d) ->
  (forall k, k ∈ Dict.keys d -> tidy_key (Dict.keys d) k) ->
  Embedding.filtered_state E self (PDict l) w
  = (inr (model, length (heap w)), set_heap w (heap w ++ [spec_filter d])).
Proof.
  intros Hl Hs Hl' Hb Hnd Htidy. unfold Embedding.filtered_state.
  erewrite bind_ok; last first.
  { unfold getitem. rewrite Hl, Hs. reflexivity. }
  erewrite bind_ok; last first.
  { unfold dict_copy. rewrite Hl'. reflexivity. }
  set (w1 := set_heap w (heap w ++ [d])).
  erewrite bind_ok; last first.
  { unfold dict_keys. simpl. rewrite list_lookup_middle by done. reflexivity. }
  pose proof (create_backbone_pure E self w1) as Hp.
  pose proof (create_backbone_any_world self w1 w) as Hr. rewrite Hb in Hr.
  destruct (Embedding.create_backbone E self w1) as [r w2] eqn:Hc.
  simpl in Hp, Hr. subst r w2.
  erewrite bind_ok by exact Hc.
  erewrite bind_ok; last first.
  { apply (keep_feature_layers_pure (heap w) (Dict.keys d) d w1 (spec_filter d));
      [done|].
    assert (Hk : keep_all (d ++ []) (Dict.keys d) = Some ([] ++ spec_filter d)).
    { apply keep_all_tidy; [done|]. intros k Hk'. simpl.
      rewrite app_nil_r. by apply Htidy. }
    rewrite app_nil_r in Hk. exact Hk. }
  reflexivity.
Qed.

End FilterOnHeap.


Section SyncedFacts.

Context {tensor image row : Type}.
Implicit Types (w : world tensor row) (F : h5file row).



Variable model : nn_module tensor image row.
Variable dl : data_loader image.
Variable outfile : string.
Variable C : nat.



End SyncedFacts.

Section ReturnedArrays.

Context {tensor image row : Type}.
Implicit Types (w : world tensor row) (F : h5file row).


End ReturnedArrays.

(** * The step as a whole *)

Section Apply.

Context {tensor image row : Type}.
Implicit Types (w : world tensor row).

Variable E : collaborators tensor image row.

Lemma length_concat_call (model : nn_module tensor image row)
    (l : list (list image * list Z)) :
  length (concat (float32_rows model <$> l.*1))
  = sum_list ((fun xy => length xy.1) <$> l).
Proof.
  induction l as [|[x y] l IH]; csimpl; [done|].
  rewrite length_app, IH. unfold float32_rows, call. by rewrite !length_fmap.
Qed.

(** Once [apply] reaches the extraction over a well-formed loader, it
    returns the two mirrors and leaves the archive written and closed. *)
Lemma apply_ok (self : Embedding.t) ms w model dl outfile w2 :
  reaches_extraction E self ms w model dl outfile w2 ->
  loader_ok dl = true ->
  exists evs,
    Embedding.apply E self ms w
    = (inr (Some (expected_feats model dl, expected_labels dl)),
       add_trace (set_file w2 outfile (expected_archive model dl)) evs).
Proof.
  intros (Hm & w1 & H1 & H2) Hok.
  destruct (save_features_ok model dl outfile w2 Hok) as [evs Hs].
  { apply get_data_loader_and_outfile_isdir in H2.
    rewrite (bool_decide_eq_true_2 _ H2). apply orb_true_r. }
  exists evs. unfold Embedding.apply.
  erewrite bind_ok by reflexivity.
  rewrite Hm.
  erewrite bind_ok by exact H1.
  erewrite bind_ok by exact H2. simpl.
  erewrite bind_ok by exact Hs. reflexivity.
Qed.






End Apply.

Section Claims.

Context {tensor image row : Type}.
Implicit Types (w : world tensor row).

Variable E : collaborators tensor image row.

Lemma not_meta_neq (self : Embedding.t) :
  bool_decide (Embedding.method self ∈ ["maml"; "maml_approx"]) = false ->
  Embedding.method self <> "maml" /\ Embedding.method self <> "maml_approx".
Proof.
  intros H. apply bool_decide_eq_false_1 in H.
  split; intros Heq; apply H; rewrite Heq; repeat constructor.
Qed.


(** C3, amended. For a meta-learning method [apply] returns [None] having
    opened no archive and made no directory: the disk is as the seeding
    helper, which runs before the method is looked at, left it, and the
    trace holds that call and the message only. *)
Theorem apply_meta_returns_none (self : Embedding.t) ms w :
  bool_decide (Embedding.method self ∈ ["maml"; "maml_approx"]) = true ->
  Embedding.apply E self ms w
  = (inr None,
     add_trace
       (set_fs w (set_and_print_random_seed E (Embedding.random_seed self) true
                    (Embedding.checkpoint_dir self) (fs w)))
       [EvSeed (Embedding.random_seed self) true (Embedding.checkpoint_dir self);
        EvPrint "MAML doesn't support the step Embedding. Going on to the next step ..."]).
Proof.
  intros Hm. unfold Embedding.apply.
  erewrite bind_ok by reflexivity. rewrite Hm.
  erewrite bind_ok by reflexivity. unfold ret.
  by rewrite add_trace_add_trace.
Qed.


(** C10. With a loader of no batch, [apply] returns [None] for the features
    and the empty label array (the capacity is zero), and the archive holds
    an empty [all_labels], a [count] of 0 and no [all_feats]. *)
Theorem apply_on_empty_loader
    (self : Embedding.t) ms w model (dl : data_loader image) outfile w2 :
  reaches_extraction E self ms w model dl outfile w2 ->
  batches dl = [] ->
  exists w',
    Embedding.apply E self ms w = (inr (Some (None, [])), w')
    /\ file_at w' outfile
       = Some (H5 [("all_labels", []); ("count", [CInt 0%Z])] true).
Proof.
  intros Hr Hb.
  assert (Hok : loader_ok dl = true) by (unfold loader_ok; by rewrite Hb).
  destruct (apply_ok E self ms w model dl outfile w2 Hr Hok) as [evs Ha].
  eexists. split.
  - rewrite Ha. unfold expected_feats, expected_labels, total_examples, len.
    rewrite Hb. reflexivity.
  - rewrite file_at_add_trace, file_at_set_file.
    unfold expected_archive, expected_feats, expected_labels, total_examples, len.
    rewrite Hb. reflexivity.
Qed.

(** C5. Whenever the keys left by the filter are not exactly the
    names of the parameters of the backbone that was built (one is missing
    or one is unexpected), loading raises, and so does [apply]: no model
    comes out of it, and the step ends there, the disk and the trace being
    as the seeding call left them. *)
Theorem key_mismatch_aborts
    (self : Embedding.t) ms w (model : extractor tensor image row)
    (state : loc) w1 (d : Dict.t (pyval tensor)) :
  bool_decide (Embedding.method self ∈ ["maml"; "maml_approx"]) = false ->
  Embedding.filtered_state E self ms (Embedding.seeded E self w)
  = (inr (model, state), w1) ->
  heap w1 !! state = Some d ->
  (exists k, (k ∈ parameter_names model /\ k ∉ Dict.keys d)
             \/ (k ∈ Dict.keys d /\ k ∉ parameter_names model)) ->
  Embedding._load_model E self ms (Embedding.seeded E self w)
  = (inl RuntimeError, w1)
  /\ Embedding.apply E self ms w = (inl RuntimeError, w1)
  /\ fs w1 = fs (Embedding.seeded E self w)
  /\ trace w1 = trace (Embedding.seeded E self w).
Proof.
  intros Hm Hf Hd [k Hk].
  assert (Hmis : keys_match (parameter_names model) (Dict.keys d) = false).
  { unfold keys_match. apply andb_false_iff.
    destruct Hk as [[Hin Hout]|[Hin Hout]]; [left | right];
      apply not_true_is_false; intros Hall;
      rewrite forallb_forall in Hall;
      apply list_elem_of_In, Hall, bool_decide_eq_true_1 in Hin; done. }
  assert (Hl : Embedding._load_model E self ms (Embedding.seeded E self w)
               = (inl RuntimeError, w1)).
  { rewrite load_model_split. erewrite bind_ok by exact Hf.
    unfold load_state_dict. by rewrite Hd, Hmis. }
  split; [done|]. split.
  - unfold Embedding.apply. erewrite bind_ok by reflexivity. rewrite Hm.
    by erewrite bind_raise by exact Hl.
  - destruct (filtered_state_heap E self ms (Embedding.seeded E self w))
      as (r & new & Hr & _).
    rewrite Hr in Hf. inversion Hf; subst. done.
Qed.


(** C7. For a method that is not a meta-learning one, the data loader is
    asked for with the image size the backbone's name decides, 84 when the
    name is of the [Conv] family and 224 otherwise, and with batch size 64;
    the loader the call returns is the one obtained for that size. *)
Theorem image_size_by_backbone (self : Embedding.t) w :
  bool_decide (Embedding.method self ∈ ["maml"; "maml_approx"]) = false ->
  let size := if Str.contains "Conv" (Embedding.backbone self) then 84 else 224 in
  let path := get_path_to_json E (Embedding.dataset self) (Embedding.split self) in
  (exists rest,
     trace (Embedding._get_data_loader_and_outfile E self w).2
     = trace w ++ EvDataLoader size 64 path false (Embedding.shallow self) :: rest
     /\ Forall (fun e => forall a b c d e', e <> EvDataLoader a b c d e') rest)
  /\ forall dl outfile w',
       Embedding._get_data_loader_and_outfile E self w = (inr (dl, outfile), w') ->
       dl = get_data_loader E size 64 path false (Embedding.shallow self).
Proof.
  intros Hm size path. destruct (not_meta_neq self Hm) as [H1 H2].
  pose proof (get_data_loader_and_outfile_run E self w H1 H2) as Hrun.
  simpl in Hrun. unfold spec_image_size in Hrun. fold size in Hrun.
  fold path in Hrun. rewrite Hrun. clear Hrun.
  destruct (bool_decide (_ ∈ dirs _)); [|destruct (_ || _)]; simpl; split;
    try (intros dl outfile w'; congruence).
  - exists []. by split.
  - exists []. by split.
  - eexists [_]. split; [reflexivity|]. by repeat constructor.
Qed.

(** Rows beyond the count. For a well-formed loader the returned arrays
    hold zeros from index [count] up to the capacity: the label 0 and the
    all-zero feature tensor. *)
Theorem rows_beyond_count_are_zero
    (self : Embedding.t) ms w model (dl : data_loader image) outfile w2 :
  reaches_extraction E self ms w model dl outfile w2 ->
  loader_ok dl = true ->
  exists feats labels w',
    Embedding.apply E self ms w = (inr (Some (feats, labels)), w')
    /\ forall i,
         total_examples dl <= i < len dl * batch_size dl ->
         labels !! i = Some 0%Z
         /\ forall a, feats = Some a -> a !! i = Some (zero_row (arch model)).
Proof.
  intros Hr Hok. destruct (apply_ok E self ms w model dl outfile w2 Hr Hok)
    as [evs Ha].
  eexists _, _, _. split; [exact Ha|]. intros i Hi.
  destruct (length_labels_ok (batch_size dl) (batches dl) Hok) as [H1 H2].
  fold (total_examples dl) in H1, H2. fold (len dl) in H2.
  split.
  - unfold expected_labels. rewrite lookup_app_r by lia.
    apply lookup_replicate_2. lia.
  - unfold expected_feats. destruct (batches dl) eqn:Hb; [done|].
    rewrite <- Hb. intros a [= <-].
    pose proof (length_concat_call model (batches dl)) as Hc.
    fold (total_examples dl) in Hc.
    rewrite lookup_app_r by lia. apply lookup_replicate_2. lia.
Qed.

End Claims.

(** * Further properties of the step

    ** The filter on any state *)

Section DictMore.

Context {V : Type}.
Implicit Types (d : Dict.t V).

Lemma dict_pop_present d k :
  k ∈ Dict.keys d ->
  exists v d', Dict.pop d k = Some (v, d') /\ Dict.keys d ≡ₚ k :: Dict.keys d'.
Proof.
  induction d as [|[k' v'] d IH]; simpl; intros Hin.
  - by apply elem_of_nil in Hin.
  - destruct (String.eqb_spec k' k) as [->|Hne].
    + by eexists _, _.
    + apply elem_of_cons in Hin as [Heq|Hin]; [congruence|].
      destruct (IH Hin) as (v & d' & -> & Hp).
      eexists _, _. split; [done|]. csimpl.
      change (d.*1) with (Dict.keys d). rewrite Hp. apply Permutation_swap.
Qed.

Lemma dict_pop_entries d k v d' :
  Dict.pop d k = Some (v, d') ->
  (k, v) ∈ d /\ (forall kv, kv ∈ d' -> kv ∈ d)
  /\ (NoDup (Dict.keys d) -> (k ∉ Dict.keys d') /\ NoDup (Dict.keys d')).
Proof.
  revert d'. induction d as [|[k' v'] d IH]; simpl; intros d'; [done|].
  destruct (String.eqb_spec k' k) as [->|Hne].
  - intros [= <- <-]. split; [apply list_elem_of_here|].
    split; [intros; by apply list_elem_of_further|].
    intros Hnd. by apply NoDup_cons in Hnd.
  - destruct (Dict.pop d k) as [[x r]|]; [|done]. intros [= <- <-].
    destruct (IH r eq_refl) as (Hin & Hsub & Hnd).
    split; [by apply list_elem_of_further|]. split.
    + intros kv Hkv. apply elem_of_cons in Hkv as [->|Hkv];
        [apply list_elem_of_here | by apply list_elem_of_further, Hsub].
    + intros Hd. apply NoDup_cons in Hd as [Hk' Hd].
      destruct (Hnd Hd) as [Hk Hr]. split.
      * csimpl. intros Hx. apply elem_of_cons in Hx as [Hx|Hx]; [congruence|done].
      * csimpl. apply NoDup_cons. split; [|done].
        intros Hx. apply Hk'. apply list_elem_of_fmap in Hx as ([a b] & -> & Hab).
        apply list_elem_of_fmap. exists (a, b). split; [done|]. by apply Hsub.
Qed.

Lemma dict_set_keys d k v :
  Dict.keys (Dict.set d k v) = Dict.keys d
  \/ ((k ∉ Dict.keys d) /\ Dict.keys (Dict.set d k v) = Dict.keys d ++ [k]).
Proof.
  unfold Dict.keys. induction d as [|[k' v'] d IH]; simpl.
  - right. split; [apply not_elem_of_nil | done].
  - destruct (String.eqb_spec k' k) as [->|Hne]; [by left|].
    destruct IH as [IH|[Hn IH]]; csimpl; rewrite IH.
    + by left.
    + right. split; [|done].
      intros Hx. apply elem_of_cons in Hx as [Hx|Hx]; [congruence|done].
Qed.

Lemma dict_set_entries d k v kv :
  kv ∈ Dict.set d k v -> kv = (k, v) \/ kv ∈ d.
Proof.
  induction d as [|[k' v'] d IH]; simpl.
  - intros H. apply list_elem_of_singleton in H. by left.
  - destruct (String.eqb_spec k' k) as [->|Hne]; intros H.
    + apply elem_of_cons in H as [->|H]; [by left|].
      right. by apply list_elem_of_further.
    + apply elem_of_cons in H as [->|H]; [right; apply list_elem_of_here|].
      destruct (IH H) as [->|Hd]; [by left|]. right. by apply list_elem_of_further.
Qed.

Lemma dict_set_NoDup d k v :
  NoDup (Dict.keys d) -> NoDup (Dict.keys (Dict.set d k v)).
Proof.
  intros Hnd. destruct (dict_set_keys d k v) as [->|[Hn ->]]; [done|].
  apply NoDup_app. split; [done|]. split.
  - intros x Hx Hx'. apply list_elem_of_singleton in Hx'. by subst.
  - apply NoDup_singleton.
Qed.

(** The loop never pops a key that is not there. *)
Lemma keep_step_present d k :
  k ∈ Dict.keys d ->
  exists d', keep_step d k = Some d'
             /\ forall rem, k :: rem ⊆+ Dict.keys d -> rem ⊆+ Dict.keys d'.
Proof.
  intros Hin. destruct (dict_pop_present d k Hin) as (v & d1 & Hp & Hperm).
  assert (Hrem : forall rem, k :: rem ⊆+ Dict.keys d -> rem ⊆+ Dict.keys d1).
  { intros rem Hsub. rewrite Hperm in Hsub.
    by apply (submseteq_app_inv_l rem (Dict.keys d1) [k]). }
  unfold keep_step. rewrite Hp. destruct (Str.contains "feature." k).
  - eexists. split; [done|]. intros rem Hsub.
    etransitivity; [by apply Hrem|].
    destruct (dict_set_keys d1 (Str.replace k "feature." "") v) as [->|[_ ->]];
      [done | by apply submseteq_inserts_r].
  - eexists. split; [done|]. exact Hrem.
Qed.

Lemma keep_all_present (keys : list string) :
  forall d, keys ⊆+ Dict.keys d -> exists d', keep_all d keys = Some d'.
Proof.
  induction keys as [|k keys IH]; intros d Hsub; simpl; [by eexists|].
  destruct (keep_step_present d k) as (d1 & -> & Hrem).
  { eapply elem_of_submseteq; [|exact Hsub]. apply list_elem_of_here. }
  apply IH. by apply Hrem.
Qed.

Lemma keep_all_total d : exists d', keep_all d (Dict.keys d) = Some d'.
Proof. by apply keep_all_present. Qed.

(** What the loop keeps comes from a feature entry. *)
Lemma keep_all_provenance (orig : Dict.t V) (keys : list string) :
  forall d d',
    keep_all d keys = Some d' ->
    NoDup (Dict.keys d) ->
    (forall k v, (k, v) ∈ d ->
       ((k, v) ∈ orig /\ k ∈ keys) \/ from_feature_entry orig v) ->
    forall k v, (k, v) ∈ d' -> from_feature_entry orig v.
Proof.
  induction keys as [|k keys IH]; intros d d' Hrun Hnd Hinv; simpl in Hrun.
  - injection Hrun as <-. intros k v Hkv.
    destruct (Hinv k v Hkv) as [[_ Hin]|Hf]; [by apply elem_of_nil in Hin | done].
  - unfold keep_step in Hrun.
    destruct (Dict.pop d k) as [[v0 d1]|] eqn:Hp;
      [|by destruct (Str.contains "feature." k)].
    destruct (dict_pop_entries d k v0 d1 Hp) as (Hkv0 & Hsub & Hnd1).
    destruct (Hnd1 Hnd) as [Hk1 Hnd1'].
    assert (Hinv1 : forall k' v', (k', v') ∈ d1 ->
              ((k', v') ∈ orig /\ k' ∈ keys) \/ from_feature_entry orig v').
    { intros k' v' Hin. destruct (Hinv k' v' (Hsub _ Hin)) as [[Ho Hk]|Hf];
        [|by right].
      apply elem_of_cons in Hk as [->|Hk]; [|by left].
      exfalso. apply Hk1. apply list_elem_of_fmap. by exists (k, v'). }
    destruct (Str.contains "feature." k) eqn:Hc.
    + apply (IH _ _ Hrun); [by apply dict_set_NoDup|].
      intros k' v' Hin. apply dict_set_entries in Hin as [[= -> ->]|Hin];
        [|by apply Hinv1].
      right. destruct (Hinv k v0 Hkv0) as [[Ho _]|Hf]; [|done]. by exists k.
    + apply (IH _ _ Hrun); [done | exact Hinv1].
Qed.

End DictMore.

Section FilterRuns.

Context {tensor image row : Type}.
Implicit Types (w : world tensor row) (d : Dict.t (pyval tensor)).

Variable E : collaborators tensor image row.

Lemma tensors_of_entries d (p : Dict.t tensor) k t :
  tensors_of d = Some p -> (k, t) ∈ p -> (k, PTensor t) ∈ d.
Proof.
  revert p. induction d as [|[k' v'] d IH]; simpl; intros p.
  - intros [= <-] H. by apply elem_of_nil in H.
  - destruct v' as [|t'|]; [done| |done].
    destruct (tensors_of d) as [r|]; [|done]. intros [= <-] H.
    apply elem_of_cons in H as [[= -> ->]|H]; [apply list_elem_of_here|].
    apply list_elem_of_further. by apply (IH r).
Qed.

(** The filtering on a heap that holds [model_state] and its [state]. *)
Lemma filtered_state_cases (self : Embedding.t) (l l' : loc)
    (ms d d' : Dict.t (pyval tensor)) w :
  heap w !! l = Some ms ->
  Dict.get ms "state" = Some (PDict l') ->
  heap w !! l' = Some d ->
  keep_all d (Dict.keys d) = Some d' ->
  Embedding.filtered_state E self (PDict l) w
  = match (Embedding.create_backbone E self w).1 with
    | inl e => (inl e, set_heap w (heap w ++ [d]))
    | inr model =>
        (inr (model, length (heap w)), set_heap w (heap w ++ [d']))
    end.
Proof.
  intros Hl Hs Hl' Hk. unfold Embedding.filtered_state.
  erewrite bind_ok; last first.
  { unfold getitem. rewrite Hl, Hs. reflexivity. }
  erewrite bind_ok; last first.
  { unfold dict_copy. rewrite Hl'. reflexivity. }
  set (w1 := set_heap w (heap w ++ [d])).
  erewrite bind_ok; last first.
  { unfold dict_keys. simpl. rewrite list_lookup_middle by done. reflexivity. }
  pose proof (create_backbone_pure E self w1) as Hp.
  pose proof (create_backbone_any_world E self w1 w) as Hr.
  destruct (Embedding.create_backbone E self w1) as [r w2] eqn:Hc.
  simpl in Hp, Hr. subst w2. rewrite <- Hr.
  destruct r as [e|model].
  - by erewrite bind_raise by exact Hc.
  - erewrite bind_ok by exact Hc.
    erewrite bind_ok; last first.
    { by apply (keep_feature_layers_pure (heap w) (Dict.keys d) d w1 d'). }
    reflexivity.
Qed.

Lemma load_model_cases (self : Embedding.t) (l l' : loc)
    (ms d d' : Dict.t (pyval tensor)) w :
  heap w !! l = Some ms ->
  Dict.get ms "state" = Some (PDict l') ->
  heap w !! l' = Some d ->
  keep_all d (Dict.keys d) = Some d' ->
  Embedding._load_model E self (PDict l) w
  = match (Embedding.create_backbone E self w).1 with
    | inl e => (inl e, set_heap w (heap w ++ [d]))
    | inr model =>
        (if keys_match (parameter_names model) (Dict.keys d')
         then match tensors_of d' with
              | Some p =>
                  if accepts model p then inr (NnModule model p)
                  else inl RuntimeError
              | None => inl RuntimeError
              end
         else inl RuntimeError,
         set_heap w (heap w ++ [d']))
    end.
Proof.
  intros Hl Hs Hl' Hk. rewrite load_model_split. unfold bind at 1.
  rewrite (filtered_state_cases self l l' ms d d' w Hl Hs Hl' Hk).
  destruct (Embedding.create_backbone E self w).1 as [e|model]; [done|].
  unfold load_state_dict. simpl. rewrite list_lookup_middle by done.
  destruct (keys_match _ _); [|done]. destruct (tensors_of d'); [|done].
  by destruct (accepts _ _).
Qed.

(** The filtering loop never fails. Whatever the keys of the state, each
    key the loop visits is still in the copy when its turn comes, so no
    [pop] raises: once the copy is made and the backbone built, the
    filtering returns, and the copy holds what the loop leaves when it is
    run on the dictionary alone. *)
Theorem filter_never_fails (self : Embedding.t) (l l' : loc)
    (ms d : Dict.t (pyval tensor)) w (model : extractor tensor image row) :
  heap w !! l = Some ms ->
  Dict.get ms "state" = Some (PDict l') ->
  heap w !! l' = Some d ->
  (Embedding.create_backbone E self w).1 = inr model ->
  exists d',
    keep_all d (Dict.keys d) = Some d'
    /\ Embedding.filtered_state E self (PDict l) w
       = (inr (model, length (heap w)), set_heap w (heap w ++ [d'])).
Proof.
  intros Hl Hs Hl' Hb. destruct (keep_all_total d) as [d' Hk].
  exists d'. split; [done|].
  rewrite (filtered_state_cases self l l' ms d d' w Hl Hs Hl' Hk). by rewrite Hb.
Qed.

(** Where the loaded tensors come from. Every parameter of the model that
    [_load_model] returns is named by the backbone and holds a tensor that
    the state held under a key in which the marker [feature.] occurs, at
    whatever position in the key: the test of the filter is containment. *)
Theorem loaded_parameters_come_from_marked_keys
    (self : Embedding.t) (l l' : loc) (ms d : Dict.t (pyval tensor)) w
    (model : nn_module tensor image row) w' :
  heap w !! l = Some ms ->
  Dict.get ms "state" = Some (PDict l') ->
  heap w !! l' = Some d ->
  NoDup (Dict.keys d) ->
  Embedding._load_model E self (PDict l) w = (inr model, w') ->
  forall k t, (k, t) ∈ parameters model ->
    k ∈ parameter_names (arch model)
    /\ exists k0, (k0, PTensor t) ∈ d /\ Str.contains "feature." k0 = true.
Proof.
  intros Hl Hs Hl' Hnd Hrun k t Hkt.
  destruct (keep_all_total d) as [d' Hk].
  rewrite (load_model_cases self l l' ms d d' w Hl Hs Hl' Hk) in Hrun.
  destruct (Embedding.create_backbone E self w).1 as [e|ex]; [discriminate|].
  destruct (keys_match _ _) eqn:Hm; [|discriminate].
  destruct (tensors_of d') as [p|] eqn:Hp; [|discriminate].
  destruct (accepts ex p); [|discriminate].
  injection Hrun as <- <-. simpl in *.
  pose proof (tensors_of_entries d' p k t Hp Hkt) as Hin. split.
  - unfold keys_match in Hm. apply andb_true_iff in Hm as [_ Hm].
    rewrite forallb_forall in Hm.
    assert (Hkk : k ∈ Dict.keys d').
    { apply list_elem_of_fmap. by exists (k, PTensor t). }
    apply list_elem_of_In, Hm, bool_decide_eq_true_1 in Hkk. done.
  - apply (keep_all_provenance d (Dict.keys d) d d' Hk Hnd) with (k := k); [|done].
    intros k1 v1 Hin1. left. split; [done|].
    apply list_elem_of_fmap. by exists (k1, v1).
Qed.

(** Loading from a tidy state. When the keys of the state are tidy, the
    stripped names of its feature entries are exactly the names the
    backbone expects, and the tensors of these entries have the sizes the
    backbone takes, [_load_model] returns the backbone with the tensors of
    the feature entries under their stripped names. *)
Theorem load_model_on_tidy_state
    (self : Embedding.t) (l l' : loc) (ms d : Dict.t (pyval tensor)) w
    (model : extractor tensor image row) (p : Dict.t tensor) :
  heap w !! l = Some ms ->
  Dict.get ms "state" = Some (PDict l') ->
  heap w !! l' = Some d ->
  (Embedding.create_backbone E self w).1 = inr model ->
  NoDup (Dict.keys d) ->
  (forall k, k ∈ Dict.keys d -> tidy_key (Dict.keys d) k) ->
  keys_match (parameter_names model) (Dict.keys (spec_filter d)) = true ->
  tensors_of (spec_filter d) = Some p ->
  accepts model p = true ->
  Embedding._load_model E self (PDict l) w
  = (inr (NnModule model p), set_heap w (heap w ++ [spec_filter d])).
Proof.
  intros Hl Hs Hl' Hb Hnd Htidy Hkm Hp Hacc.
  assert (Hk : keep_all d (Dict.keys d) = Some (spec_filter d)).
  { assert (Hk : keep_all (d ++ []) (Dict.keys d) = Some ([] ++ spec_filter d)).
    { apply keep_all_tidy; [done|]. intros k Hk'. simpl.
      rewrite app_nil_r. by apply Htidy. }
    by rewrite app_nil_r in Hk. }
  rewrite (load_model_cases self l l' ms d (spec_filter d) w Hl Hs Hl' Hk).
  by rewrite Hb, Hkm, Hp, Hacc.
Qed.

End FilterRuns.

(** ** How the loading fails, and what it builds *)

Section LoadErrors.

Context {tensor image row : Type}.
Implicit Types (w : world tensor row) (d : Dict.t (pyval tensor)).

Variable E : collaborators tensor image row.

Lemma seeded_heap (self : Embedding.t) w :
  heap (Embedding.seeded E self w) = heap w.
Proof. reflexivity. Qed.

(** [apply] for a method that is not a meta-learning one, up to the loading. *)
Lemma apply_load_raise (self : Embedding.t) ms w e w1 :
  bool_decide (Embedding.method self ∈ ["maml"; "maml_approx"]) = false ->
  Embedding._load_model E self ms (Embedding.seeded E self w) = (inl e, w1) ->
  Embedding.apply E self ms w = (inl e, w1).
Proof.
  intros Hm Hl. unfold Embedding.apply.
  erewrite bind_ok by reflexivity. rewrite Hm.
  by erewrite bind_raise by exact Hl.
Qed.

Lemma create_backbone_unknown (self : Embedding.t) w :
  model_dict E (Embedding.backbone self) = None ->
  (bool_decide (Embedding.method self ∈ ["relationnet"; "relationnet_softmax"]) = true ->
   Embedding.backbone self ∉ ["Conv4"; "Conv6"; "Conv4S"]) ->
  (Embedding.create_backbone E self w).1 = inl (KeyError (Embedding.backbone self)).
Proof.
  intros Hn Hrel. unfold Embedding.create_backbone, Embedding.model_dict_call.
  rewrite Hn.
  destruct (bool_decide (Embedding.method self ∈ _)); [|done].
  specialize (Hrel eq_refl).
  repeat case_bool_decide; try done; exfalso; apply Hrel;
    match goal with H : Embedding.backbone self = _ |- _ => rewrite H end;
    repeat constructor.
Qed.

(** An unknown backbone. When the registry has no entry for the backbone
    (and the method is not a relation one with a backbone that has its
    dedicated variant), [apply] raises the [KeyError] of the lookup. By
    then the state has been copied, and nothing else has happened since the
    seeding: no loader was asked for, no directory made, no archive
    opened. *)
Theorem apply_unknown_backbone (self : Embedding.t) (l l' : loc)
    (ms d : Dict.t (pyval tensor)) w :
  bool_decide (Embedding.method self ∈ ["maml"; "maml_approx"]) = false ->
  heap w !! l = Some ms ->
  Dict.get ms "state" = Some (PDict l') ->
  heap w !! l' = Some d ->
  model_dict E (Embedding.backbone self) = None ->
  (bool_decide (Embedding.method self ∈ ["relationnet"; "relationnet_softmax"]) = true ->
   Embedding.backbone self ∉ ["Conv4"; "Conv6"; "Conv4S"]) ->
  Embedding.apply E self (PDict l) w
  = (inl (KeyError (Embedding.backbone self)),
     set_heap (Embedding.seeded E self w) (heap w ++ [d])).
Proof.
  intros Hm Hl Hs Hl' Hn Hrel.
  apply apply_load_raise; [done|].
  destruct (keep_all_total d) as [d' Hk].
  rewrite (load_model_cases E self l l' ms d d' (Embedding.seeded E self w) Hl Hs Hl' Hk).
  by rewrite create_backbone_unknown.
Qed.

(** A [model_state] without its [state]. For a method that is not a
    meta-learning one, [apply] on [None] raises [TypeError], and on a
    dictionary without the key [state] raises [KeyError] for that key; in
    both cases the world is as the seeding call left it. *)
Theorem apply_without_state (self : Embedding.t) ms w :
  bool_decide (Embedding.method self ∈ ["maml"; "maml_approx"]) = false ->
  (ms = PNone ->
   Embedding.apply E self ms w = (inl TypeError, Embedding.seeded E self w))
  /\ (forall l (d : Dict.t (pyval tensor)),
        ms = PDict l -> heap w !! l = Some d -> Dict.get d "state" = None ->
        Embedding.apply E self ms w
        = (inl (KeyError "state"), Embedding.seeded E self w)).
Proof.
  intros Hm. split.
  - intros ->. by apply apply_load_raise.
  - intros l d -> Hl Hs. apply apply_load_raise; [done|].
    unfold Embedding._load_model. apply bind_raise.
    unfold getitem. rewrite seeded_heap, Hl, Hs. reflexivity.
Qed.

Lemma create_backbone_cases (self : Embedding.t) w (model : extractor tensor image row) :
  (Embedding.create_backbone E self w).1 = inr model ->
  if bool_decide (Embedding.method self ∈ ["relationnet"; "relationnet_softmax"])
  then
    if bool_decide (Embedding.backbone self = "Conv4") then model = Conv4NP E
    else if bool_decide (Embedding.backbone self = "Conv6") then model = Conv6NP E
    else if bool_decide (Embedding.backbone self = "Conv4S") then model = Conv4SNP E
    else exists make, model_dict E (Embedding.backbone self) = Some make
                      /\ model = make (Some false)
  else exists make, model_dict E (Embedding.backbone self) = Some make
                    /\ model = make None.
Proof.
  unfold Embedding.create_backbone, Embedding.model_dict_call.
  repeat case_bool_decide; try (by intros [= <-]);
    destruct (model_dict E _) as [make|]; try done; intros [= <-]; eauto.
Qed.

(** The architecture that is built. The model [_load_model] returns is,
    for the methods [relationnet] and [relationnet_softmax], the variant
    [Conv4NP], [Conv6NP] or [Conv4SNP] of the backbones [Conv4], [Conv6] and
    [Conv4S], and for any other backbone the registry's entry called with
    [flatten=False]; for every other method it is the registry's entry
    called without argument. *)
Theorem load_model_architecture (self : Embedding.t) ms w
    (model : nn_module tensor image row) w' :
  Embedding._load_model E self ms w = (inr model, w') ->
  if bool_decide (Embedding.method self ∈ ["relationnet"; "relationnet_softmax"])
  then
    if bool_decide (Embedding.backbone self = "Conv4") then arch model = Conv4NP E
    else if bool_decide (Embedding.backbone self = "Conv6") then arch model = Conv6NP E
    else if bool_decide (Embedding.backbone self = "Conv4S") then arch model = Conv4SNP E
    else exists make, model_dict E (Embedding.backbone self) = Some make
                      /\ arch model = make (Some false)
  else exists make, model_dict E (Embedding.backbone self) = Some make
                    /\ arch model = make None.
Proof.
  unfold Embedding._load_model. intros Hrun.
  apply bind_inr in Hrun as (v & w1 & _ & Hrun).
  apply bind_inr in Hrun as (st & w2 & _ & Hrun).
  apply bind_inr in Hrun as (ks & w3 & _ & Hrun).
  apply bind_inr in Hrun as (ex & w4 & Hb & Hrun).
  apply bind_inr in Hrun as ([] & w5 & _ & Hrun).
  assert (arch model = ex) as ->.
  { unfold load_state_dict in Hrun.
    destruct (heap w5 !! st); [|done].
    destruct (keys_match _ _); [|done].
    destruct (tensors_of _); [|done]. destruct (accepts _ _); [|done].
    by injection Hrun as <- _. }
  apply (create_backbone_cases self w3). by rewrite Hb.
Qed.

Lemma get_data_loader_and_outfile_meta (self : Embedding.t) w :
  Embedding.method self ∈ ["maml"; "maml_approx"] ->
  Embedding._get_data_loader_and_outfile E self w = (inl AssertionError, w).
Proof.
  intros Hin. unfold Embedding._get_data_loader_and_outfile.
  apply elem_of_cons in Hin as [->|Hin]; [done|].
  apply list_elem_of_singleton in Hin as ->. done.
Qed.

(** The assertion of [_get_data_loader_and_outfile]. The call raises
    [AssertionError] exactly when the method is [maml] or [maml_approx],
    and then it has done nothing: no loader was asked for, no directory
    made. *)
Theorem assertion_exactly_for_meta_methods (self : Embedding.t) w :
  ((Embedding._get_data_loader_and_outfile E self w).1 = inl AssertionError
   <-> Embedding.method self ∈ ["maml"; "maml_approx"])
  /\ (Embedding.method self ∈ ["maml"; "maml_approx"] ->
      Embedding._get_data_loader_and_outfile E self w = (inl AssertionError, w)).
Proof.
  split; [|apply get_data_loader_and_outfile_meta]. split.
  - intros Hrun.
    destruct (decide (Embedding.method self ∈ ["maml"; "maml_approx"])) as [|Hn];
      [done|].
    exfalso.
    assert (H1 : Embedding.method self <> "maml").
    { intros Heq. apply Hn. rewrite Heq. repeat constructor. }
    assert (H2 : Embedding.method self <> "maml_approx").
    { intros Heq. apply Hn. rewrite Heq. repeat constructor. }
    pose proof (get_data_loader_and_outfile_run E self w H1 H2) as Hr.
    simpl in Hr. rewrite Hr in Hrun.
    destruct (bool_decide (_ ∈ dirs _)); [done|].
    by destruct (_ || _).
  - intros Hin. by rewrite get_data_loader_and_outfile_meta.
Qed.

End LoadErrors.

(** ** What the extraction keeps, for any relation on worlds *)

Section LoopRespects.

Context {tensor image row : Type}.
Implicit Types (w : world tensor row).

Variable R : world tensor row -> world tensor row -> Prop.
Hypothesis R_refl : forall w, R w w.
Hypothesis R_trans : forall w1 w2 w3, R w1 w2 -> R w2 w3 -> R w1 w3.

Variable model : nn_module tensor image row.
Variable dl : data_loader image.
Variable outfile : string.

Hypothesis R_print : forall msg, respects R (@print tensor row msg).
Hypothesis R_create :
  forall n z, respects R (@create_dataset tensor row outfile "all_feats" n z).
Hypothesis R_slice :
  forall name lo hi v, respects R (@h5_setslice tensor row (outfile, name) lo hi v).

Lemma save_batch_respects C i xy st :
  handle_ok outfile st ->
  respects R
    (Embedding.save_batch model dl outfile C (outfile, "all_labels") i xy st).
Proof.
  intros Hst. unfold Embedding.save_batch. destruct xy as [x y].
  apply respects_bind; [apply R_trans | | intros _ ].
  { destruct (_ =? _); [apply R_print | by apply respects_ret]. }
  apply respects_bind_inv
    with (I := fun p : (string * string) * option (list row) =>
                 p.1 = (outfile, "all_feats"));
    [apply R_trans | | | ].
  - destruct (Embedding.all_feats st); [by apply respects_ret|].
    apply respects_bind; [apply R_trans | apply R_create | ].
    intros ds. by apply respects_ret.
  - intros w [ds arr] Hrun. simpl.
    destruct (Embedding.all_feats st) as [ds0|] eqn:Hh.
    + unfold ret in Hrun. simpl in Hrun. inversion Hrun; subst. by apply Hst.
    + unfold bind in Hrun.
      destruct (create_dataset outfile "all_feats" C _ w) as [[?|r'] w'] eqn:Ec;
        simpl in Hrun; [discriminate|].
      unfold ret in Hrun. simpl in Hrun. inversion Hrun; subst.
      eapply create_dataset_handle. by rewrite Ec.
  - intros [ds arr] Hds. simpl in Hds. subst ds.
    apply respects_bind; [apply R_trans | apply R_slice | intros _ ].
    apply respects_bind; [apply R_trans | apply R_slice | intros _ ].
    apply respects_bind; [apply R_trans | | intros a ].
    { destruct arr; [by apply respects_lift | by apply respects_raise]. }
    apply respects_bind; [apply R_trans | | intros b ].
    { by apply respects_lift. }
    by apply respects_ret.
Qed.

Lemma loop_respects C (l : list (list image * list Z)) i st :
  handle_ok outfile st ->
  respects R
    (for_enumerate l i st
       (Embedding.save_batch model dl outfile C (outfile, "all_labels"))).
Proof.
  apply respects_for_enumerate with (I := handle_ok outfile).
  - apply R_refl.
  - apply R_trans.
  - intros. by apply save_batch_respects.
  - intros i' x s w s' Hs Hrun. eapply save_batch_handle; eauto.
Qed.

Hypothesis R_open : respects R (@h5py_File tensor row outfile).
Hypothesis R_create_any :
  forall name n z, respects R (@create_dataset tensor row outfile name n z).
Hypothesis R_setitem :
  forall name i v, respects R (@h5_setitem tensor row (outfile, name) i v).
Hypothesis R_close : respects R (@h5_close tensor row outfile).

Lemma save_features_respects :
  respects R (Embedding._save_features model dl outfile).
Proof.
  unfold Embedding._save_features.
  apply respects_bind_inv with (I := fun f => f = outfile);
    [apply R_trans | apply R_open | | ].
  { intros w f. destruct (h5py_File_cases outfile w) as [->|(w' & -> & _)];
      simpl; congruence. }
  intros f ->.
  apply respects_bind; [apply R_trans | apply R_print | intros _ ].
  apply respects_bind_inv with (I := fun ds => ds = (outfile, "all_labels"));
    [apply R_trans | apply R_create_any | | ].
  { intros w ds. apply create_dataset_handle. }
  intros ds ->.
  apply respects_bind; [apply R_trans | | intros st ].
  { apply loop_respects. by intros ds. }
  apply respects_bind_inv with (I := fun ds => ds = (outfile, "count"));
    [apply R_trans | apply R_create_any | | ].
  { intros w ds. apply create_dataset_handle. }
  intros ds ->.
  apply respects_bind; [apply R_trans | apply R_setitem | intros _ ].
  apply respects_bind; [apply R_trans | apply R_close | intros _ ].
  by apply respects_ret.
Qed.

End LoopRespects.

Section UpdateFacts.

Context {tensor row : Type}.
Implicit Types (w : world tensor row) (F : h5file row).

Lemma update_emit_grows (P : event -> Prop) p (g : h5file row -> exn + h5file row) e :
  P e -> respects (trace_grows P) (@h5_update tensor row p g ;; emit e).
Proof.
  intros HP. apply respects_bind; [apply trace_grows_trans | | ].
  - apply h5_update_grows.
  - intros _. by apply emit_grows.
Qed.

Lemma h5py_File_grows (P : event -> Prop) p :
  P (EvFileOpen p) -> respects (trace_grows P) (@h5py_File tensor row p).
Proof.
  intros HP w. unfold h5py_File. destruct (_ || _); [|apply trace_grows_refl].
  exists [EvFileOpen p]. simpl. split; [done|]. by constructor.
Qed.

Lemma only_touches_refl p w : only_touches p w w.
Proof. by repeat split. Qed.

Lemma only_touches_trans p w1 w2 w3 :
  only_touches p w1 w2 -> only_touches p w2 w3 -> only_touches p w1 w3.
Proof.
  intros (Ha & Hb & Hc) (Ha' & Hb' & Hc'). split; [|split; congruence].
  intros q Hq. rewrite Ha', Ha; done.
Qed.

Lemma set_file_only_touches p w F : only_touches p w (set_file w p F).
Proof.
  split; [|done]. intros q Hq. unfold file_at, set_file. simpl.
  by apply dict_get_set_ne.
Qed.

Lemma emit_only_touches p e : respects (only_touches p) (@emit tensor row e).
Proof. intros w. by repeat split. Qed.

Lemma h5_update_only_touches p g :
  respects (only_touches p) (@h5_update tensor row p g).
Proof.
  intros w. unfold h5_update.
  destruct (file_at w p) as [F|]; [|apply only_touches_refl].
  destruct (closed F); [apply only_touches_refl|].
  destruct (g F); [apply only_touches_refl|]. apply set_file_only_touches.
Qed.

Lemma update_emit_only_touches p g e :
  respects (only_touches p) (@h5_update tensor row p g ;; emit e).
Proof.
  apply respects_bind; [apply only_touches_trans | | ].
  - apply h5_update_only_touches.
  - intros _. apply emit_only_touches.
Qed.

Lemma create_dataset_only_touches p name n (z : cell row) :
  respects (only_touches p) (@create_dataset tensor row p name n z).
Proof.
  unfold create_dataset.
  apply respects_bind; [apply only_touches_trans | | ].
  - apply h5_update_only_touches.
  - intros _. apply respects_bind; [apply only_touches_trans | | ].
    + apply emit_only_touches.
    + intros _. apply respects_ret, only_touches_refl.
Qed.

Lemma h5py_File_only_touches p : respects (only_touches p) (@h5py_File tensor row p).
Proof.
  intros w. unfold h5py_File. destruct (_ || _); [|apply only_touches_refl].
  simpl. apply (set_file_only_touches p w).
Qed.

Lemma keeps_refl (P : world tensor row -> Prop) w : keeps P w w.
Proof. by intros H. Qed.

Lemma keeps_trans (P : world tensor row -> Prop) w1 w2 w3 :
  keeps P w1 w2 -> keeps P w2 w3 -> keeps P w1 w3.
Proof. unfold keeps. auto. Qed.

Lemma emit_half_written p e :
  respects (keeps (half_written p)) (@emit tensor row e).
Proof. intros w H. exact H. Qed.

(** An update that neither closes the archive nor adds [count]. *)
Lemma h5_update_half_written p q (g : h5file row -> exn + h5file row) :
  (forall F F', g F = inr F' -> closed F = false ->
     Dict.get (datasets F) "count" = None ->
     closed F' = false /\ Dict.get (datasets F') "count" = None) ->
  respects (keeps (half_written p)) (@h5_update tensor row q g).
Proof.
  intros Hg w (F0 & HF0 & Hc0 & Hn0). unfold h5_update.
  destruct (file_at w q) as [F|] eqn:HF; [|by exists F0].
  destruct (closed F) eqn:Hc; [by exists F0|].
  destruct (g F) as [e|F'] eqn:HgF; [by exists F0|]. simpl.
  destruct (decide (q = p)) as [->|Hne].
  - rewrite HF0 in HF. injection HF as ->.
    destruct (Hg F F' HgF Hc Hn0) as [Hc' Hn'].
    exists F'. by rewrite file_at_set_file.
  - exists F0. split; [|done]. unfold file_at, set_file. simpl.
    by rewrite dict_get_set_ne.
Qed.

Lemma create_feats_half_written p f n (z : cell row) :
  respects (keeps (half_written p)) (@create_dataset tensor row f "all_feats" n z).
Proof.
  unfold create_dataset.
  apply respects_bind; [apply keeps_trans | | ].
  - apply h5_update_half_written. intros F F' Hg Hc Hn.
    destruct (Dict.get (datasets F) "all_feats"); [done|].
    injection Hg as <-. simpl. split; [done|].
    by rewrite dict_get_set_ne.
  - intros _. apply respects_bind; [apply keeps_trans | | ].
    + apply emit_half_written.
    + intros _. apply respects_ret, keeps_refl.
Qed.

Lemma h5_setslice_half_written p ds lo hi (v : list (cell row)) :
  respects (keeps (half_written p)) (@h5_setslice tensor row ds lo hi v).
Proof.
  unfold h5_setslice.
  apply respects_bind; [apply keeps_trans | | ].
  - apply h5_update_half_written. intros F F' Hg Hc Hn.
    destruct (Dict.get (datasets F) ds.2) as [a|] eqn:Ha; [|done].
    destruct (Arr.setslice a lo hi v); [done|].
    injection Hg as <-. simpl. split; [done|].
    rewrite dict_get_set_ne; [done|]. intros Heq. congruence.
  - intros _. apply emit_half_written.
Qed.

End UpdateFacts.

(** ** Seeding comes first *)

Section SeedFirst.

Context {tensor image row : Type}.
Implicit Types (w : world tensor row).

Variable E : collaborators tensor image row.

Lemma save_features_grows (P : event -> Prop)
    (model : nn_module tensor image row) (dl : data_loader image) outfile :
  (forall msg, P (EvPrint msg)) ->
  P (EvFileOpen outfile) ->
  (forall name n, P (EvCreateDataset outfile name n)) ->
  (forall name lo hi, P (EvWrite outfile name lo hi)) ->
  P (EvFileClose outfile) ->
  respects (trace_grows P) (Embedding._save_features model dl outfile).
Proof.
  intros Hp Ho Hc Hw Hcl. apply save_features_respects.
  - apply trace_grows_refl.
  - apply trace_grows_trans.
  - intros msg. by apply emit_grows.
  - intros n z. by apply create_dataset_grows.
  - intros name lo hi v. by apply h5_setslice_grows.
  - by apply h5py_File_grows.
  - intros name n z. by apply create_dataset_grows.
  - intros name i v. by apply update_emit_grows.
  - by apply update_emit_grows.
Qed.

Lemma load_model_grows (P : event -> Prop) (self : Embedding.t) ms :
  respects (trace_grows P) (Embedding._load_model E self ms).
Proof.
  intros w. destruct (load_model_world E self ms w) as [new ->].
  exists []. simpl. by rewrite app_nil_r.
Qed.

Lemma get_data_loader_and_outfile_grows (P : event -> Prop) (self : Embedding.t) :
  (forall a b c d e, P (EvDataLoader a b c d e)) ->
  (forall d, P (EvMakedirs d)) ->
  respects (trace_grows P) (Embedding._get_data_loader_and_outfile E self).
Proof.
  intros Hd Hm w. unfold Embedding._get_data_loader_and_outfile.
  destruct (_ && _); [|apply trace_grows_refl].
  unfold bind, emit, isdir, makedirs, ret. simpl.
  destruct (bool_decide (_ ∈ _)) eqn:Hin; simpl.
  - eexists [_]. split; [done|]. by constructor.
  - rewrite Hin. destruct (_ || _); simpl.
    + eexists [_]. split; [done|]. by constructor.
    + eexists [_; _]. simpl. rewrite <- app_assoc. split; [done|].
      by repeat constructor.
Qed.

(** The seeding call comes first, and once. In every run of [apply],
    whatever the configuration and however the run ends, the first thing
    it does is the call [set_and_print_random_seed(random_seed, True,
    checkpoint_dir)], and no other call of the helper follows: the loader is
    asked for, and the archive written, after the seed is set. *)
Theorem apply_seeds_first_and_once (self : Embedding.t) ms w :
  exists rest,
    trace (Embedding.apply E self ms w).2
    = trace w
      ++ EvSeed (Embedding.random_seed self) true (Embedding.checkpoint_dir self)
         :: rest
    /\ Forall (fun e => is_seed e = false) rest.
Proof.
  set (P := fun e => is_seed e = false).
  assert (Hrest : forall w1,
    trace_grows P w1
      ((if bool_decide (Embedding.method self ∈ ["maml"; "maml_approx"])
        then
          print "MAML doesn't support the step Embedding. Going on to the next step ..." ;;
          ret None
        else
          let* model := Embedding._load_model E self ms in
          let* '(data_loader, outfile) := Embedding._get_data_loader_and_outfile E self in
          let* r := Embedding._save_features model data_loader outfile in
          ret (Some r)) w1).2).
  { intros w1. revert w1. change (respects (trace_grows P)
      (if bool_decide (Embedding.method self ∈ ["maml"; "maml_approx"])
        then
          print "MAML doesn't support the step Embedding. Going on to the next step ..." ;;
          ret None
        else
          let* model := Embedding._load_model E self ms in
          let* '(data_loader, outfile) := Embedding._get_data_loader_and_outfile E self in
          let* r := Embedding._save_features model data_loader outfile in
          ret (Some r))).
    destruct (bool_decide _).
    - apply respects_bind; [apply trace_grows_trans | | intros _ ].
      + by apply emit_grows.
      + apply respects_ret, trace_grows_refl.
    - apply respects_bind; [apply trace_grows_trans | | intros model ].
      { apply load_model_grows. }
      apply respects_bind; [apply trace_grows_trans | | intros [dl outfile] ].
      { by apply get_data_loader_and_outfile_grows. }
      apply respects_bind; [apply trace_grows_trans | | intros r ].
      { by apply save_features_grows. }
      apply respects_ret, trace_grows_refl. }
  unfold Embedding.apply. erewrite bind_ok by reflexivity.
  destruct (Hrest (Embedding.seeded E self w)) as (rest & Ht & HP).
  exists rest. split; [|done].
  unfold Embedding.seeded, Embedding.seed_call in Ht. simpl in Ht.
  unfold Embedding.seeded, Embedding.seed_call. simpl.
  rewrite Ht. by rewrite <- app_assoc.
Qed.

End SeedFirst.

(** ** An extraction that fails *)

Section FailedExtraction.

Context {tensor image row : Type}.
Implicit Types (w : world tensor row).

Lemma loop_half_written (model : nn_module tensor image row) (dl : data_loader image)
    outfile C (l : list (list image * list Z)) i st :
  handle_ok outfile st ->
  respects (keeps (half_written outfile))
    (for_enumerate l i st
       (Embedding.save_batch model dl outfile C (outfile, "all_labels"))).
Proof.
  apply loop_respects.
  - apply keeps_refl.
  - apply keeps_trans.
  - intros msg. apply emit_half_written.
  - intros n z. apply create_feats_half_written.
  - intros name lo hi v. apply h5_setslice_half_written.
Qed.

(** An extraction that fails leaves no [count]. When [_save_features]
    raises, either the archive could not be opened and the world is
    untouched, or the archive at the output path is left open (never
    closed) and without the field [count]: a reader finds [count] only in
    an archive whose rows are all written. *)
Theorem failed_extraction_leaves_no_count
    (model : nn_module tensor image row) (dl : data_loader image) outfile w e w' :
  Embedding._save_features model dl outfile w = (inl e, w') ->
  (e = OSError /\ w' = w)
  \/ (exists F, file_at w' outfile = Some F /\ closed F = false
                /\ Dict.get (datasets F) "count" = None).
Proof.
  unfold Embedding._save_features. intros Hrun.
  destruct (h5py_File_cases outfile w) as [H1|(w1 & H1 & _)].
  { rewrite (bind_raise _ _ _ _ _ H1) in Hrun. left. by injection Hrun as <- <-. }
  right.
  assert (Hw1 : w1 = add_trace (set_file w outfile (H5 [] false)) [EvFileOpen outfile]).
  { unfold h5py_File in H1. destruct (_ || _); [|discriminate]. by injection H1. }
  rewrite (bind_ok _ _ _ _ _ H1) in Hrun. subst w1. clear H1.
  erewrite bind_ok in Hrun by reflexivity.
  erewrite bind_ok in Hrun; last first.
  { apply (create_dataset_ok outfile "all_labels" _ _ _ (H5 [] false));
      [apply file_at_set_file | done | done]. }
  set (st0 := Embedding.Locals None None (replicate (len dl * batch_size dl) 0%Z) 0)
    in Hrun.
  assert (Hh : handle_ok outfile st0) by (by intros ds).
  match type of Hrun with
  | bind (for_enumerate ?l ?i _ ?body) _ ?w3 = _ =>
      pose proof (loop_half_written model dl outfile (len dl * batch_size dl)
                    l i st0 Hh w3) as HP;
      destruct (for_enumerate l i st0 body w3) as [[e4|st4] w4] eqn:E4
  end.
  - rewrite (bind_raise _ _ _ _ _ E4) in Hrun. injection Hrun as <- <-.
    apply HP. eexists. split; [apply file_at_set_file|]. by split.
  - rewrite (bind_ok _ _ _ _ _ E4) in Hrun. exfalso.
    destruct HP as (F4 & HF4 & Hc4 & Hn4).
    { eexists. split; [apply file_at_set_file|]. by split. }
    simpl in HF4.
    erewrite bind_ok in Hrun; last first.
    { by apply (create_dataset_ok outfile "count" _ _ _ F4). }
    erewrite bind_ok in Hrun; last first.
    { eapply h5_setitem_ok;
        [apply file_at_set_file | reflexivity | apply dict_get_set_eq | simpl; lia]. }
    erewrite bind_ok in Hrun; last first.
    { eapply h5_close_ok; [apply file_at_set_file | reflexivity]. }
    discriminate.
Qed.

End FailedExtraction.

(** ** The footprint of a run *)

Section OnlyOutfile.

Context {tensor image row : Type}.
Implicit Types (w : world tensor row).

Variable E : collaborators tensor image row.

Lemma save_features_only_touches
    (model : nn_module tensor image row) (dl : data_loader image) outfile :
  respects (only_touches outfile) (Embedding._save_features model dl outfile).
Proof.
  apply save_features_respects.
  - apply only_touches_refl.
  - apply only_touches_trans.
  - intros msg. apply emit_only_touches.
  - intros n z. apply create_dataset_only_touches.
  - intros name lo hi v. apply update_emit_only_touches.
  - apply h5py_File_only_touches.
  - intros name n z. apply create_dataset_only_touches.
  - intros name i v. apply update_emit_only_touches.
  - apply update_emit_only_touches.
Qed.

(** The footprint of [apply]. In every run, whatever the configuration and
    however the run ends, [apply] leaves every archive at a path other than
    the output file as the seeding call left it, leaves the recorded seeds
    as they were, and removes no directory. *)
Theorem apply_touches_only_outfile (self : Embedding.t) ms w :
  let outfile :=
    spec_outfile (Embedding.checkpoint_dir self) (Embedding.split self)
      (Embedding.save_iter self) in
  let s := Embedding.seeded E self w in
  let w' := (Embedding.apply E self ms w).2 in
  (forall p, p <> outfile -> file_at w' p = file_at s p)
  /\ seed_records (fs w') = seed_records (fs s)
  /\ (forall d, d ∈ dirs (fs s) -> d ∈ dirs (fs w')).
Proof.
  intros outfile s w'. unfold w', Embedding.apply.
  rewrite (bind_ok _ _ _ _ _
             (eq_refl : Embedding.seed_call E self w = (inr tt, s))).
  clearbody s. clear w'.
  destruct (bool_decide (Embedding.method self ∈ ["maml"; "maml_approx"])) eqn:Hm.
  { simpl. split; [done|]. split; done. }
  destruct (not_meta_neq self Hm) as [H1 H2].
  destruct (load_model_world E self ms s) as [new Hw1].
  destruct (Embedding._load_model E self ms s) as [[e|model] w1] eqn:Hl;
    simpl in Hw1.
  { rewrite (bind_raise _ _ _ _ _ Hl). subst w1. simpl.
    split; [done|]. split; done. }
  rewrite (bind_ok _ _ _ _ _ Hl).
  assert (Hfs : fs w1 = fs s) by (by subst w1). clear Hw1 Hl.
  pose proof (get_data_loader_and_outfile_run E self w1 H1 H2) as Hrun.
  cbv zeta in Hrun. fold outfile in Hrun.
  destruct (bool_decide (OsPath.dirname outfile ∈ dirs (fs w1))).
  - rewrite (bind_ok _ _ _ _ _ Hrun).
    match goal with
    | |- context [bind (Embedding._save_features ?m ?d ?o) ?k ?w2] =>
        pose proof (save_features_only_touches m d o w2) as (Ha & Hb & Hc);
        unfold bind; destruct (Embedding._save_features m d o w2) as [[e|r] w3]
    end; cbn [snd fst ret] in *.
    all: split; [intros p Hp; rewrite (Ha p Hp); unfold file_at; simpl; by rewrite Hfs|].
    all: split; [rewrite Hb; simpl; by rewrite Hfs|].
    all: intros d0 Hd0; rewrite Hc; simpl; by rewrite Hfs.
  - destruct (bool_decide (OsPath.dirname outfile = "") || exists_file (fs w1) _).
    + rewrite (bind_raise _ _ _ _ _ Hrun). cbn [snd].
      split; [intros p Hp; unfold file_at; simpl; by rewrite Hfs|].
      split; [simpl; by rewrite Hfs|]. intros d0 Hd0. simpl. by rewrite Hfs.
    + rewrite (bind_ok _ _ _ _ _ Hrun).
      match goal with
      | |- context [bind (Embedding._save_features ?m ?d ?o) ?k ?w2] =>
          pose proof (save_features_only_touches m d o w2) as (Ha & Hb & Hc);
          unfold bind; destruct (Embedding._save_features m d o w2) as [[e|r] w3]
      end; cbn [snd fst ret] in *.
      all: split; [intros p Hp; rewrite (Ha p Hp); unfold file_at; simpl; by rewrite Hfs|].
      all: split; [rewrite Hb; simpl; by rewrite Hfs|].
      all: intros d0 Hd0; rewrite Hc; simpl; rewrite Hfs;
        by apply list_elem_of_further.
Qed.

End OnlyOutfile.

(** ** The size of the returned arrays, whatever the loader *)

Section Capacity.

Context {tensor image row : Type}.
Implicit Types (w : world tensor row).

Lemma setslice_length {A} (a v a' : list A) lo n :
  Arr.setslice a lo (lo + n) v = inr a' -> length a' = length a.
Proof.
  unfold Arr.setslice.
  destruct (_ =? _) eqn:Hm.
  - apply Nat.eqb_eq in Hm. intros [= <-].
    rewrite !length_app, length_take, length_drop. lia.
  - destruct v as [|x [|y v]]; [done| |done]. intros [= <-].
    rewrite !length_app, length_take, length_replicate, length_drop. lia.
Qed.

Variable model : nn_module tensor image row.
Variable dl : data_loader image.
Variable outfile : string.
Variable C : nat.

Lemma save_batch_sized ds i xy st w st' w' :
  Embedding.save_batch model dl outfile C ds i xy st w = (inr st', w') ->
  sized C st ->
  sized C st' /\ exists a, Embedding.all_feats_array st' = Some a.
Proof.
  unfold Embedding.save_batch. destruct xy as [x y]. intros Hrun [Hl Hf].
  apply bind_inr in Hrun as (? & w0 & _ & Hrun).
  apply bind_inr in Hrun as ([h arr] & w1 & E1 & Hrun).
  apply bind_inr in Hrun as ([] & w2 & _ & Hrun).
  apply bind_inr in Hrun as ([] & w3 & _ & Hrun).
  apply bind_inr in Hrun as (a' & w4 & E4 & Hrun).
  apply bind_inr in Hrun as (b' & w5 & E5 & Hrun).
  unfold ret in Hrun. injection Hrun as <- <-.
  assert (Harr : forall a, arr = Some a -> length a = C).
  { destruct (Embedding.all_feats st).
    - unfold ret in E1. injection E1 as _ <- _. exact Hf.
    - apply bind_inr in E1 as (ds0 & w0' & _ & Er). unfold ret in Er.
      injection Er as _ <- _. intros a [= <-]. apply length_replicate. }
  destruct arr as [a1|]; [|discriminate].
  unfold lift in E4, E5.
  destruct (Arr.setslice a1 _ _ _) as [?|af] eqn:Haf; [discriminate|].
  destruct (Arr.setslice (Embedding.all_labels_array st) _ _ y) as [?|al] eqn:Hal;
    [discriminate|].
  injection E4 as <- _. injection E5 as <- _.
  apply setslice_length in Haf, Hal.
  split; [|by eexists]. split; simpl.
  - by rewrite Hal.
  - intros a [= <-]. rewrite Haf. by apply Harr.
Qed.

Lemma loop_sized ds (l : list (list image * list Z)) :
  forall i st w st' w',
    for_enumerate l i st (Embedding.save_batch model dl outfile C ds) w
    = (inr st', w') ->
    sized C st ->
    sized C st'
    /\ (l = [] -> st' = st)
    /\ (l <> [] -> exists a, Embedding.all_feats_array st' = Some a).
Proof.
  induction l as [|xy l IH]; intros i st w st' w' Hrun Hs; simpl in Hrun.
  - injection Hrun as <- <-. split; [done|]. split; [done|].
    intros H. by destruct H.
  - apply bind_inr in Hrun as (st1 & w1 & E1 & Hrun).
    destruct (save_batch_sized _ _ _ _ _ _ _ E1 Hs) as [Hs1 [a1 Ha1]].
    destruct (IH _ _ _ _ _ Hrun Hs1) as (Hs' & Hnil & Hcons).
    split; [done|]. split; [done|]. intros _.
    destruct l as [|xy' l]; [|by apply Hcons].
    rewrite (Hnil eq_refl). by exists a1.
Qed.

End Capacity.

Section CapacityTheorem.

Context {tensor image row : Type}.
Implicit Types (w : world tensor row).

(** The returned arrays have the capacity for their size, whatever the
    loader yields. When [_save_features] returns, the label array has
    [len(data_loader) * batch_size] entries; the feature array is [None]
    exactly when the loader has no batch, and has that many rows
    otherwise. *)
Theorem returned_arrays_have_capacity
    (model : nn_module tensor image row) (dl : data_loader image)
    outfile w feats labels w' :
  Embedding._save_features model dl outfile w = (inr (feats, labels), w') ->
  length labels = len dl * batch_size dl
  /\ (batches dl = [] -> feats = None)
  /\ (batches dl <> [] ->
      exists a, feats = Some a /\ length a = len dl * batch_size dl).
Proof.
  unfold Embedding._save_features. intros Hrun.
  apply bind_inr in Hrun as (f & w1 & _ & Hrun).
  apply bind_inr in Hrun as (? & w2 & _ & Hrun).
  apply bind_inr in Hrun as (labs & w3 & _ & Hrun).
  apply bind_inr in Hrun as (st & w4 & E4 & Hrun).
  apply bind_inr in Hrun as (cv & w5 & _ & Hrun).
  apply bind_inr in Hrun as (? & w6 & _ & Hrun).
  apply bind_inr in Hrun as (? & w7 & _ & Hrun).
  unfold ret in Hrun. injection Hrun as <- <- _.
  destruct (loop_sized model dl f (len dl * batch_size dl) labs _ _ _ _ _ _ E4)
    as ([Hl Hf] & Hnil & Hcons).
  { split; simpl; [apply length_replicate | done]. }
  split; [done|]. split.
  - intros Hb. by rewrite (Hnil Hb).
  - intros Hb. destruct (Hcons Hb) as [a Ha]. exists a. split; [done|]. by apply Hf.
Qed.

End CapacityTheorem.

(** ** Output files of different iterations *)

Section StrFacts.

Lemma to_int_not_nil (n : Z) :
  Z.to_int n <> Decimal.Pos Decimal.Nil /\ Z.to_int n <> Decimal.Neg Decimal.Nil.
Proof.
  split; intros H; pose proof (f_equal Z.of_int H) as H';
    rewrite DecimalZ.of_to in H'; simpl in H'; subst n; discriminate H.
Qed.

Lemma of_int_inj (n m : Z) : Str.of_int n = Str.of_int m -> n = m.
Proof.
  unfold Str.of_int. intros H.
  apply (f_equal NilZero.int_of_string) in H.
  destruct (to_int_not_nil n) as [Hn1 Hn2], (to_int_not_nil m) as [Hm1 Hm2].
  rewrite !NilZero.isi in H by done.
  injection H as H. by apply DecimalZ.to_int_inj.
Qed.

Lemma string_length_app (a b : string) :
  String.length (a +:+ b) = String.length a + String.length b.
Proof. induction a as [|c a IH]; simpl; [done|]. by rewrite IH. Qed.

Lemma string_app_inj_r (a b t : string) : a +:+ t = b +:+ t -> a = b.
Proof.
  revert b. induction a as [|c a IH]; intros [|c' b] H; simpl in H.
  - done.
  - apply (f_equal String.length) in H.
    rewrite !string_length_app in H. simpl in H. lia.
  - apply (f_equal String.length) in H.
    rewrite !string_length_app in H. simpl in H. lia.
  - injection H as -> H. by rewrite (IH b H).
Qed.

Lemma join_inj a b1 b2 :
  Str.startswith b1 "/" = Str.startswith b2 "/" ->
  OsPath.join a b1 = OsPath.join a b2 -> b1 = b2.
Proof.
  unfold OsPath.join. intros <-.
  destruct (Str.startswith b1 "/"); [done|].
  destruct (_ || _); intros H.
  - by apply String.app_inj in H.
  - apply String.app_inj in H. by apply (String.app_inj "/") in H.
Qed.

Lemma spec_outfile_inj dir split (n m : Z) :
  spec_outfile dir split n = spec_outfile dir split m -> n = m.
Proof.
  assert (Hs : forall r1 r2 : string,
    Str.startswith ("." +:+ r1) "/" = false ->
    Str.startswith ("_" +:+ r2) "/" = false ->
    forall a b, a = "."%char \/ a = "_"%char -> b = "."%char \/ b = "_"%char ->
    Str.startswith (split +:+ String a r1) "/"
    = Str.startswith (split +:+ String b r2) "/").
  { intros r1 r2 _ _ a b Ha Hb. destruct split as [|c s]; simpl; [|done].
    destruct Ha as [->| ->], Hb as [->| ->]; reflexivity. }
  unfold spec_outfile.
  destruct (bool_decide (n = (-1)%Z)) eqn:Hn, (bool_decide (m = (-1)%Z)) eqn:Hm;
    intros Heq.
  - apply bool_decide_eq_true_1 in Hn, Hm. congruence.
  - exfalso. apply join_inj in Heq.
    + apply String.app_inj in Heq. discriminate.
    + apply (Hs "hdf5" _); auto.
  - exfalso. apply join_inj in Heq.
    + apply String.app_inj in Heq. discriminate.
    + apply (Hs _ "hdf5"); auto.
  - apply join_inj in Heq.
    + apply String.app_inj in Heq. apply (String.app_inj "_") in Heq.
      apply string_app_inj_r in Heq. by apply of_int_inj.
    + apply (Hs _ _); auto.
Qed.

End StrFacts.

Section Iterations.

Context {tensor image row : Type}.
Implicit Types (w : world tensor row).

Variable E : collaborators tensor image row.

Lemma get_data_loader_and_outfile_inv (self : Embedding.t) w dl outfile w' :
  Embedding._get_data_loader_and_outfile E self w = (inr (dl, outfile), w') ->
  bool_decide (Embedding.method self ∈ ["maml"; "maml_approx"]) = false
  /\ outfile = spec_outfile (Embedding.checkpoint_dir self) (Embedding.split self)
                 (Embedding.save_iter self)
  /\ dl = get_data_loader E (spec_image_size (Embedding.backbone self)) 64
            (get_path_to_json E (Embedding.dataset self) (Embedding.split self))
            false (Embedding.shallow self)
  /\ heap w' = heap w
  /\ files (fs w') = files (fs w)
  /\ seed_records (fs w') = seed_records (fs w)
  /\ OsPath.dirname outfile ∈ dirs (fs w')
  /\ forall d, d ∈ dirs (fs w) -> d ∈ dirs (fs w').
Proof.
  intros Hrun.
  destruct (decide (Embedding.method self ∈ ["maml"; "maml_approx"])) as [Hin|Hn].
  { pose proof (get_data_loader_and_outfile_meta E self w Hin) as Hr.
    congruence. }
  assert (H1 : Embedding.method self <> "maml").
  { intros Heq. apply Hn. rewrite Heq. repeat constructor. }
  assert (H2 : Embedding.method self <> "maml_approx").
  { intros Heq. apply Hn. rewrite Heq. repeat constructor. }
  split; [by apply bool_decide_eq_false_2|].
  pose proof (get_data_loader_and_outfile_isdir E self w dl outfile w' Hrun) as Hd.
  pose proof (get_data_loader_and_outfile_run E self w H1 H2) as Hr.
  cbv zeta in Hr. rewrite Hr in Hrun. clear Hr.
  destruct (bool_decide (_ ∈ dirs _)); [|destruct (_ || _)];
    [ | discriminate | ]; injection Hrun as <- <- <-;
    repeat split; try done.
  simpl. intros d Hin. by apply list_elem_of_further.
Qed.

(** Archives of different iterations do not collide. Two steps with the
    same checkpoint directory and split but different [save_iter] get
    different output files (the best model, [save_iter = -1], included): the
    features of one checkpoint never overwrite those of another. *)
Theorem outfiles_of_distinct_iterations_differ
    (self1 self2 : Embedding.t) w1 w2 dl1 dl2 outfile1 outfile2 w1' w2' :
  Embedding.checkpoint_dir self1 = Embedding.checkpoint_dir self2 ->
  Embedding.split self1 = Embedding.split self2 ->
  Embedding.save_iter self1 <> Embedding.save_iter self2 ->
  Embedding._get_data_loader_and_outfile E self1 w1 = (inr (dl1, outfile1), w1') ->
  Embedding._get_data_loader_and_outfile E self2 w2 = (inr (dl2, outfile2), w2') ->
  outfile1 <> outfile2.
Proof.
  intros Hd Hs Hn Hr1 Hr2.
  apply get_data_loader_and_outfile_inv in Hr1 as (_ & -> & _).
  apply get_data_loader_and_outfile_inv in Hr2 as (_ & -> & _).
  rewrite Hd, Hs. intros Heq. by apply spec_outfile_inj in Heq.
Qed.

(** [None] means a meta-learning method. When [apply] returns [None], the
    method is [maml] or [maml_approx]: for every other method it returns
    the pair of arrays or raises. *)
Theorem apply_returns_none_only_for_meta (self : Embedding.t) ms w :
  (Embedding.apply E self ms w).1 = inr None ->
  Embedding.method self ∈ ["maml"; "maml_approx"].
Proof.
  unfold Embedding.apply. intros Hrun.
  apply bind_inr_fst in Hrun as ([] & w0 & _ & Hrun).
  destruct (bool_decide (Embedding.method self ∈ _)) eqn:Hm;
    [by apply bool_decide_eq_true_1 in Hm|].
  apply bind_inr_fst in Hrun as (model & w1 & _ & Hrun).
  apply bind_inr_fst in Hrun as ([dl outfile] & w2 & _ & Hrun).
  apply bind_inr_fst in Hrun as (r & w3 & _ & Hrun).
  discriminate.
Qed.

End Iterations.

(** ** Running the step again *)

Section Again.

Context {tensor image row : Type}.
Implicit Types (w : world tensor row).

Variable E : collaborators tensor image row.

Lemma load_model_inv (self : Embedding.t) ms w
    (model : nn_module tensor image row) w1 :
  Embedding._load_model E self ms w = (inr model, w1) ->
  exists l l' msd d,
    ms = PDict l /\ heap w !! l = Some msd
    /\ Dict.get msd "state" = Some (PDict l') /\ heap w !! l' = Some d.
Proof.
  unfold Embedding._load_model. intros Hrun.
  apply bind_inr in Hrun as (v & w0 & Hg & Hrun).
  apply bind_inr in Hrun as (st & w2 & Hc & _).
  unfold getitem in Hg. destruct ms as [l| |]; [|discriminate..].
  destruct (heap w !! l) as [msd|] eqn:Hl; [|discriminate].
  destruct (Dict.get msd "state") as [v'|] eqn:Hs; [|discriminate].
  injection Hg as <- <-.
  unfold dict_copy in Hc. destruct v' as [l'| |]; [|discriminate..].
  destruct (heap w !! l') as [d|] eqn:Hl'; [|discriminate].
  by exists l, l', msd, d.
Qed.

(** Loading again in a world whose heap has only grown gives the same
    model. *)
Lemma load_model_frame (self : Embedding.t) ms w wb extra
    (model : nn_module tensor image row) w1 :
  Embedding._load_model E self ms w = (inr model, w1) ->
  heap wb = heap w ++ extra ->
  exists new,
    Embedding._load_model E self ms wb = (inr model, set_heap wb (heap wb ++ new)).
Proof.
  intros Hrun Hh.
  destruct (load_model_inv self ms w model w1 Hrun)
    as (l & l' & msd & d & -> & Hl & Hs & Hl').
  destruct (keep_all_total d) as [d' Hk].
  rewrite (load_model_cases E self l l' msd d d' w Hl Hs Hl' Hk) in Hrun.
  assert (Hlb : heap wb !! l = Some msd).
  { rewrite Hh. by apply lookup_app_l_Some. }
  assert (Hlb' : heap wb !! l' = Some d).
  { rewrite Hh. by apply lookup_app_l_Some. }
  rewrite (load_model_cases E self l l' msd d d' wb Hlb Hs Hlb' Hk).
  rewrite (create_backbone_any_world E self wb w).
  destruct (Embedding.create_backbone E self w).1 as [e|ex]; [discriminate|].
  exists [d']. injection Hrun as Hrun _. by rewrite Hrun.
Qed.

(** Running the step again. With a seeding helper that removes no
    directory and collaborators that answer the second time as the first,
    [apply] run again in the world its first run left (the archive and its
    directory exist by then, and the heap holds the copy of the first run)
    returns the same arrays and leaves the same archive at the output
    path: the archive is overwritten, and the directory that exists is no
    obstacle. *)
Theorem apply_again_gives_the_same (self : Embedding.t) ms w
    (model : nn_module tensor image row) (dl : data_loader image) outfile w2 :
  (forall s d, d ∈ dirs s ->
     d ∈ dirs (set_and_print_random_seed E (Embedding.random_seed self) true
                 (Embedding.checkpoint_dir self) s)) ->
  reaches_extraction E self ms w model dl outfile w2 ->
  loader_ok dl = true ->
  exists r F w' w'',
    Embedding.apply E self ms w = (inr (Some r), w')
    /\ file_at w' outfile = Some F
    /\ Embedding.apply E self ms w' = (inr (Some r), w'')
    /\ file_at w'' outfile = Some F.
Proof.
  intros Hseed Hr Hok.
  destruct (apply_ok E self ms w model dl outfile w2 Hr Hok) as [evs Ha].
  set (w' := add_trace (set_file w2 outfile (expected_archive model dl)) evs) in *.
  destruct Hr as (Hm & w1 & Hload & Hget).
  pose proof (get_data_loader_and_outfile_inv E self w1 dl outfile w2 Hget)
    as (_ & Hout & Hdl & Hheap & _ & _ & Hdir & _).
  destruct (load_model_world E self ms (Embedding.seeded E self w)) as [new Hw1].
  rewrite Hload in Hw1. simpl in Hw1.
  (* the second run *)
  destruct (load_model_frame self ms (Embedding.seeded E self w)
              (Embedding.seeded E self w') new model w1 Hload) as [new' Hload'].
  { simpl. rewrite Hheap, Hw1. reflexivity. }
  set (w1' := set_heap (Embedding.seeded E self w')
                (heap (Embedding.seeded E self w') ++ new')) in *.
  assert (Hdir' : OsPath.dirname outfile ∈ dirs (fs w1')).
  { simpl. by apply Hseed. }
  destruct (not_meta_neq self Hm) as [H1 H2].
  pose proof (get_data_loader_and_outfile_run E self w1' H1 H2) as Hget'.
  cbv zeta in Hget'. rewrite <- Hout, <- Hdl in Hget'.
  rewrite (bool_decide_eq_true_2 _ Hdir') in Hget'.
  edestruct (apply_ok E self ms w' model dl outfile) as [evs' Ha'].
  { split; [done|]. exists w1'. split; [exact Hload' | exact Hget']. }
  { done. }
  eexists _, _, _, _. split; [exact Ha|].
  split; [apply file_at_set_file|]. split; [exact Ha'|].
  apply file_at_set_file.
Qed.

End Again.

(** ** A step built with the defaults *)

Section Defaults.

Context {tensor image row : Type}.
Implicit Types (w : world tensor row).

Variable E : collaborators tensor image row.
Variable path_to_step_output : string -> string -> string -> string -> string.
Variable save_dir : string.

(** The step built with the defaults, [Embedding(dataset)]. Its method is
    not a meta-learning one; its backbone is the registry's [Conv4] called
    without argument; it asks for the loader of the split [novel] with
    image size 84, batch size 64, no augmentation and not shallow; and its
    output file is [novel.hdf5] under
    [path_to_step_output(dataset, 'Conv4', 'baseline', configs.save_dir)]. *)
Theorem default_step (dataset : string) w :
  let self :=
    Embedding.__init__ path_to_step_output save_dir dataset
      None None None None None None None None None None None in
  let path := get_path_to_json E dataset "novel" in
  let outfile :=
    OsPath.join (path_to_step_output dataset "Conv4" "baseline" save_dir)
      "novel.hdf5" in
  (Embedding.method self ∉ ["maml"; "maml_approx"])
  /\ (Embedding.create_backbone E self w).1
     = match model_dict E "Conv4" with
       | Some make => inr (make None)
       | None => inl (KeyError "Conv4")
       end
  /\ (exists rest,
        trace (Embedding._get_data_loader_and_outfile E self w).2
        = trace w ++ EvDataLoader 84 64 path false false :: rest)
  /\ forall dl o w',
       Embedding._get_data_loader_and_outfile E self w = (inr (dl, o), w') ->
       o = outfile /\ dl = get_data_loader E 84 64 path false false.
Proof.
  intros self path outfile.
  assert (Hm : bool_decide (Embedding.method self ∈ ["maml"; "maml_approx"]) = false)
    by reflexivity.
  split; [by apply bool_decide_eq_false_1 in Hm|]. split.
  { unfold Embedding.create_backbone, Embedding.model_dict_call. simpl.
    by destruct (model_dict E "Conv4"). }
  split.
  - pose proof (get_data_loader_and_outfile_run E self w) as Hr.
    cbv zeta in Hr. rewrite Hr by done.
    destruct (bool_decide (_ ∈ dirs _)); [|destruct (_ || _)]; simpl;
      [by exists [] | by exists [] | by eexists [_] ].
  - intros dl o w' Hrun.
    by apply get_data_loader_and_outfile_inv in Hrun as (_ & -> & -> & _).
Qed.

End Defaults.

(** ** The events of an extraction, exactly *)

Section ExactEvents.

Context {tensor image row : Type}.
Implicit Types (w : world tensor row).

Variable model : nn_module tensor image row.
Variable dl : data_loader image.
Variable outfile : string.

Lemma save_batch_events C i x y st w st' w' first :
  Embedding.save_batch model dl outfile C (outfile, "all_labels") i (x, y) st w
  = (inr st', w') ->
  at_batch outfile first (Embedding.count st) st ->
  trace w'
  = trace w
    ++ (if i mod 100 =? 0
        then [EvPrint (Str.of_int (Z.of_nat i) +:+ "/" +:+ Str.of_int (Z.of_nat (len dl)))]
        else [])
    ++ (if first then [EvCreateDataset outfile "all_feats" C] else [])
    ++ [EvWrite outfile "all_feats" (Embedding.count st) (Embedding.count st + length x);
        EvWrite outfile "all_labels" (Embedding.count st) (Embedding.count st + length x)]
  /\ at_batch outfile false (Embedding.count st + length x) st'.
Proof.
  unfold Embedding.save_batch. intros Hrun [_ Hh].
  assert (Hlen : length (call model x) = length x)
    by (unfold call; by rewrite length_fmap).
  rewrite Hlen in Hrun.
  apply bind_inr in Hrun as (? & w0 & E0 & Hrun).
  apply bind_inr in Hrun as ([ds arr] & w1 & E1 & Hrun).
  apply bind_inr in Hrun as (? & w2 & E2 & Hrun).
  apply bind_inr in Hrun as (? & w3 & E3 & Hrun).
  apply bind_inr in Hrun as (a & w4 & E4 & Hrun).
  apply bind_inr in Hrun as (b & w5 & E5 & Hrun).
  unfold ret in Hrun. injection Hrun as <- <-.
  apply lift_inr in E5 as ->.
  assert (w4 = w3) as ->.
  { destruct arr; [by apply lift_inr in E4 | discriminate]. }
  assert (T0 : trace w0
               = trace w
                 ++ (if i mod 100 =? 0
                     then [EvPrint (Str.of_int (Z.of_nat i) +:+ "/"
                                    +:+ Str.of_int (Z.of_nat (len dl)))]
                     else [])).
  { destruct (_ =? _); inversion E0; subst; simpl; [done | by rewrite app_nil_r]. }
  assert (ds = (outfile, "all_feats")
          /\ trace w1
             = trace w0
               ++ (if first then [EvCreateDataset outfile "all_feats" C] else []))
    as (-> & T1).
  { rewrite Hh in E1. destruct first.
    - apply bind_inr in E1 as (ds0 & w0' & Ec & Er).
      unfold ret in Er. injection Er as <- _ <-.
      destruct (create_dataset_cases outfile "all_feats" C
                  (CRow (zero_row (arch model))) w0)
        as [[e He]|(w1' & He & Te)]; rewrite He in Ec; [discriminate|].
      by injection Ec as <- <-.
    - unfold ret in E1. injection E1 as <- _ <-. by rewrite app_nil_r. }
  destruct (h5_setslice_cases (outfile, "all_feats") (Embedding.count st)
              (Embedding.count st + length x)
              (CRow <$> (as_float32 (arch model) <$> call model x)) w1)
    as [[e He]|(w2' & He & T2)]; rewrite He in E2; [discriminate|].
  inversion E2; subst w2'. clear E2.
  destruct (h5_setslice_cases (outfile, "all_labels") (Embedding.count st)
              (Embedding.count st + length x) (CInt32 <$> y) w2)
    as [[e He']|(w3' & He' & T3)]; rewrite He' in E3; [discriminate|].
  inversion E3; subst w3'. clear E3.
  split; [|by split].
  rewrite T3, T2, T1, T0. simpl. by rewrite <- !app_assoc.
Qed.

Lemma loop_events C (l : list (list image * list Z)) :
  forall i st w st' w' first,
    for_enumerate l i st
      (Embedding.save_batch model dl outfile C (outfile, "all_labels")) w
    = (inr st', w') ->
    at_batch outfile first (Embedding.count st) st ->
    trace w'
    = trace w ++ batch_events outfile C (len dl) i (Embedding.count st) first l.
Proof.
  induction l as [|[x y] l IH]; intros i st w st' w' first Hrun Hst; simpl in Hrun.
  - injection Hrun as <- <-. simpl. by rewrite app_nil_r.
  - apply bind_inr in Hrun as (st1 & w1 & E1 & Hrun).
    destruct (save_batch_events _ _ _ _ _ _ _ _ _ E1 Hst) as [T1 Hst1].
    pose proof Hst1 as [Hc1 _]. rewrite <- Hc1 in Hst1.
    rewrite (IH _ _ _ _ _ _ Hrun Hst1), T1, Hc1. simpl.
    by rewrite <- !app_assoc.
Qed.

(** The events of an extraction, exactly. Whatever the loader, an
    extraction that returns has done this and nothing else, in this order:
    opened the archive, printed the batch size and the capacity, created
    [all_labels]; then for each batch printed the progress when the batch
    index is a multiple of 100, created [all_feats] if the batch is the
    first, and written the features and then the labels of the batch over
    the same range of rows, which starts where the previous batch ended;
    then created [count], written it, and closed the archive. *)
Theorem extraction_events_exact w r w' :
  Embedding._save_features model dl outfile w = (inr r, w') ->
  trace w' = trace w ++ extraction_events outfile dl.
Proof.
  unfold Embedding._save_features. intros Hrun.
  apply bind_inr in Hrun as (f & w1 & E1 & Hrun).
  destruct (h5py_File_cases outfile w) as [H1|(w1' & H1 & T1)];
    rewrite H1 in E1; [discriminate|].
  inversion E1; subst f w1'. clear E1 H1.
  apply bind_inr in Hrun as (? & w2 & E2 & Hrun).
  inversion E2; subst w2. clear E2.
  apply bind_inr in Hrun as (labs & w3 & E3 & Hrun).
  match type of E3 with
  | create_dataset _ _ _ ?z ?w2 = _ =>
      destruct (create_dataset_cases outfile "all_labels"
                  (len dl * batch_size dl) z w2)
        as [[e He]|(w3' & He & T3)]; rewrite He in E3; [discriminate|]
  end.
  inversion E3; subst labs w3'. clear E3 He.
  apply bind_inr in Hrun as (st & w4 & E4 & Hrun).
  pose proof (loop_events _ _ _ _ _ _ _ true E4) as T4.
  simpl in T4. specialize (T4 (conj eq_refl eq_refl)).
  destruct (closing_cases outfile (Z.of_nat (Embedding.count st))
              (Embedding.all_feats_array st, Embedding.all_labels_array st) w4)
    as (after & T5 & _ & Hall).
  rewrite Hrun in T5, Hall. simpl in T5.
  rewrite (Hall r eq_refl) in T5.
  rewrite T5, T4, T3. simpl. rewrite T1. unfold extraction_events.
  by rewrite <- !app_assoc.
Qed.

End ExactEvents.

(** ** What the arrays hold *)

Section Outputs.

Context {tensor image row : Type}.
Implicit Types (w : world tensor row).

Variable E : collaborators tensor image row.

Lemma concat_call (model : nn_module tensor image row) (xs : list (list image)) :
  concat (float32_rows model <$> xs)
  = as_float32 (arch model)
      <$> (forward (arch model) (parameters model) <$> concat xs).
Proof.
  induction xs as [|x xs IH]; csimpl; [done|].
  by rewrite IH, !fmap_app.
Qed.

(** What the arrays hold. For a well-formed loader, once [apply] reaches
    the extraction, the first [count] labels it returns are the labels the
    loader yielded, in order, and the first [count] rows of features are
    the outputs of the loaded model on the images the loader yielded, in
    order, each converted to 32-bit floats as the feature array stores
    them. *)
Theorem features_are_model_outputs
    (self : Embedding.t) ms w model (dl : data_loader image) outfile w2 :
  reaches_extraction E self ms w model dl outfile w2 ->
  loader_ok dl = true ->
  exists feats labels w',
    Embedding.apply E self ms w = (inr (Some (feats, labels)), w')
    /\ take (total_examples dl) labels = concat ((batches dl).*2)
    /\ forall a, feats = Some a ->
         take (total_examples dl) a
         = as_float32 (arch model)
             <$> (forward (arch model) (parameters model)
                    <$> concat ((batches dl).*1)).
Proof.
  intros Hr Hok. destruct (apply_ok E self ms w model dl outfile w2 Hr Hok)
    as [evs Ha].
  eexists _, _, _. split; [exact Ha|].
  destruct (length_labels_ok (batch_size dl) (batches dl) Hok) as [H1 H2].
  fold (total_examples dl) in H1, H2.
  split.
  - unfold expected_labels. rewrite take_app_length'; done.
  - unfold expected_feats. destruct (batches dl) eqn:Hb; [done|].
    rewrite <- Hb. intros a [= <-].
    rewrite take_app_length'; [apply concat_call|].
    rewrite length_concat_call. reflexivity.
Qed.

End Outputs.

(** ** The archive, field by field *)

Section ArchiveFields.

Context {tensor image row : Type}.
Implicit Types (w : world tensor row) (F : h5file row).




End ArchiveFields.

(** ** The parameters of the few-shot task *)

Section TaskParameters.

Context {tensor image row : Type}.
Implicit Types (w : world tensor row).

Variable E : collaborators tensor image row.
Variable path_to_step_output : string -> string -> string -> string -> string.
Variable save_dir : string.

(** The parameters of the few-shot task are ignored. Two steps built with
    the same dataset, backbone, method, split, iteration, output directory,
    seed and [shallow] flag, but with any [train_n_way], [test_n_way],
    [n_shot] and [train_aug], run alike: [apply] returns the same and
    leaves the same world. *)
Remark task_parameters_are_ignored
    (dataset : string) (backbone method : option string)
    (train_n_way train_n_way' test_n_way test_n_way' n_shot n_shot' : option Z)
    (train_aug train_aug' shallow : option bool)
    (split : option string) (save_iter : option Z) (output_dir : option string)
    (random_seed : option Z) ms w :
  Embedding.apply E
    (Embedding.__init__ path_to_step_output save_dir dataset backbone method
       train_n_way test_n_way n_shot train_aug shallow split save_iter
       output_dir random_seed) ms w
  = Embedding.apply E
      (Embedding.__init__ path_to_step_output save_dir dataset backbone method
         train_n_way' test_n_way' n_shot' train_aug' shallow split save_iter
         output_dir random_seed) ms w.
Proof. reflexivity. Qed.

End TaskParameters.

(** ** The directory of the output file *)

Section PathFacts.










End PathFacts.

Section CheckpointDir.

Context {tensor image row : Type}.
Implicit Types (w : world tensor row).

Variable E : collaborators tensor image row.



End CheckpointDir.

(** ** How far the capacity exceeds the count *)

Section StaleTail.

Context {tensor image row : Type}.
Implicit Types (w : world tensor row).

Variable E : collaborators tensor image row.



End StaleTail.

(** * The claims at concrete inputs *)


Example scenario_capacity_and_count :
  len (DataLoader 64 Sample.scenario) * 64 = 192
  /\ total_examples (DataLoader 64 Sample.scenario) = 130.
Proof. split; reflexivity. Qed.


Lemma apply_meta_returns_none_witness :
  Embedding.apply Run.E2 Run.maml (PDict 0) Run.w0
  = (inr None,
     add_trace
       (set_fs Run.w0
          (set_and_print_random_seed Run.E2 (Embedding.random_seed Run.maml) true
             (Embedding.checkpoint_dir Run.maml) (fs Run.w0)))
       [EvSeed (Embedding.random_seed Run.maml) true
          (Embedding.checkpoint_dir Run.maml);
        EvPrint "MAML doesn't support the step Embedding. Going on to the next step ..."]).
Proof. apply (apply_meta_returns_none Run.E2 Run.maml (PDict 0) Run.w0). reflexivity. Defined.

(** The claim C3 as stated fails when no seed is configured: the seeding
    helper, as the specification describes it, records the fresh seed before
    the method is looked at, so the disk is written. *)
Lemma apply_meta_records_seed :
  (Embedding.apply Run.E2 Run.maml (PDict 0) Run.w0).1 = inr None
  /\ seed_records (fs Run.w0) = []
  /\ seed_records (fs (Embedding.apply Run.E2 Run.maml (PDict 0) Run.w0).2)
     = [("out/CUB", 42%Z)].
Proof. vm_compute. repeat split; reflexivity. Qed.



Lemma apply_on_empty_loader_witness :
  exists w',
    Embedding.apply Run.E0 Run.baseline (PDict 0) Run.w0
    = (inr (Some (None, [])), w')
    /\ file_at w' Run.outfile
       = Some (H5 [("all_labels", []); ("count", [CInt 0%Z])] true).
Proof.
  apply (apply_on_empty_loader Run.E0 Run.baseline (PDict 0) Run.w0
           Run.model (DataLoader 64 []) Run.outfile Run.at_extraction).
  - split; [reflexivity|]. exists Run.after_load.
    split; vm_compute; reflexivity.
  - reflexivity.
Defined.

Lemma key_mismatch_aborts_witness :
  Embedding._load_model Run.E2 Run.baseline (PDict 0)
    (Embedding.seeded Run.E2 Run.baseline (Sample.world_of Run.headless))
  = (inl RuntimeError, Run.after_filter_headless)
  /\ Embedding.apply Run.E2 Run.baseline (PDict 0) (Sample.world_of Run.headless)
     = (inl RuntimeError, Run.after_filter_headless)
  /\ fs Run.after_filter_headless
     = fs (Embedding.seeded Run.E2 Run.baseline (Sample.world_of Run.headless))
  /\ trace Run.after_filter_headless
     = trace (Embedding.seeded Run.E2 Run.baseline (Sample.world_of Run.headless)).
Proof.
  apply (key_mismatch_aborts Run.E2 Run.baseline (PDict 0)
           (Sample.world_of Run.headless) Sample.conv4 2
           Run.after_filter_headless []).
  - reflexivity.
  - vm_compute. reflexivity.
  - reflexivity.
  - exists "trunk.0.weight". left. split.
    + apply list_elem_of_here.
    + apply not_elem_of_nil.
Defined.


Lemma image_size_by_backbone_witness :
  (exists rest,
     trace (Embedding._get_data_loader_and_outfile Run.E2 Run.baseline Run.w0).2
     = trace Run.w0 ++ EvDataLoader 84 64 "CUB/novel.json" false false :: rest
     /\ Forall (fun e => forall a b c d e', e <> EvDataLoader a b c d e') rest)
  /\ forall dl outfile w',
       Embedding._get_data_loader_and_outfile Run.E2 Run.baseline Run.w0
       = (inr (dl, outfile), w') ->
       dl = get_data_loader Run.E2 84 64 "CUB/novel.json" false false.
Proof.
  apply (image_size_by_backbone Run.E2 Run.baseline Run.w0). reflexivity.
Defined.

Lemma apply_leaves_model_state_unchanged_witness :
  heap (Embedding.apply Run.E2 Run.baseline (PDict 0) Run.w0).2 !! 1
  = Some Sample.trained.
Proof.
  apply (apply_leaves_model_state_unchanged Run.E2 Run.baseline (PDict 0) Run.w0 1).
  reflexivity.
Defined.

(** * The feature-layer filter at concrete states *)

(** The state of the specification's example: the feature layer is kept
    under its stripped name, the classifier head is dropped. *)
Example filter_keeps_feature_drops_head :
  heap (Embedding.filtered_state Run.E2 Run.baseline (PDict 0) Run.w0).2 !! 2
  = Some [("trunk.0.weight", PTensor 7%Z)].
Proof. vm_compute. reflexivity. Qed.

(** C2, where the code departs from it. The filter tests whether the marker
    occurs anywhere in the key and removes every occurrence: a key that is
    not prefixed with the marker but contains it is kept, under a name with
    the marker cut out; a key prefixed twice loses both prefixes; and a
    renamed entry that takes the name of a key still to be visited is
    dropped when that key's turn comes. *)
Theorem filter_tests_containment_not_prefix :
  heap (Embedding.filtered_state Run.E2 Run.baseline (PDict 0)
          (Sample.world_of [("classifier.feature.weight", PTensor 8%Z)])).2 !! 2
  = Some [("classifier.weight", PTensor 8%Z)]
  /\ heap (Embedding.filtered_state Run.E2 Run.baseline (PDict 0)
             (Sample.world_of [("feature.feature.w", PTensor 8%Z)])).2 !! 2
     = Some [("w", PTensor 8%Z)]
  /\ heap (Embedding.filtered_state Run.E2 Run.baseline (PDict 0)
             (Sample.world_of [("feature.a", PTensor 1%Z); ("a", PTensor 2%Z)])).2 !! 2
     = Some [].
Proof. vm_compute. repeat split; reflexivity. Qed.

Lemma filter_on_tidy_state_witness :
  Embedding.filtered_state Run.E2 Run.baseline (PDict 0) Run.w0
  = (inr (Sample.conv4, 2),
     set_heap Run.w0 (heap Run.w0 ++ [spec_filter Sample.trained])).
Proof.
  apply (filter_on_tidy_state Run.E2 Run.baseline 0 1
           [("state", PDict 1)] Sample.trained Run.w0 Sample.conv4).
  - reflexivity.
  - reflexivity.
  - reflexivity.
  - reflexivity.
  - compute_done.
  - intros k Hk Hc.
    apply list_elem_of_In in Hk. simpl in Hk.
    destruct Hk as [<-|[<-|[]]]; [|discriminate].
    exists "trunk.0.weight". split; [reflexivity|]. split; [reflexivity|].
    compute_done.
Defined.

Lemma rows_beyond_count_are_zero_witness :
  exists feats labels w',
    Embedding.apply Run.E130 Run.baseline (PDict 0) Run.w0
    = (inr (Some (feats, labels)), w')
    /\ forall i,
         total_examples (DataLoader 64 Sample.scenario) <= i
         < len (DataLoader 64 Sample.scenario)
           * batch_size (DataLoader 64 Sample.scenario) ->
         labels !! i = Some 0%Z
         /\ forall a, feats = Some a -> a !! i = Some (zero_row (arch Run.model)).
Proof.
  apply (rows_beyond_count_are_zero Run.E130 Run.baseline (PDict 0) Run.w0
           Run.model (DataLoader 64 Sample.scenario) Run.outfile
           Run.at_extraction).
  - split; [reflexivity|]. exists Run.after_load.
    split; vm_compute; reflexivity.
  - reflexivity.
Defined.

(** * The further properties at concrete inputs *)

(** A state in which a stripped name is also a key: the loop goes through. *)
Lemma filter_never_fails_witness :
  exists d',
    keep_all Run.untidy (Dict.keys Run.untidy) = Some d'
    /\ Embedding.filtered_state Run.E2 Run.baseline (PDict 0)
         (Sample.world_of Run.untidy)
       = (inr (Sample.conv4, length (heap (Sample.world_of Run.untidy))),
          set_heap (Sample.world_of Run.untidy)
            (heap (Sample.world_of Run.untidy) ++ [d'])).
Proof.
  apply (filter_never_fails Run.E2 Run.baseline 0 1
           [("state", PDict 1)] Run.untidy (Sample.world_of Run.untidy)
           Sample.conv4); reflexivity.
Defined.

Lemma loaded_parameters_come_from_marked_keys_witness :
  "trunk.0.weight" ∈ parameter_names (arch Run.model)
  /\ exists k0, (k0, PTensor 7%Z) ∈ Sample.trained
                /\ Str.contains "feature." k0 = true.
Proof.
  apply (loaded_parameters_come_from_marked_keys Run.E2 Run.baseline 0 1
           [("state", PDict 1)] Sample.trained
           (Embedding.seeded Run.E2 Run.baseline Run.w0) Run.model Run.after_load).
  - reflexivity.
  - reflexivity.
  - reflexivity.
  - compute_done.
  - vm_compute. reflexivity.
  - apply list_elem_of_here.
Defined.

Lemma load_model_on_tidy_state_witness :
  Embedding._load_model Run.E2 Run.baseline (PDict 0) Run.w0
  = (inr (NnModule Sample.conv4 [("trunk.0.weight", 7%Z)]),
     set_heap Run.w0 (heap Run.w0 ++ [spec_filter Sample.trained])).
Proof.
  apply (load_model_on_tidy_state Run.E2 Run.baseline 0 1
           [("state", PDict 1)] Sample.trained Run.w0 Sample.conv4).
  - reflexivity.
  - reflexivity.
  - reflexivity.
  - reflexivity.
  - compute_done.
  - intros k Hk Hc.
    apply list_elem_of_In in Hk. simpl in Hk.
    destruct Hk as [<-|[<-|[]]]; [|discriminate].
    exists "trunk.0.weight". split; [reflexivity|]. split; [reflexivity|].
    compute_done.
  - reflexivity.
  - reflexivity.
  - reflexivity.
Defined.

Lemma apply_unknown_backbone_witness :
  Embedding.apply Run.E2 Run.resnet (PDict 0) Run.w0
  = (inl (KeyError "ResNet10"),
     set_heap (Embedding.seeded Run.E2 Run.resnet Run.w0)
       (heap Run.w0 ++ [Sample.trained])).
Proof.
  apply (apply_unknown_backbone Run.E2 Run.resnet 0 1
           [("state", PDict 1)] Sample.trained Run.w0).
  - reflexivity.
  - reflexivity.
  - reflexivity.
  - reflexivity.
  - reflexivity.
  - intros H. vm_compute in H. discriminate H.
Defined.

Lemma apply_without_state_witness :
  Embedding.apply Run.E2 Run.baseline PNone Run.w0
  = (inl TypeError, Embedding.seeded Run.E2 Run.baseline Run.w0).
Proof.
  apply (proj1 (apply_without_state Run.E2 Run.baseline PNone Run.w0 eq_refl)).
  reflexivity.
Defined.

Lemma load_model_architecture_witness :
  exists make,
    model_dict Run.E2 "Conv4" = Some make /\ arch Run.model = make None.
Proof.
  apply (load_model_architecture Run.E2 Run.baseline (PDict 0)
           (Embedding.seeded Run.E2 Run.baseline Run.w0) Run.model Run.after_load).
  vm_compute. reflexivity.
Defined.

(** A batch of two examples for a capacity of one: the write of its
    features fails, and the archive is left open with its two arrays and
    no [count]. *)
Lemma failed_extraction_leaves_no_count_witness :
  exists F,
    file_at Run.after_overfull Run.outfile = Some F /\ closed F = false
    /\ Dict.get (datasets F) "count" = None.
Proof.
  destruct (failed_extraction_leaves_no_count Run.model Run.overfull Run.outfile
              Run.at_extraction TypeError Run.after_overfull)
    as [[He _]|H].
  - vm_compute. reflexivity.
  - discriminate He.
  - exact H.
Defined.

Lemma returned_arrays_have_capacity_witness :
  length [5; 6; 9; 0]%Z = len Run.small * batch_size Run.small
  /\ (batches Run.small = [] -> Some [17; 27; 37; 0]%Z = None)
  /\ (batches Run.small <> [] ->
      exists a, Some [17; 27; 37; 0]%Z = Some a
                /\ length a = len Run.small * batch_size Run.small).
Proof.
  apply (returned_arrays_have_capacity Run.model Run.small Run.outfile
           Run.at_extraction (Some [17; 27; 37; 0]%Z) [5; 6; 9; 0]%Z
           Run.after_small).
  vm_compute. reflexivity.
Defined.

Lemma outfiles_of_distinct_iterations_differ_witness :
  String.eqb "out/CUB/novel.hdf5" "out/CUB/novel_12.hdf5" = false.
Proof.
  apply String.eqb_neq.
  apply (outfiles_of_distinct_iterations_differ Run.E2 Run.baseline Run.baseline12
           Run.after_load Run.after_load
           (DataLoader 64 Sample.two_batches) (DataLoader 64 Sample.two_batches)
           "out/CUB/novel.hdf5" "out/CUB/novel_12.hdf5"
           Run.at_extraction Run.at_extraction12).
  - reflexivity.
  - reflexivity.
  - discriminate.
  - vm_compute. reflexivity.
  - vm_compute. reflexivity.
Defined.

Lemma apply_returns_none_only_for_meta_witness :
  Embedding.method Run.maml ∈ ["maml"; "maml_approx"].
Proof.
  apply (apply_returns_none_only_for_meta Run.E2 Run.maml (PDict 0) Run.w0).
  vm_compute. reflexivity.
Defined.

Lemma apply_again_gives_the_same_witness :
  exists r F w' w'',
    Embedding.apply Run.E2 Run.baseline (PDict 0) Run.w0 = (inr (Some r), w')
    /\ file_at w' Run.outfile = Some F
    /\ Embedding.apply Run.E2 Run.baseline (PDict 0) w' = (inr (Some r), w'')
    /\ file_at w'' Run.outfile = Some F.
Proof.
  apply (apply_again_gives_the_same Run.E2 Run.baseline (PDict 0) Run.w0
           Run.model (DataLoader 64 Sample.two_batches) Run.outfile
           Run.at_extraction).
  - intros s d Hd. exact Hd.
  - split; [reflexivity|]. exists Run.after_load.
    split; vm_compute; reflexivity.
  - reflexivity.
Defined.

Lemma extraction_events_exact_witness :
  trace Run.after_small
  = trace Run.at_extraction ++ extraction_events Run.outfile Run.small.
Proof.
  apply (extraction_events_exact Run.model Run.small Run.outfile
           Run.at_extraction (Some [17; 27; 37; 0]%Z, [5; 6; 9; 0]%Z)
           Run.after_small).
  vm_compute. reflexivity.
Defined.

(** The events of the extraction of the two batches into a capacity of 4. *)
Example extraction_events_small :
  extraction_events Run.outfile Run.small
  = [EvFileOpen "out/CUB/novel.hdf5"; EvPrint "2 4";
     EvCreateDataset "out/CUB/novel.hdf5" "all_labels" 4;
     EvPrint "0/2";
     EvCreateDataset "out/CUB/novel.hdf5" "all_feats" 4;
     EvWrite "out/CUB/novel.hdf5" "all_feats" 0 2;
     EvWrite "out/CUB/novel.hdf5" "all_labels" 0 2;
     EvWrite "out/CUB/novel.hdf5" "all_feats" 2 3;
     EvWrite "out/CUB/novel.hdf5" "all_labels" 2 3;
     EvCreateDataset "out/CUB/novel.hdf5" "count" 1;
     EvWrite "out/CUB/novel.hdf5" "count" 0 1;
     EvFileClose "out/CUB/novel.hdf5"].
Proof. reflexivity. Qed.

Lemma features_are_model_outputs_witness :
  exists feats labels w',
    Embedding.apply Run.E2 Run.baseline (PDict 0) Run.w0
    = (inr (Some (feats, labels)), w')
    /\ take (total_examples (DataLoader 64 Sample.two_batches)) labels
       = concat ((batches (DataLoader 64 Sample.two_batches)).*2)
    /\ forall a, feats = Some a ->
         take (total_examples (DataLoader 64 Sample.two_batches)) a
         = as_float32 (arch Run.model)
             <$> (forward (arch Run.model) (parameters Run.model)
                    <$> concat ((batches (DataLoader 64 Sample.two_batches)).*1)).
Proof.
  apply (features_are_model_outputs Run.E2 Run.baseline (PDict 0) Run.w0
           Run.model (DataLoader 64 Sample.two_batches) Run.outfile
           Run.at_extraction).
  - split; [reflexivity|]. exists Run.after_load.
    split; vm_compute; reflexivity.
  - reflexivity.
Defined.



